(** * Salary setting form: section synchronisation, validation and locking

    A shallow embedding of [admin_site/static/admin_site/scripts/salary_setting_form.js].

    The script keeps seven editable sections (basic components, allowances,
    reliefs, tax brackets, statutory deductions, other deductions, income
    items) in the page and mirrors each of them into a hidden form field as
    JSON.  The page is the store: every [update...JSON] function reads the
    input elements of its container and rebuilds the JSON value from them.

    Modelling choices.
    - A JavaScript Number is an IEEE 754 binary64 value: [spec_float] of the
      Standard Library at precision 53 and maximal exponent 1024, with its
      correctly rounded operations.
    - A JavaScript string is a [string]; a character is read as the code
      point of the same number (U+0000 to U+00FF).
    - A container is the list of its [.component-item] children, each item a
      record of the values of its input elements.
    - The platform functions the script calls ([parseFloat], [parseInt],
      [toFixed], [trim], [toLowerCase], [JSON.parse], [JSON.stringify], the
      value sanitisation of [<input type="number">] and [<input type="text">])
      are written out after their specifications (ECMA-262, HTML).

    Limits of the model.
    - Texts hold the characters U+0000 to U+00FF only, so [Json.parse]
      refuses an escape of a character above U+00FF, which [JSON.parse]
      accepts.  What is stated about a hidden field that is not JSON is
      stated for texts without such an escape ([within_latin1]).
    - The templates of the [add...] functions are modelled by the values
      that the rendered inputs hold.  This is what the page holds for data
      whose fields convert to a text ([String] throws on an object that has
      an own [toString] which is no function), whose text fields hold no
      U+0000 and whose number fields, which the templates interpolate
      unescaped, hold no double quote and no ampersand ([plain_record]).
      What is stated about records rendered from arbitrary stored data is
      stated for such data. *)

From Stdlib Require Import ZArith List Bool String Ascii Lia.
From Stdlib Require Import SpecFloat.
Import ListNotations.

Set Warnings "-register-all".

Local Open Scope string_scope.
Local Open Scope Z_scope.

(* ================================================================== *)
(** * Characters and strings *)
(* ================================================================== *)

Module Str.

Definition code (c : ascii) : Z := Z.of_nat (nat_of_ascii c).

Definition chr (n : Z) : ascii := ascii_of_nat (Z.to_nat n).

Definition between (lo hi : Z) (c : ascii) : bool :=
  (lo <=? code c) && (code c <=? hi).

Definition is_digit (c : ascii) : bool := between 48 57 c.

(** WhiteSpace and LineTerminator of ECMA-262 below U+0100: TAB, LF, VT, FF,
    CR, SP and NBSP.  This is the set removed by [trim], skipped by
    [parseFloat] and [parseInt], and matched by [\s]. *)
Definition is_space (c : ascii) : bool :=
  between 9 13 c || (code c =? 32) || (code c =? 160).

Fixpoint trimStart (s : string) : string :=
  match s with
  | String c r => if is_space c then trimStart r else s
  | EmptyString => EmptyString
  end.

Fixpoint all_space (s : string) : bool :=
  match s with
  | String c r => is_space c && all_space r
  | EmptyString => true
  end.

Fixpoint trimEnd (s : string) : string :=
  match s with
  | String c r => if all_space s then EmptyString else String c (trimEnd r)
  | EmptyString => EmptyString
  end.

(** [String.prototype.trim]. *)
Definition trim (s : string) : string := trimEnd (trimStart s).

Definition lower_char (c : ascii) : ascii :=
  if between 65 90 c || between 192 214 c || between 216 222 c
  then chr (code c + 32) else c.

(** [String.prototype.toLowerCase]. *)
Fixpoint toLowerCase (s : string) : string :=
  match s with
  | String c r => String (lower_char c) (toLowerCase r)
  | EmptyString => EmptyString
  end.

(** [s.replace(/\s+/g, '_')]: every maximal run of white space becomes one
    underscore. *)
Fixpoint replace_spaces_from (in_run : bool) (s : string) : string :=
  match s with
  | String c r =>
      if is_space c then
        if in_run then replace_spaces_from true r
        else String "_" (replace_spaces_from true r)
      else String c (replace_spaces_from false r)
  | EmptyString => EmptyString
  end.

Definition replace_spaces : string -> string := replace_spaces_from false.

(** A JavaScript string is truthy when it is not empty. *)
Definition nonempty (s : string) : bool :=
  match s with EmptyString => false | _ => true end.

Fixpoint starts_with (p s : string) : bool :=
  match p, s with
  | EmptyString, _ => true
  | String a p', String b s' => Ascii.eqb a b && starts_with p' s'
  | _, EmptyString => false
  end.

(** [s.includes(p)]. *)
Fixpoint includes (p s : string) : bool :=
  starts_with p s ||
  match s with
  | String _ r => includes p r
  | EmptyString => false
  end.

(** The longest prefix of decimal digits, as digit values, and the rest. *)
Fixpoint span_digits (s : string) : list Z * string :=
  match s with
  | String c r =>
      if is_digit c
      then let '(ds, rest) := span_digits r in ((code c - 48) :: ds, rest)
      else ([], s)
  | EmptyString => ([], EmptyString)
  end.

Definition digits_value (ds : list Z) : Z :=
  fold_left (fun acc d => 10 * acc + d) ds 0.

Definition digit_char (d : Z) : ascii := chr (48 + d).

Fixpoint digits_aux (fuel : nat) (n : Z) (acc : string) : string :=
  match fuel with
  | O => acc
  | S f =>
      let acc' := String (digit_char (n mod 10)) acc in
      if n <? 10 then acc' else digits_aux f (n / 10) acc'
  end.

(** The decimal digits of a natural number, most significant first. *)
Definition of_Z (n : Z) : string :=
  digits_aux (S (Z.to_nat (Z.log2 n))) n EmptyString.

Fixpoint zeros (n : nat) : string :=
  match n with O => EmptyString | S k => String "0" (zeros k) end.

Fixpoint take (n : nat) (s : string) : string :=
  match n, s with
  | S k, String c r => String c (take k r)
  | _, _ => EmptyString
  end.

Fixpoint drop (n : nat) (s : string) : string :=
  match n, s with
  | S k, String _ r => drop k r
  | _, _ => s
  end.

End Str.

(* ================================================================== *)
(** * Numbers *)
(* ================================================================== *)

Module Num.

Definition number := spec_float.

Definition prec : Z := 53.
Definition emax : Z := 1024.

Definition NaN : number := S754_nan.
Definition Infinity : number := S754_infinity false.

Definition isNaN (x : number) : bool :=
  match x with S754_nan => true | _ => false end.

Definition is_infinite (x : number) : bool :=
  match x with S754_infinity _ => true | _ => false end.

Definition isFinite (x : number) : bool :=
  match x with S754_zero _ | S754_finite _ _ _ => true | _ => false end.

Definition add : number -> number -> number := SFadd prec emax.
Definition sub : number -> number -> number := SFsub prec emax.
Definition mul : number -> number -> number := SFmul prec emax.
Definition div : number -> number -> number := SFdiv prec emax.
Definition abs : number -> number := SFabs.
Definition lt : number -> number -> bool := SFltb.
Definition gt (x y : number) : bool := SFltb y x.

(** ToBoolean of a Number: false for NaN, +0 and -0. *)
Definition truthy (x : number) : bool :=
  match x with S754_nan | S754_zero _ => false | _ => true end.

(** [x || d] on Numbers. *)
Definition or_default (x d : number) : number := if truthy x then x else d.

(** The Number nearest to [m * 10^e] (ties to even), with the sign [neg];
    [m] is a natural number. *)
Definition of_decimal (neg : bool) (m e : Z) : number :=
  match m with
  | Zpos p =>
      match e with
      | Zneg q =>
          SFdiv prec emax (S754_finite neg p 0) (S754_finite false (Pos.pow 10 q) 0)
      | _ => binary_round prec emax neg (Z.to_pos (m * 10 ^ e)) 0
      end
  | _ => S754_zero neg
  end.

Definition of_Z (n : Z) : number := of_decimal (n <? 0) (Z.abs n) 0.

Definition read_sign (s : string) : bool * string :=
  match s with
  | String "-" r => (true, r)
  | String "+" r => (false, r)
  | _ => (false, s)
  end.

(** The exponent part of a StrDecimalLiteral, when it is well formed. *)
Definition read_exponent (s : string) : Z :=
  match s with
  | String c r =>
      if (Str.code c =? 101) || (Str.code c =? 69) then
        let '(neg, r') := read_sign r in
        match Str.span_digits r' with
        | ([], _) => 0
        | (ds, _) => if neg then - Str.digits_value ds else Str.digits_value ds
        end
      else 0
  | EmptyString => 0
  end.

(** [parseFloat(s)]: leading white space is skipped and the longest prefix
    that is a StrDecimalLiteral is converted; NaN when there is none. *)
Definition parseFloat (s : string) : number :=
  let '(neg, u) := read_sign (Str.trimStart s) in
  if Str.starts_with "Infinity" u then S754_infinity neg else
  let '(ip, u1) := Str.span_digits u in
  let '(fp, u2) :=
    match u1 with
    | String "." r => Str.span_digits r
    | _ => ([], u1)
    end in
  match (ip ++ fp)%list with
  | [] => NaN
  | ds => of_decimal neg (Str.digits_value ds)
            (read_exponent u2 - Z.of_nat (List.length fp))
  end.

Definition hex_value (c : ascii) : option Z :=
  if Str.is_digit c then Some (Str.code c - 48)
  else if Str.between 97 102 c then Some (Str.code c - 87)
  else if Str.between 65 70 c then Some (Str.code c - 55)
  else None.

Fixpoint span_hex (s : string) : list Z * string :=
  match s with
  | String c r =>
      match hex_value c with
      | Some d => let '(ds, rest) := span_hex r in (d :: ds, rest)
      | None => ([], s)
      end
  | EmptyString => ([], EmptyString)
  end.

(** [parseInt(s)] with no radix: base 16 after a [0x] prefix, base 10
    otherwise; NaN when no digit follows the sign. *)
Definition parseInt (s : string) : number :=
  let '(neg, u) := read_sign (Str.trimStart s) in
  match u with
  | String "0" (String x r) =>
      if (Str.code x =? 120) || (Str.code x =? 88) then
        match fst (span_hex r) with
        | [] => NaN
        | ds => of_decimal neg (fold_left (fun acc d => 16 * acc + d) ds 0) 0
        end
      else of_decimal neg (Str.digits_value (fst (Str.span_digits u))) 0
  | _ =>
      match fst (Str.span_digits u) with
      | [] => NaN
      | ds => of_decimal neg (Str.digits_value ds) 0
      end
  end.

(** The exact value of a positive finite Number [m * 2^e] as a fraction. *)
Definition fraction (m : positive) (e : Z) : Z * Z :=
  match e with
  | Zneg q => (Zpos m, Zpos (Pos.pow 2 q))
  | _ => (Zpos m * 2 ^ e, 1)
  end.

(** The least [n >= from] with [num / den < 10^n], by counting up. *)
Fixpoint exp10_up (fuel : nat) (num den n p : Z) : Z :=
  match fuel with
  | O => n
  | S f => if num <? p * den then n else exp10_up f num den (n + 1) (p * 10)
  end.

(** The greatest [j] with [num * 10^j < den], by counting up. *)
Fixpoint exp10_down (fuel : nat) (num den j p : Z) : Z :=
  match fuel with
  | O => j
  | S f => if num * (p * 10) <? den then exp10_down f num den (j + 1) (p * 10) else j
  end.

(** The integer [n] with [10^(n-1) <= num/den < 10^n]. *)
Definition decimal_exponent (num den : Z) : Z :=
  if den <=? num then exp10_up 400 num den 1 10
  else - exp10_down 400 num den 0 1.

(** The candidates with [k] digits next to [x = num/den]: the integers
    [s] just below and just above [x * 10^(k-n)], each with its decimal
    exponent, and the comparison of [x] with the midpoint. *)
Definition neighbours (num den n k : Z) : (Z * Z) * (Z * Z) * comparison :=
  let '(a, b) := if n <=? k then (num * 10 ^ (k - n), den)
                 else (num, den * 10 ^ (n - k)) in
  let q := a / b in
  let r := a mod b in
  let hi := if q + 1 =? 10 ^ k then (10 ^ (k - 1), n + 1) else (q + 1, n) in
  ((q, n), hi, (2 * r ?= b)).

Definition same_number (x : number) (k : Z) (c : Z * Z) : bool :=
  SFeqb (of_decimal false (fst c) (snd c - k)) x.

(** The digits [s], their number [k] and the exponent [n] of
    Number::toString: [k] as small as possible with [s * 10^(n-k)] reading
    back as [x]; among two such [s] the one closer to [x], the even one on a
    tie. *)
Fixpoint shortest (x : number) (num den n : Z) (ks : list Z) : Z * Z * Z :=
  match ks with
  | [] => (0, 1, n)
  | k :: rest =>
      let '(lo, hi, c) := neighbours num den n k in
      let pick (c : Z * Z) := (fst c, k, snd c) in
      match same_number x k lo, same_number x k hi with
      | true, true =>
          match c with
          | Lt => pick lo
          | Gt => pick hi
          | Eq => if Z.even (fst lo) then pick lo else pick hi
          end
      | true, false => pick lo
      | false, true => pick hi
      | false, false =>
          match rest with
          | [] => match c with Gt => pick hi | _ => pick lo end
          | _ => shortest x num den n rest
          end
      end
  end.

Definition digit_counts : list Z :=
  [1; 2; 3; 4; 5; 6; 7; 8; 9; 10; 11; 12; 13; 14; 15; 16; 17].

Definition exponent_text (e : Z) : string :=
  (if e <? 0 then "e-" else "e+") ++ Str.of_Z (Z.abs e).

(** Steps 5 to 10 of Number::toString for the digits [ds] of [s]. *)
Definition layout (ds : string) (k n : Z) : string :=
  if (k <=? n) && (n <=? 21) then ds ++ Str.zeros (Z.to_nat (n - k))
  else if (0 <? n) && (n <=? 21) then
    Str.take (Z.to_nat n) ds ++ "." ++ Str.drop (Z.to_nat n) ds
  else if (-6 <? n) && (n <=? 0) then
    "0." ++ Str.zeros (Z.to_nat (- n)) ++ ds
  else if k =? 1 then ds ++ exponent_text (n - 1)
  else Str.take 1 ds ++ "." ++ Str.drop 1 ds ++ exponent_text (n - 1).

Definition toString_pos (m : positive) (e : Z) : string :=
  let '(num, den) := fraction m e in
  let '(s, k, n) :=
    shortest (S754_finite false m e) num den (decimal_exponent num den)
      digit_counts in
  layout (Str.of_Z s) k n.

(** Number::toString in radix 10. *)
Definition toString (x : number) : string :=
  match x with
  | S754_nan => "NaN"
  | S754_zero _ => "0"
  | S754_infinity s => if s then "-Infinity" else "Infinity"
  | S754_finite s m e => (if s then "-" else "") ++ toString_pos m e
  end.

(** [x.toFixed(2)]: the integer nearest to [100 x] (the larger on a tie)
    with a point before its last two digits; Number::toString when [x] is
    not finite or at least 10^21 in magnitude. *)
Definition toFixed2 (x : number) : string :=
  match x with
  | S754_finite s m e =>
      let '(num, den) := fraction m e in
      (if s then "-" else "") ++
      (if 10 ^ 21 * den <=? num then toString_pos m e
       else
         let n := (2 * 100 * num + den) / (2 * den) in
         Str.of_Z (n / 100) ++ "." ++
         String (Str.digit_char (n mod 100 / 10))
           (String (Str.digit_char (n mod 10)) EmptyString))
  | S754_zero _ => "0.00"
  | _ => toString x
  end.

End Num.

(* ================================================================== *)
(** * JSON values, JSON.stringify and JSON.parse *)
(* ================================================================== *)

Module Json.

Import Num.

(** The values [JSON.parse] can return and [JSON.stringify] is applied to.
    An object is the list of its own properties in property order. *)
Inductive json : Type :=
  | JNull
  | JBool (b : bool)
  | JNum (n : number)
  | JStr (s : string)
  | JArr (l : list json)
  | JObj (l : list (string * json)).

Definition object := list (string * json).

(** An array index: a property name that is the canonical decimal form of
    an integer below 2^32 - 1 (it is what ToString gives for its value).
    Such names come first in property order, by value. *)
Definition array_index (k : string) : option Z :=
  match Str.span_digits k with
  | (d :: ds, EmptyString) =>
      let n := Str.digits_value (d :: ds) in
      if String.eqb (Str.of_Z n) k && (n <? 2 ^ 32 - 1)
      then Some n else None
  | _ => None
  end.

Fixpoint lookup (k : string) (o : object) : option json :=
  match o with
  | (k', v) :: r => if String.eqb k k' then Some v else lookup k r
  | [] => None
  end.

Definition has_key (k : string) (o : object) : bool :=
  match lookup k o with Some _ => true | None => false end.

Fixpoint replace (k : string) (v : json) (o : object) : object :=
  match o with
  | (k', v') :: r =>
      if String.eqb k k' then (k, v) :: r else (k', v') :: replace k v r
  | [] => []
  end.

Fixpoint insert_index (i : Z) (k : string) (v : json) (o : object) : object :=
  match o with
  | (k', v') :: r =>
      match array_index k' with
      | Some j =>
          if j <? i then (k', v') :: insert_index i k v r
          else (k, v) :: o
      | None => (k, v) :: o
      end
  | [] => [(k, v)]
  end.

(** [o[k] = v]: an existing property keeps its place; a new one goes after
    the smaller array indices when [k] is an array index, last otherwise. *)
Definition set (k : string) (v : json) (o : object) : object :=
  if has_key k o then replace k v o
  else match array_index k with
       | Some i => insert_index i k v o
       | None => (o ++ [(k, v)])%list
       end.

(** [v.k] for a value that is neither null nor undefined. *)
Definition get (k : string) (v : json) : option json :=
  match v with
  | JObj o => lookup k o
  | _ => None
  end.

(** ToBoolean of a value that may be undefined. *)
Definition truthy (v : option json) : bool :=
  match v with
  | None | Some JNull => false
  | Some (JBool b) => b
  | Some (JNum n) => Num.truthy n
  | Some (JStr s) => Str.nonempty s
  | Some (JArr _) | Some (JObj _) => true
  end.

Fixpoint join (sep : string) (l : list string) : string :=
  match l with
  | [] => EmptyString
  | [x] => x
  | x :: r => x ++ sep ++ join sep r
  end.

(** ToString of a value. *)
Fixpoint to_string (v : json) : string :=
  match v with
  | JNull => "null"
  | JBool b => if b then "true" else "false"
  | JNum n => Num.toString n
  | JStr s => s
  | JArr l =>
      join ","
        ((fix elements (l : list json) : list string :=
            match l with
            | [] => []
            | JNull :: r => EmptyString :: elements r
            | x :: r => to_string x :: elements r
            end) l)
  | JObj _ => "[object Object]"
  end.

Definition hex_digit (n : Z) : ascii :=
  if n <? 10 then Str.chr (48 + n) else Str.chr (87 + n).

(** QuoteJSONString, without the enclosing quotes. *)
Fixpoint escape (s : string) : string :=
  match s with
  | EmptyString => EmptyString
  | String c r =>
      let n := Str.code c in
      (if n =? 34 then String (Str.chr 92) (String (Str.chr 34) "")
       else if n =? 92 then "\\"
       else if n =? 8 then "\b"
       else if n =? 9 then "\t"
       else if n =? 10 then "\n"
       else if n =? 12 then "\f"
       else if n =? 13 then "\r"
       else if n <? 32 then
         "\u00" ++ String (hex_digit (n / 16)) (String (hex_digit (n mod 16)) "")
       else String c "") ++ escape r
  end.

Definition quote_char : string := String (Str.chr 34) "".
Definition newline : string := String (Str.chr 10) "".

Definition quote (s : string) : string := quote_char ++ escape s ++ quote_char.

(** SerializeJSONProperty with a gap of two spaces; [indent] is the current
    indentation.  A Number that is not finite is written [null]. *)
Fixpoint stringify_at (indent : string) (v : json) : string :=
  let inner := indent ++ "  " in
  let wrap (opening closing : string) (parts : list string) :=
    match parts with
    | [] => opening ++ closing
    | _ =>
        opening ++ newline ++ inner ++
        join ("," ++ newline ++ inner) parts ++
        newline ++ indent ++ closing
    end in
  match v with
  | JNull => "null"
  | JBool b => if b then "true" else "false"
  | JNum n => if isFinite n then Num.toString n else "null"
  | JStr s => quote s
  | JArr l =>
      wrap "[" "]"
        ((fix elements (l : list json) : list string :=
            match l with
            | [] => []
            | x :: r => stringify_at inner x :: elements r
            end) l)
  | JObj o =>
      wrap "{" "}"
        ((fix members (o : object) : list string :=
            match o with
            | [] => []
            | (k, x) :: r =>
                (quote k ++ ": " ++ stringify_at inner x) :: members r
            end) o)
  end.

(** [JSON.stringify(v, null, 2)]. *)
Definition stringify (v : json) : string := stringify_at "" v.

Definition is_json_space (c : ascii) : bool :=
  let n := Str.code c in
  (n =? 32) || (n =? 9) || (n =? 10) || (n =? 13).

Fixpoint skip_ws (s : string) : string :=
  match s with
  | String c r => if is_json_space c then skip_ws r else s
  | EmptyString => EmptyString
  end.

Definition cons_char (c : Z) (res : option (string * string))
  : option (string * string) :=
  match res with
  | Some (t, rest) => Some (String (Str.chr c) t, rest)
  | None => None
  end.

Definition hex4 (a b c d : ascii) : option Z :=
  match hex_value a, hex_value b, hex_value c, hex_value d with
  | Some x, Some y, Some z, Some w => Some (((x * 16 + y) * 16 + z) * 16 + w)
  | _, _, _, _ => None
  end.

(** The characters of a JSON string after its opening quote, up to the
    closing quote.  A [\u] escape above U+00FF has no character in this
    model and is refused. *)
Fixpoint parse_chars (s : string) : option (string * string) :=
  match s with
  | EmptyString => None
  | String c r =>
      let n := Str.code c in
      if n =? 34 then Some (EmptyString, r)
      else if n <? 32 then None
      else if n =? 92 then
        match r with
        | String e r' =>
            let m := Str.code e in
            if m =? 34 then cons_char 34 (parse_chars r')
            else if m =? 92 then cons_char 92 (parse_chars r')
            else if m =? 47 then cons_char 47 (parse_chars r')
            else if m =? 98 then cons_char 8 (parse_chars r')
            else if m =? 102 then cons_char 12 (parse_chars r')
            else if m =? 110 then cons_char 10 (parse_chars r')
            else if m =? 114 then cons_char 13 (parse_chars r')
            else if m =? 116 then cons_char 9 (parse_chars r')
            else if m =? 117 then
              match r' with
              | String h1 (String h2 (String h3 (String h4 r''))) =>
                  match hex4 h1 h2 h3 h4 with
                  | Some u =>
                      if u <? 256 then cons_char u (parse_chars r'') else None
                  | None => None
                  end
              | _ => None
              end
            else None
        | EmptyString => None
        end
      else cons_char n (parse_chars r)
  end.

(** A JSON number: no leading zeros, digits after a point and after an
    exponent mark. *)
Definition parse_number (s : string) : option (number * string) :=
  let '(neg, s1) :=
    match s with String "-" r => (true, r) | _ => (false, s) end in
  match Str.span_digits s1 with
  | ([], _) => None
  | (d :: ds, r1) =>
      if (d =? 0) && negb (List.length ds =? 0)%nat then None else
      let frac :=
        match r1 with
        | String "." r =>
            match Str.span_digits r with
            | ([], _) => None
            | (fp, r2) => Some (fp, r2)
            end
        | _ => Some ([], r1)
        end in
      match frac with
      | None => None
      | Some (fp, r2) =>
          let mant := Str.digits_value ((d :: ds) ++ fp)%list in
          let scale := Z.of_nat (List.length fp) in
          match r2 with
          | String c r3 =>
              if (Str.code c =? 101) || (Str.code c =? 69) then
                let '(eneg, r4) := read_sign r3 in
                match Str.span_digits r4 with
                | ([], _) => None
                | (es, r5) =>
                    let e := Str.digits_value es in
                    Some (of_decimal neg mant
                            ((if eneg then - e else e) - scale), r5)
                end
              else Some (of_decimal neg mant (- scale), r2)
          | EmptyString => Some (of_decimal neg mant (- scale), r2)
          end
      end
  end.

Definition literal (word : string) (v : json) (s : string)
  : option (json * string) :=
  if Str.starts_with word s
  then Some (v, Str.drop (String.length word) s) else None.

Fixpoint parse_value (fuel : nat) (s : string) : option (json * string) :=
  match fuel with
  | O => None
  | S f =>
      match skip_ws s with
      | EmptyString => None
      | String c r =>
          let n := Str.code c in
          if n =? 123 then
            match skip_ws r with
            | String c' r' =>
                if Str.code c' =? 125 then Some (JObj [], r')
                else parse_members f (String c' r') []
            | EmptyString => None
            end
          else if n =? 91 then
            match skip_ws r with
            | String c' r' =>
                if Str.code c' =? 93 then Some (JArr [], r')
                else parse_elements f (String c' r') []
            | EmptyString => None
            end
          else if n =? 34 then
            match parse_chars r with
            | Some (t, rest) => Some (JStr t, rest)
            | None => None
            end
          else if n =? 110 then literal "null" JNull (String c r)
          else if n =? 116 then literal "true" (JBool true) (String c r)
          else if n =? 102 then literal "false" (JBool false) (String c r)
          else
            match parse_number (String c r) with
            | Some (x, rest) => Some (JNum x, rest)
            | None => None
            end
      end
  end

with parse_members (fuel : nat) (s : string) (acc : object)
  : option (json * string) :=
  match fuel with
  | O => None
  | S f =>
      match s with
      | String q r =>
          if Str.code q =? 34 then
            match parse_chars r with
            | Some (k, r1) =>
                match skip_ws r1 with
                | String colon r2 =>
                    if Str.code colon =? 58 then
                      match parse_value f r2 with
                      | Some (v, r3) =>
                          match skip_ws r3 with
                          | String d r4 =>
                              if Str.code d =? 44
                              then parse_members f (skip_ws r4) (set k v acc)
                              else if Str.code d =? 125
                              then Some (JObj (set k v acc), r4)
                              else None
                          | EmptyString => None
                          end
                      | None => None
                      end
                    else None
                | EmptyString => None
                end
            | None => None
            end
          else None
      | EmptyString => None
      end
  end

with parse_elements (fuel : nat) (s : string) (acc : list json)
  : option (json * string) :=
  match fuel with
  | O => None
  | S f =>
      match parse_value f s with
      | Some (v, r) =>
          match skip_ws r with
          | String d r' =>
              if Str.code d =? 44 then parse_elements f r' (v :: acc)
              else if Str.code d =? 93 then Some (JArr (rev (v :: acc)), r')
              else None
          | EmptyString => None
          end
      | None => None
      end
  end.

(** [JSON.parse(text)]; [None] stands for the SyntaxError it throws. *)
Definition parse (text : string) : option json :=
  match parse_value (2 * String.length text + 2) text with
  | Some (v, rest) =>
      match skip_ws rest with
      | EmptyString => Some v
      | _ => None
      end
  | None => None
  end.

End Json.

(* ================================================================== *)
(** * Form controls *)
(* ================================================================== *)

Module Html.

Import Num Json.

(** Value sanitisation of [<input type="text">]: line breaks are removed. *)
Fixpoint strip_newlines (s : string) : string :=
  match s with
  | String c r =>
      if (Str.code c =? 10) || (Str.code c =? 13) then strip_newlines r
      else String c (strip_newlines r)
  | EmptyString => EmptyString
  end.

Definition ends_after_digits (s : string) : bool :=
  match Str.span_digits s with
  | (_ :: _, EmptyString) => true
  | _ => false
  end.

(** A valid floating-point number of HTML: an optional minus sign, digits
    with an optional fraction or a fraction alone, an optional exponent. *)
Definition valid_floating_point_number (s : string) : bool :=
  let s1 := match s with String "-" r => r | _ => s end in
  let '(ip, r1) := Str.span_digits s1 in
  let after :=
    match r1 with
    | String "." r =>
        match Str.span_digits r with
        | ([], _) => None
        | (_, r2) => Some r2
        end
    | _ => match ip with [] => None | _ => Some r1 end
    end in
  match after with
  | None => false
  | Some EmptyString => true
  | Some (String c r3) =>
      ((Str.code c =? 101) || (Str.code c =? 69)) &&
      ends_after_digits
        (match r3 with
         | String "-" r4 => r4
         | String "+" r4 => r4
         | _ => r3
         end)
  end.

(** Value sanitisation of [<input type="number">]: a value that is not a
    valid floating-point number, or that overflows, becomes empty. *)
Definition sanitize_number (s : string) : string :=
  if valid_floating_point_number s && isFinite (parseFloat s)
  then s else EmptyString.

(** The value of [<input type="text" value="${escapeHtml(v || d)}">]:
    [escapeHtml] and the attribute parser cancel out. *)
Definition text_value (v : option json) (d : string) : string :=
  strip_newlines
    (match v with
     | Some x => if truthy v then to_string x else d
     | None => d
     end).

(** The value of [<input type="number" value="${v ?? d}">]. *)
Definition number_value (v : option json) (d : string) : string :=
  sanitize_number
    (match v with
     | None | Some JNull => d
     | Some x => to_string x
     end).

(** The value of a [<select>] from its options and their [selected]
    attributes: the last selected option, the first option when none is. *)
Definition select_value (options : list (string * bool)) : string :=
  match filter snd options with
  | [] => match options with (v, _) :: _ => v | [] => EmptyString end
  | chosen => fst (last chosen (EmptyString, true))
  end.

(** [v === 'text']. *)
Definition is_string (v : option json) (text : string) : bool :=
  match v with
  | Some (JStr s) => String.eqb s text
  | _ => false
  end.

(** [v !== false]. *)
Definition is_not_false (v : option json) : bool :=
  match v with
  | Some (JBool false) => false
  | _ => true
  end.

End Html.

(* ================================================================== *)
(** * The page *)
(* ================================================================== *)

Import Num Json Html.

(** One [.component-item] per record: the values of its inputs.  [*_id] is
    [dataset.id]. *)
Record BasicItem := {
  comp_id : nat;
  comp_name : string;
  comp_code : string;
  comp_percentage : string;
  (** the amount shown in [.comp-amount], before its formatting *)
  comp_amount : number
}.

Record AllowanceItem := {
  allow_id : nat;
  allow_name : string;
  allow_calc_type : string;
  allow_active : bool;
  allow_annual : bool;
  allow_percentage : string;
  allow_based_on : string;
  allow_fixed_amount : string;
  (** [style.display] of [.percentage-fields] and [.fixed-fields] *)
  allow_percentage_fields : string;
  allow_fixed_fields : string
}.

Record ReliefItem := {
  relief_id : nat;
  relief_name : string;
  relief_formula_type : string;
  relief_active : bool;
  relief_percentage : string;
  relief_based_on : string;
  relief_fixed_amount : string;
  relief_percentage_fields : string;
  relief_fixed_fields : string
}.

Record TaxBracketItem := {
  bracket_id : nat;
  bracket_limit : string;
  bracket_rate : string
}.

Record StatutoryItem := {
  stat_id : nat;
  stat_name : string;
  stat_percentage : string;
  stat_based_on : string;
  stat_active : bool
}.

Record OtherItem := {
  other_id : nat;
  other_name : string;
  other_display_rule : string;
  other_linked_to : string;
  other_order : string
}.

Record IncomeItem := {
  income_id : nat;
  income_name : string;
  income_display_rule : string;
  income_order : string
}.

(** A section of the form: the children of its container, whether the
    container carries the class [has-items], and the value of its hidden
    input. *)
Record Section (I : Type) := mkSection {
  container : list I;
  has_items : bool;
  hidden : string
}.

Arguments mkSection {I}.
Arguments container {I}.
Arguments has_items {I}.
Arguments hidden {I}.

Record Page := {
  basicComponents : Section BasicItem;
  allowances : Section AllowanceItem;
  reliefs : Section ReliefItem;
  taxBrackets : Section TaxBracketItem;
  statutoryDeductions : Section StatutoryItem;
  otherDeductions : Section OtherItem;
  incomeItems : Section IncomeItem;
  (** [textContent] and [className] of [#totalPercentage] *)
  totalPercentage_text : string;
  totalPercentage_class : string;
  componentCounter : nat;
  (** what [console.warn] received, latest first *)
  console : list string;
  (** the message [showError] last displayed *)
  error_shown : option string
}.

Definition with_basicComponents (p : Page) (s : Section BasicItem) : Page :=
  {| basicComponents := s; allowances := allowances p; reliefs := reliefs p;
     taxBrackets := taxBrackets p;
     statutoryDeductions := statutoryDeductions p;
     otherDeductions := otherDeductions p; incomeItems := incomeItems p;
     totalPercentage_text := totalPercentage_text p;
     totalPercentage_class := totalPercentage_class p;
     componentCounter := componentCounter p; console := console p;
     error_shown := error_shown p |}.

Definition with_allowances (p : Page) (s : Section AllowanceItem) : Page :=
  {| basicComponents := basicComponents p; allowances := s;
     reliefs := reliefs p; taxBrackets := taxBrackets p;
     statutoryDeductions := statutoryDeductions p;
     otherDeductions := otherDeductions p; incomeItems := incomeItems p;
     totalPercentage_text := totalPercentage_text p;
     totalPercentage_class := totalPercentage_class p;
     componentCounter := componentCounter p; console := console p;
     error_shown := error_shown p |}.

Definition with_reliefs (p : Page) (s : Section ReliefItem) : Page :=
  {| basicComponents := basicComponents p; allowances := allowances p;
     reliefs := s; taxBrackets := taxBrackets p;
     statutoryDeductions := statutoryDeductions p;
     otherDeductions := otherDeductions p; incomeItems := incomeItems p;
     totalPercentage_text := totalPercentage_text p;
     totalPercentage_class := totalPercentage_class p;
     componentCounter := componentCounter p; console := console p;
     error_shown := error_shown p |}.

Definition with_taxBrackets (p : Page) (s : Section TaxBracketItem) : Page :=
  {| basicComponents := basicComponents p; allowances := allowances p;
     reliefs := reliefs p; taxBrackets := s;
     statutoryDeductions := statutoryDeductions p;
     otherDeductions := otherDeductions p; incomeItems := incomeItems p;
     totalPercentage_text := totalPercentage_text p;
     totalPercentage_class := totalPercentage_class p;
     componentCounter := componentCounter p; console := console p;
     error_shown := error_shown p |}.

Definition with_statutoryDeductions (p : Page) (s : Section StatutoryItem)
  : Page :=
  {| basicComponents := basicComponents p; allowances := allowances p;
     reliefs := reliefs p; taxBrackets := taxBrackets p;
     statutoryDeductions := s;
     otherDeductions := otherDeductions p; incomeItems := incomeItems p;
     totalPercentage_text := totalPercentage_text p;
     totalPercentage_class := totalPercentage_class p;
     componentCounter := componentCounter p; console := console p;
     error_shown := error_shown p |}.

Definition with_otherDeductions (p : Page) (s : Section OtherItem) : Page :=
  {| basicComponents := basicComponents p; allowances := allowances p;
     reliefs := reliefs p; taxBrackets := taxBrackets p;
     statutoryDeductions := statutoryDeductions p;
     otherDeductions := s; incomeItems := incomeItems p;
     totalPercentage_text := totalPercentage_text p;
     totalPercentage_class := totalPercentage_class p;
     componentCounter := componentCounter p; console := console p;
     error_shown := error_shown p |}.

Definition with_incomeItems (p : Page) (s : Section IncomeItem) : Page :=
  {| basicComponents := basicComponents p; allowances := allowances p;
     reliefs := reliefs p; taxBrackets := taxBrackets p;
     statutoryDeductions := statutoryDeductions p;
     otherDeductions := otherDeductions p; incomeItems := s;
     totalPercentage_text := totalPercentage_text p;
     totalPercentage_class := totalPercentage_class p;
     componentCounter := componentCounter p; console := console p;
     error_shown := error_shown p |}.

Definition with_total (p : Page) (text class : string) : Page :=
  {| basicComponents := basicComponents p; allowances := allowances p;
     reliefs := reliefs p; taxBrackets := taxBrackets p;
     statutoryDeductions := statutoryDeductions p;
     otherDeductions := otherDeductions p; incomeItems := incomeItems p;
     totalPercentage_text := text;
     totalPercentage_class := class;
     componentCounter := componentCounter p; console := console p;
     error_shown := error_shown p |}.

(** [componentCounter++]. *)
Definition next_id (p : Page) : Page :=
  {| basicComponents := basicComponents p; allowances := allowances p;
     reliefs := reliefs p; taxBrackets := taxBrackets p;
     statutoryDeductions := statutoryDeductions p;
     otherDeductions := otherDeductions p; incomeItems := incomeItems p;
     totalPercentage_text := totalPercentage_text p;
     totalPercentage_class := totalPercentage_class p;
     componentCounter := S (componentCounter p); console := console p;
     error_shown := error_shown p |}.

(** [console.warn(message, e)]. *)
Definition warn (message : string) (p : Page) : Page :=
  {| basicComponents := basicComponents p; allowances := allowances p;
     reliefs := reliefs p; taxBrackets := taxBrackets p;
     statutoryDeductions := statutoryDeductions p;
     otherDeductions := otherDeductions p; incomeItems := incomeItems p;
     totalPercentage_text := totalPercentage_text p;
     totalPercentage_class := totalPercentage_class p;
     componentCounter := componentCounter p; console := message :: console p;
     error_shown := error_shown p |}.

(** [showError(message)]: the modal, or [alert] when the page has none. *)
Definition showError (message : string) (p : Page) : Page :=
  {| basicComponents := basicComponents p; allowances := allowances p;
     reliefs := reliefs p; taxBrackets := taxBrackets p;
     statutoryDeductions := statutoryDeductions p;
     otherDeductions := otherDeductions p; incomeItems := incomeItems p;
     totalPercentage_text := totalPercentage_text p;
     totalPercentage_class := totalPercentage_class p;
     componentCounter := componentCounter p; console := console p;
     error_shown := Some message |}.

(** [hidden.value = JSON.stringify(v, null, 2); updateContainerState(container)]. *)
Definition write_out {I : Type} (items : list I) (v : json) : Section I :=
  {| container := items;
     has_items := match items with [] => false | _ => true end;
     hidden := stringify v |}.

(** [container.appendChild(item)]. *)
Definition appendChild {I : Type} (s : Section I) (item : I) : Section I :=
  {| container := (container s ++ [item])%list;
     has_items := has_items s;
     hidden := hidden s |}.

(** [container.innerHTML = '']. *)
Definition clear {I : Type} (s : Section I) : Section I :=
  {| container := []; has_items := has_items s; hidden := hidden s |}.

(** [forEach] over the items of a container with [push] of the records
    that qualify. *)
Fixpoint collect {I : Type} (entry : I -> option json) (items : list I)
  : list json :=
  match items with
  | [] => []
  | item :: rest =>
      match entry item with
      | Some record => record :: collect entry rest
      | None => collect entry rest
      end
  end.

(** [s || d] on strings. *)
Definition or_else (s d : string) : string :=
  if Str.nonempty s then s else d.

Definition zero : number := S754_zero false.
Definition one : number := Num.of_Z 1.
Definition hundred : number := Num.of_Z 100.
(** The literal [0.01]. *)
Definition tolerance : number := of_decimal false 1 (-2).
(** The sample salary of the preview, [500000]. *)
Definition sample_salary : number := Num.of_Z 500000.

(* ------------------------------------------------------------------ *)
(** ** Basic components *)

(** [name.toLowerCase().replace(/\s+/g, '_')]. *)
Definition basic_key (name : string) : string :=
  Str.replace_spaces (Str.toLowerCase name).

(** [parseFloat(value) || 0]. *)
Definition basic_percentage (item : BasicItem) : number :=
  or_default (parseFloat (comp_percentage item)) zero.

(** [name && code] on the trimmed values. *)
Definition basic_included (item : BasicItem) : bool :=
  Str.nonempty (Str.trim (comp_name item)) &&
  Str.nonempty (Str.trim (comp_code item)).

Definition basic_record (item : BasicItem) : json :=
  JObj [("code", JStr (Str.trim (comp_code item)));
        ("percentage", JNum (basic_percentage item));
        ("name", JStr (Str.trim (comp_name item)))].

(** [components[key] = record] on the object that began as [{}] and is
    filled by this assignment only.  The name [__proto__] reaches the setter
    that [components] inherits from [Object.prototype]: the record becomes
    the prototype of [components] and no property is added. *)
Definition assign_component (key : string) (record : json)
  (components : object) : object :=
  if String.eqb key "__proto__" then components
  else Json.set key record components.

(** The loop of [updateBasicComponentsJSON] over the items, carrying
    [components] and [totalPercentage]. *)
Fixpoint basic_scan (items : list BasicItem) (components : object)
  (totalPercentage : number) : object * number :=
  match items with
  | [] => (components, totalPercentage)
  | item :: rest =>
      if basic_included item then
        basic_scan rest
          (assign_component (basic_key (Str.trim (comp_name item)))
             (basic_record item) components)
          (add totalPercentage (basic_percentage item))
      else basic_scan rest components totalPercentage
  end.

(** The example amount of an item: [(500000 * percentage) / 100], or zero
    when the name or the code is missing. *)
Definition basic_preview (item : BasicItem) : BasicItem :=
  {| comp_id := comp_id item; comp_name := comp_name item;
     comp_code := comp_code item; comp_percentage := comp_percentage item;
     comp_amount :=
       if basic_included item
       then div (mul sample_salary (basic_percentage item)) hundred
       else zero |}.

(** [components] and [totalPercentage] when the loop is over. *)
Definition basic_components (items : list BasicItem) : object :=
  fst (basic_scan items [] zero).

Definition basic_total (items : list BasicItem) : number :=
  snd (basic_scan items [] zero).

Definition percentage_class (totalPercentage : number) : string :=
  if lt (abs (sub totalPercentage hundred)) tolerance
  then "percentage-valid" else "percentage-invalid".

Definition updateBasicComponentsJSON (p : Page) : Page :=
  let items := container (basicComponents p) in
  let components := basic_components items in
  let totalPercentage := basic_total items in
  with_basicComponents
    (with_total p (toFixed2 totalPercentage) (percentage_class totalPercentage))
    (write_out (map basic_preview items) (JObj components)).

(* ------------------------------------------------------------------ *)
(** ** Allowances *)

Definition allowance_entry (item : AllowanceItem) : option json :=
  let name := Str.trim (allow_name item) in
  if negb (Str.nonempty name) then None else
  let calculation_type := or_else (allow_calc_type item) "percentage" in
  let allowance :=
    [("name", JStr name);
     ("is_active", JBool (allow_active item));
     ("calculation_type", JStr calculation_type);
     ("annual_only", JBool (allow_annual item))] in
  Some (JObj
    (if String.eqb calculation_type "percentage" then
       let percentage := parseFloat (allow_percentage item) in
       let basedOn := Str.trim (allow_based_on item) in
       let allowance :=
         if negb (isNaN percentage)
         then Json.set "percentage" (JNum percentage) allowance
         else allowance in
       if Str.nonempty basedOn
       then Json.set "based_on" (JStr basedOn) allowance
       else allowance
     else
       let fixedAmount := parseFloat (allow_fixed_amount item) in
       if negb (isNaN fixedAmount)
       then Json.set "fixed_amount" (JNum fixedAmount) allowance
       else allowance)).

Definition updateAllowancesJSON (p : Page) : Page :=
  let items := container (allowances p) in
  with_allowances p (write_out items (JArr (collect allowance_entry items))).

(* ------------------------------------------------------------------ *)
(** ** Tax reliefs *)

Definition relief_entry (item : ReliefItem) : option json :=
  let name := Str.trim (relief_name item) in
  if negb (Str.nonempty name) then None else
  let formula_type :=
    or_else (relief_formula_type item) "percentage_plus_fixed" in
  let relief :=
    [("name", JStr name);
     ("is_active", JBool (relief_active item));
     ("formula_type", JStr formula_type)] in
  let relief :=
    if negb (String.eqb formula_type "fixed") then
      let percentage := parseFloat (relief_percentage item) in
      let basedOn := Str.trim (relief_based_on item) in
      let relief :=
        if negb (isNaN percentage)
        then Json.set "percentage" (JNum percentage) relief
        else relief in
      if Str.nonempty basedOn
      then Json.set "based_on" (JStr basedOn) relief
      else relief
    else relief in
  let relief :=
    if negb (String.eqb formula_type "percentage") then
      let fixedAmount := parseFloat (relief_fixed_amount item) in
      if negb (isNaN fixedAmount)
      then Json.set "fixed_amount" (JNum fixedAmount) relief
      else relief
    else relief in
  Some (JObj relief).

Definition updateReliefsJSON (p : Page) : Page :=
  let items := container (reliefs p) in
  with_reliefs p (write_out items (JArr (collect relief_entry items))).

(* ------------------------------------------------------------------ *)
(** ** Tax brackets *)

Definition bracket_entry (item : TaxBracketItem) : option json :=
  let limitInput := Str.trim (bracket_limit item) in
  let rate := parseFloat (bracket_rate item) in
  if negb (isNaN rate) then
    Some (JObj
      [("limit",
        if String.eqb limitInput "" then JNull
        else JNum (parseFloat limitInput));
       ("rate", JNum rate)])
  else None.

Definition updateTaxBracketsJSON (p : Page) : Page :=
  let items := container (taxBrackets p) in
  with_taxBrackets p (write_out items (JArr (collect bracket_entry items))).

(* ------------------------------------------------------------------ *)
(** ** Statutory deductions *)

Definition statutory_entry (item : StatutoryItem) : option json :=
  let name := Str.trim (stat_name item) in
  let percentage := parseFloat (stat_percentage item) in
  let basedOn := Str.trim (stat_based_on item) in
  if Str.nonempty name && negb (isNaN percentage) then
    Some (JObj
      [("name", JStr name);
       ("is_active", JBool (stat_active item));
       ("percentage", JNum percentage);
       ("based_on", JStr (or_else basedOn "B"))])
  else None.

Definition updateStatutoryDeductionsJSON (p : Page) : Page :=
  let items := container (statutoryDeductions p) in
  with_statutoryDeductions p
    (write_out items (JArr (collect statutory_entry items))).

(* ------------------------------------------------------------------ *)
(** ** Other deductions *)

Definition other_entry (item : OtherItem) : option json :=
  let name := Str.trim (other_name item) in
  if negb (Str.nonempty name) then None else
  let linkedTo := Str.trim (other_linked_to item) in
  let deduction :=
    [("name", JStr name);
     ("display_rule",
      JStr (or_else (other_display_rule item) "show_if_filled"));
     ("order", JNum (or_default (parseInt (other_order item)) one))] in
  Some (JObj
    (if Str.nonempty linkedTo
     then Json.set "linked_to" (JStr linkedTo) deduction
     else deduction)).

Definition updateOtherDeductionsJSON (p : Page) : Page :=
  let items := container (otherDeductions p) in
  with_otherDeductions p (write_out items (JArr (collect other_entry items))).

(* ------------------------------------------------------------------ *)
(** ** Income items *)

Definition income_entry (item : IncomeItem) : option json :=
  let name := Str.trim (income_name item) in
  if negb (Str.nonempty name) then None else
  Some (JObj
    [("name", JStr name);
     ("display_rule",
      JStr (or_else (income_display_rule item) "show_if_filled"));
     ("order", JNum (or_default (parseInt (income_order item)) one))]).

Definition updateIncomeItemsJSON (p : Page) : Page :=
  let items := container (incomeItems p) in
  with_incomeItems p (write_out items (JArr (collect income_entry items))).

(* ------------------------------------------------------------------ *)
(** ** Adding a record

    [data] is the argument of the [add...] function; [JNull] stands for a
    call without argument ([data = null]).  [get k data] is [data?.k]. *)

(** The item that the template of [addBasicComponent] renders. *)
Definition basic_item (id : nat) (data : json) : BasicItem :=
  {| comp_id := id;
     comp_name := text_value (get "name" data) "";
     comp_code := text_value (get "code" data) "";
     comp_percentage := number_value (get "percentage" data) "";
     comp_amount := zero |}.

Definition addBasicComponent (data : json) (p : Page) : Page :=
  let p := next_id p in
  let item := basic_item (componentCounter p) data in
  updateBasicComponentsJSON
    (with_basicComponents p (appendChild (basicComponents p) item)).

Definition allowance_item (id : nat) (data : json) : AllowanceItem :=
  let calculation_type := get "calculation_type" data in
    {| allow_id := id;
       allow_name := text_value (get "name" data) "";
       allow_calc_type :=
         select_value
           [("percentage", is_string calculation_type "percentage");
            ("fixed", is_string calculation_type "fixed")];
       allow_active := is_not_false (get "is_active" data);
       allow_annual := truthy (get "annual_only" data);
       allow_percentage := number_value (get "percentage" data) "";
       allow_based_on := text_value (get "based_on" data) "TOTAL";
       allow_fixed_amount := number_value (get "fixed_amount" data) "";
       allow_percentage_fields :=
         if is_string calculation_type "fixed" then "none" else "block";
       allow_fixed_fields :=
         if is_string calculation_type "fixed" then "block" else "none" |}.

Definition addAllowance (data : json) (p : Page) : Page :=
  let p := next_id p in
  let item := allowance_item (componentCounter p) data in
  updateAllowancesJSON (with_allowances p (appendChild (allowances p) item)).

Definition relief_item (id : nat) (data : json) : ReliefItem :=
  let formula_type := get "formula_type" data in
    {| relief_id := id;
       relief_name := text_value (get "name" data) "";
       relief_formula_type :=
         select_value
           [("percentage_plus_fixed",
             is_string formula_type "percentage_plus_fixed");
            ("percentage", is_string formula_type "percentage");
            ("fixed", is_string formula_type "fixed")];
       relief_active := is_not_false (get "is_active" data);
       relief_percentage := number_value (get "percentage" data) "";
       relief_based_on := text_value (get "based_on" data) "gross_income";
       relief_fixed_amount := number_value (get "fixed_amount" data) "";
       relief_percentage_fields :=
         if is_string formula_type "fixed" then "none" else "block";
       relief_fixed_fields :=
         if is_string formula_type "percentage" then "none" else "block" |}.

Definition addRelief (data : json) (p : Page) : Page :=
  let p := next_id p in
  let item := relief_item (componentCounter p) data in
  updateReliefsJSON (with_reliefs p (appendChild (reliefs p) item)).

Definition bracket_item (id : nat) (data : json) : TaxBracketItem :=
  {| bracket_id := id;
     bracket_limit := number_value (get "limit" data) "";
     bracket_rate := number_value (get "rate" data) "" |}.

Definition addTaxBracket (data : json) (p : Page) : Page :=
  let p := next_id p in
  let item := bracket_item (componentCounter p) data in
  updateTaxBracketsJSON
    (with_taxBrackets p (appendChild (taxBrackets p) item)).

Definition statutory_item (id : nat) (data : json) : StatutoryItem :=
  {| stat_id := id;
     stat_name := text_value (get "name" data) "";
     stat_percentage := number_value (get "percentage" data) "";
     stat_based_on := text_value (get "based_on" data) "B";
     stat_active := is_not_false (get "is_active" data) |}.

Definition addStatutoryDeduction (data : json) (p : Page) : Page :=
  let p := next_id p in
  let item := statutory_item (componentCounter p) data in
  updateStatutoryDeductionsJSON
    (with_statutoryDeductions p (appendChild (statutoryDeductions p) item)).

Definition display_rule_options (data : json) : list (string * bool) :=
  [("show_if_filled", is_string (get "display_rule" data) "show_if_filled");
   ("always_show", is_string (get "display_rule" data) "always_show")].

Definition other_item (id : nat) (data : json) : OtherItem :=
  let linked_to := get "linked_to" data in
    {| other_id := id;
       other_name := text_value (get "name" data) "";
       other_display_rule := select_value (display_rule_options data);
       other_linked_to :=
         select_value
           [("", negb (truthy linked_to));
            ("staff_loan", is_string linked_to "staff_loan");
            ("salary_advance", is_string linked_to "salary_advance")];
       other_order := number_value (get "order" data) "1" |}.

Definition addOtherDeduction (data : json) (p : Page) : Page :=
  let p := next_id p in
  let item := other_item (componentCounter p) data in
  updateOtherDeductionsJSON
    (with_otherDeductions p (appendChild (otherDeductions p) item)).

Definition income_item (id : nat) (data : json) : IncomeItem :=
  {| income_id := id;
     income_name := text_value (get "name" data) "";
     income_display_rule := select_value (display_rule_options data);
     income_order := number_value (get "order" data) "1" |}.

Definition addIncomeItem (data : json) (p : Page) : Page :=
  let p := next_id p in
  let item := income_item (componentCounter p) data in
  updateIncomeItemsJSON
    (with_incomeItems p (appendChild (incomeItems p) item)).

(* ------------------------------------------------------------------ *)
(** ** Loading the hidden fields *)

(** [hiddenBasicComponents.value && hiddenBasicComponents.value !== '{}']. *)
Definition isEditMode (p : Page) : bool :=
  let value := hidden (basicComponents p) in
  Str.nonempty value && negb (String.eqb value "{}").

Fixpoint characters (s : string) : list json :=
  match s with
  | String c r => JStr (String c EmptyString) :: characters r
  | EmptyString => []
  end.

(** [Object.values(v)], in the order of [Object.keys(v)]; [None] is the
    TypeError thrown for [null]. *)
Definition object_values (v : json) : option (list json) :=
  match v with
  | JNull => None
  | JObj o => Some (map snd o)
  | JArr l => Some l
  | JStr s => Some (characters s)
  | JBool _ | JNum _ => Some []
  end.

(** [{name: comp.name, code: comp.code, percentage: comp.percentage}] for
    a [comp] that is not null; properties that come out undefined are left
    out, which no read of [data] tells apart. *)
Definition component_data (comp : json) : json :=
  JObj
    (flat_map
       (fun k => match get k comp with Some x => [(k, x)] | None => [] end)
       ["name"; "code"; "percentage"]).

(** The [forEach] over the values of the parsed basic components.  Reading
    a property of [null] throws: the loop stops and the flag is false. *)
Fixpoint add_components (values : list json) (p : Page) : Page * bool :=
  match values with
  | [] => (p, true)
  | JNull :: _ => (p, false)
  | comp :: rest =>
      add_components rest (addBasicComponent (component_data comp) p)
  end.

Definition load_basic_components (edit : bool) (p : Page) : Page :=
  let failed (p : Page) :=
    let p := warn "Failed to parse basic components JSON" p in
    if edit then p else addBasicComponent JNull p in
  match Json.parse (or_else (hidden (basicComponents p)) "{}") with
  | None => failed p
  | Some parsed =>
      match object_values parsed with
      | None => failed p
      | Some [] => if edit then p else addBasicComponent JNull p
      | Some values =>
          let '(p', completed) := add_components values p in
          if completed then p' else failed p'
      end
  end.

(** The [try] block of one array section: [value] is the hidden field,
    [add] the section's [add...] function. *)
Definition load_array (message value : string) (add : json -> Page -> Page)
  (edit : bool) (p : Page) : Page :=
  match Json.parse (or_else value "[]") with
  | None =>
      let p := warn message p in
      if edit then p else add JNull p
  | Some (JArr (first :: rest)) =>
      fold_left (fun p record => add record p) (first :: rest) p
  | Some _ => if edit then p else add JNull p
  end.

Definition clear_containers (p : Page) : Page :=
  {| basicComponents := clear (basicComponents p);
     allowances := clear (allowances p);
     reliefs := clear (reliefs p);
     taxBrackets := clear (taxBrackets p);
     statutoryDeductions := clear (statutoryDeductions p);
     otherDeductions := clear (otherDeductions p);
     incomeItems := clear (incomeItems p);
     totalPercentage_text := totalPercentage_text p;
     totalPercentage_class := totalPercentage_class p;
     componentCounter := componentCounter p; console := console p;
     error_shown := error_shown p |}.

(** The [try] blocks of the six array sections. *)
Definition load_allowances (edit : bool) (p : Page) : Page :=
  load_array "Failed to parse allowances JSON"
    (hidden (allowances p)) addAllowance edit p.

Definition load_reliefs (edit : bool) (p : Page) : Page :=
  load_array "Failed to parse reliefs JSON"
    (hidden (reliefs p)) addRelief edit p.

Definition load_tax_brackets (edit : bool) (p : Page) : Page :=
  load_array "Failed to parse tax brackets JSON"
    (hidden (taxBrackets p)) addTaxBracket edit p.

Definition load_statutory_deductions (edit : bool) (p : Page) : Page :=
  load_array "Failed to parse statutory deductions JSON"
    (hidden (statutoryDeductions p)) addStatutoryDeduction edit p.

Definition load_other_deductions (edit : bool) (p : Page) : Page :=
  load_array "Failed to parse other deductions JSON"
    (hidden (otherDeductions p)) addOtherDeduction edit p.

Definition load_income_items (edit : bool) (p : Page) : Page :=
  load_array "Failed to parse income items JSON"
    (hidden (incomeItems p)) addIncomeItem edit p.

Definition loadExistingData (p : Page) : Page :=
  let p := clear_containers p in
  let edit := isEditMode p in
  load_income_items edit
    (load_other_deductions edit
       (load_statutory_deductions edit
          (load_tax_brackets edit
             (load_reliefs edit
                (load_allowances edit
                   (load_basic_components edit p)))))).

(* ------------------------------------------------------------------ *)
(** ** Locking *)

(** What [isFormLocked] reads. *)
Record LockSignals := {
  (** [salarySettingForm.dataset.locked]: [None] when the page has no such
      form, [Some None] when the form has no [data-locked] attribute *)
  form_dataset_locked : option (option string);
  (** the value of [input[name="is_locked"], #id_is_locked], if any *)
  isLockedInput : option string;
  (** [window.SALARY_SETTING_LOCKED], if defined *)
  SALARY_SETTING_LOCKED : option json
}.

Definition form_flag (e : LockSignals) : bool :=
  match form_dataset_locked e with
  | Some (Some v) => String.eqb v "true"
  | _ => false
  end.

Definition input_flag (e : LockSignals) : bool :=
  match isLockedInput e with
  | Some value =>
      let val := Str.toLowerCase value in
      String.eqb val "true" || String.eqb val "1" || String.eqb val "on"
  | None => false
  end.

Definition global_flag (e : LockSignals) : bool :=
  match SALARY_SETTING_LOCKED e with
  | Some (JBool true) => true
  | _ => false
  end.

Definition isFormLocked (e : LockSignals) : bool :=
  if form_flag e then true
  else if input_flag e then true
  else if global_flag e then true
  else false.

(* ------------------------------------------------------------------ *)
(** ** Submitting *)

Definition serialize_all (p : Page) : Page :=
  updateIncomeItemsJSON
    (updateOtherDeductionsJSON
       (updateStatutoryDeductionsJSON
          (updateTaxBracketsJSON
             (updateReliefsJSON
                (updateAllowancesJSON (updateBasicComponentsJSON p)))))).

(** [parseFloat(document.getElementById('totalPercentage')?.textContent || '0')]. *)
Definition presented_total (p : Page) : number :=
  parseFloat (or_else (totalPercentage_text p) "0").

Definition total_message (total : number) : string :=
  "Basic salary components must total 100%. Current total: " ++
  (if isNaN total then "0" else toFixed2 total) ++ "%".

(** The submit listener.  The boolean is false when the event was cancelled
    ([preventDefault], [stopPropagation], [return false]). *)
Definition on_submit (p : Page) : Page * bool :=
  let p := serialize_all p in
  let total := presented_total p in
  if isNaN total || gt (abs (sub total hundred)) tolerance
  then (showError (total_message total) p, false)
  else (p, true).

(* ------------------------------------------------------------------ *)
(** ** Changing the type of an allowance or of a relief *)

Fixpoint update_nth {A : Type} (i : nat) (f : A -> A) (l : list A) : list A :=
  match l, i with
  | [], _ => []
  | x :: r, O => f x :: r
  | x :: r, S j => x :: update_nth j f r
  end.

Definition on_item {I : Type} (i : nat) (f : I -> I) (s : Section I)
  : Section I :=
  {| container := update_nth i f (container s);
     has_items := has_items s;
     hidden := hidden s |}.

Definition select_calc_type (value : string) (item : AllowanceItem)
  : AllowanceItem :=
  {| allow_id := allow_id item; allow_name := allow_name item;
     allow_calc_type := value;
     allow_active := allow_active item; allow_annual := allow_annual item;
     allow_percentage := allow_percentage item;
     allow_based_on := allow_based_on item;
     allow_fixed_amount := allow_fixed_amount item;
     allow_percentage_fields := allow_percentage_fields item;
     allow_fixed_fields := allow_fixed_fields item |}.

(** The first two statements of the [change] listener that
    [attachAllowanceEvents] puts on the select. *)
Definition toggle_allowance_fields (item : AllowanceItem) : AllowanceItem :=
  {| allow_id := allow_id item; allow_name := allow_name item;
     allow_calc_type := allow_calc_type item;
     allow_active := allow_active item; allow_annual := allow_annual item;
     allow_percentage := allow_percentage item;
     allow_based_on := allow_based_on item;
     allow_fixed_amount := allow_fixed_amount item;
     allow_percentage_fields :=
       if String.eqb (allow_calc_type item) "percentage"
       then "block" else "none";
     allow_fixed_fields :=
       if String.eqb (allow_calc_type item) "fixed"
       then "block" else "none" |}.

(** The user picks [value] in the select of the [i]-th allowance: the
    select takes the value, its [input] event runs the listener added by
    [inputs.forEach], its [change] event runs the listener on [calcType]
    and then the one added by [inputs.forEach]. *)
Definition change_calc_type (i : nat) (value : string) (p : Page) : Page :=
  let p := with_allowances p (on_item i (select_calc_type value) (allowances p)) in
  let p := updateAllowancesJSON p in
  let p := with_allowances p (on_item i toggle_allowance_fields (allowances p)) in
  let p := updateAllowancesJSON p in
  updateAllowancesJSON p.

Definition select_formula_type (value : string) (item : ReliefItem)
  : ReliefItem :=
  {| relief_id := relief_id item; relief_name := relief_name item;
     relief_formula_type := value;
     relief_active := relief_active item;
     relief_percentage := relief_percentage item;
     relief_based_on := relief_based_on item;
     relief_fixed_amount := relief_fixed_amount item;
     relief_percentage_fields := relief_percentage_fields item;
     relief_fixed_fields := relief_fixed_fields item |}.

Definition toggle_relief_fields (item : ReliefItem) : ReliefItem :=
  let value := relief_formula_type item in
  {| relief_id := relief_id item; relief_name := relief_name item;
     relief_formula_type := value;
     relief_active := relief_active item;
     relief_percentage := relief_percentage item;
     relief_based_on := relief_based_on item;
     relief_fixed_amount := relief_fixed_amount item;
     relief_percentage_fields :=
       if String.eqb value "percentage" then "block"
       else if String.eqb value "percentage_plus_fixed" then "block"
       else "none";
     relief_fixed_fields :=
       if String.eqb value "fixed" then "block"
       else if String.eqb value "percentage_plus_fixed" then "block"
       else "none" |}.

Definition change_formula_type (i : nat) (value : string) (p : Page) : Page :=
  let p := with_reliefs p (on_item i (select_formula_type value) (reliefs p)) in
  let p := updateReliefsJSON p in
  let p := with_reliefs p (on_item i toggle_relief_fields (reliefs p)) in
  let p := updateReliefsJSON p in
  updateReliefsJSON p.

(** A page before the script runs: empty containers and the hidden fields
    as the server rendered them. *)
Definition rendered (basic allow relief bracket stat other income : string)
  : Page :=
  {| basicComponents := mkSection [] false basic;
     allowances := mkSection [] false allow;
     reliefs := mkSection [] false relief;
     taxBrackets := mkSection [] false bracket;
     statutoryDeductions := mkSection [] false stat;
     otherDeductions := mkSection [] false other;
     incomeItems := mkSection [] false income;
     totalPercentage_text := "0.00";
     totalPercentage_class := "";
     componentCounter := 0;
     console := [];
     error_shown := None |}.

(* ================================================================== *)
(** * Notions used to state the properties *)
(* ================================================================== *)

(** ** Canonical forms *)

(** The value each [update...JSON] function passes to [JSON.stringify]. *)
Definition canonical_basic (p : Page) : json :=
  JObj (basic_components (container (basicComponents p))).

Definition canonical_allowances (p : Page) : json :=
  JArr (collect allowance_entry (container (allowances p))).

Definition canonical_reliefs (p : Page) : json :=
  JArr (collect relief_entry (container (reliefs p))).

Definition canonical_brackets (p : Page) : json :=
  JArr (collect bracket_entry (container (taxBrackets p))).

Definition canonical_statutory (p : Page) : json :=
  JArr (collect statutory_entry (container (statutoryDeductions p))).

Definition canonical_others (p : Page) : json :=
  JArr (collect other_entry (container (otherDeductions p))).

Definition canonical_income (p : Page) : json :=
  JArr (collect income_entry (container (incomeItems p))).

Definition canonical_forms (p : Page) : list json :=
  [canonical_basic p; canonical_allowances p; canonical_reliefs p;
   canonical_brackets p; canonical_statutory p; canonical_others p;
   canonical_income p].

(** The values of the seven hidden inputs, in the same order. *)
Definition hidden_fields (p : Page) : list string :=
  [hidden (basicComponents p); hidden (allowances p); hidden (reliefs p);
   hidden (taxBrackets p); hidden (statutoryDeductions p);
   hidden (otherDeductions p); hidden (incomeItems p)].

(** ** Entered data *)

(** What the user entered in a basic component: everything but the preview. *)
Definition entered (item : BasicItem) : nat * string * string * string :=
  (comp_id item, comp_name item, comp_code item, comp_percentage item).

(** Two pages hold the same records with the same entered values. *)
Definition same_entries (p q : Page) : Prop :=
  map entered (container (basicComponents p)) =
    map entered (container (basicComponents q)) /\
  container (allowances p) = container (allowances q) /\
  container (reliefs p) = container (reliefs q) /\
  container (taxBrackets p) = container (taxBrackets q) /\
  container (statutoryDeductions p) = container (statutoryDeductions q) /\
  container (otherDeductions p) = container (otherDeductions q) /\
  container (incomeItems p) = container (incomeItems q).

(** No percentage input of a basic component reads as an infinity; an
    [<input type="number">] cannot hold such a value. *)
Definition percentages_bounded (p : Page) : Prop :=
  Forall (fun item => is_infinite (parseFloat (comp_percentage item)) = false)
    (container (basicComponents p)).

(** ** Colliding keys *)

(** The record of the last item, in iteration order, that has a name and a
    code and whose name, in lower case and with every run of white space
    made one underscore, is [k]: the trimmed code, the percentage read (0
    when it does not read as a number other than zero) and the trimmed
    name. *)
Fixpoint last_with_key (k : string) (items : list BasicItem) : option json :=
  match items with
  | [] => None
  | item :: rest =>
      match last_with_key k rest with
      | Some record => Some record
      | None =>
          let name := Str.trim (comp_name item) in
          let code := Str.trim (comp_code item) in
          if Str.nonempty name && Str.nonempty code &&
             String.eqb (Str.replace_spaces (Str.toLowerCase name)) k
          then Some (JObj [("code", JStr code);
                           ("percentage",
                            JNum (or_default
                                    (parseFloat (comp_percentage item)) zero));
                           ("name", JStr name)])
          else None
      end
  end.

(** The percentages read from all the items that have a name and a code,
    the ones whose key another item takes included, added up from zero in
    iteration order. *)
Definition sum_of_all (items : list BasicItem) : number :=
  fold_left add
    (map (fun item => or_default (parseFloat (comp_percentage item)) zero)
       (filter (fun item =>
                  Str.nonempty (Str.trim (comp_name item)) &&
                  Str.nonempty (Str.trim (comp_code item))) items))
    zero.

(** The percentages of all the items that have their name and code, added
    up from zero in iteration order. *)
Definition sum_percentages (items : list BasicItem) : number :=
  fold_left add (map basic_percentage (filter basic_included items)) zero.

Definition keys (o : object) : list string := map fst o.

(** ** Required fields *)



Definition bracket_complete (item : TaxBracketItem) : bool :=
  negb (isNaN (parseFloat (bracket_rate item))).




(** ** Tax brackets *)

(** A record whose [limit] is [null]. *)
Definition open_ended (record : json) : bool :=
  match get "limit" record with
  | Some JNull => true
  | _ => false
  end.

Definition blank_limit (item : TaxBracketItem) : bool :=
  String.eqb (Str.trim (bracket_limit item)) "".

(** ** Serialized forms at initialisation *)

(** An absent or empty serialized form of an array section. *)
Definition blank_array (value : string) : Prop :=
  value = "" \/ Json.parse value = Some (JArr []).

(** An absent or empty serialized form of the basic components. *)
Definition blank_object (value : string) : Prop :=
  value = "" \/ Json.parse value = Some (JObj []).

(** The default template records. *)
Definition default_basic (id : nat) : BasicItem :=
  {| comp_id := id; comp_name := ""; comp_code := ""; comp_percentage := "";
     comp_amount := zero |}.

Definition default_allowance (id : nat) : AllowanceItem :=
  {| allow_id := id; allow_name := ""; allow_calc_type := "percentage";
     allow_active := true; allow_annual := false; allow_percentage := "";
     allow_based_on := "TOTAL"; allow_fixed_amount := "";
     allow_percentage_fields := "block"; allow_fixed_fields := "none" |}.

Definition default_relief (id : nat) : ReliefItem :=
  {| relief_id := id; relief_name := "";
     relief_formula_type := "percentage_plus_fixed"; relief_active := true;
     relief_percentage := ""; relief_based_on := "gross_income";
     relief_fixed_amount := "";
     relief_percentage_fields := "block"; relief_fixed_fields := "block" |}.

Definition default_bracket (id : nat) : TaxBracketItem :=
  {| bracket_id := id; bracket_limit := ""; bracket_rate := "" |}.

Definition default_statutory (id : nat) : StatutoryItem :=
  {| stat_id := id; stat_name := ""; stat_percentage := "";
     stat_based_on := "B"; stat_active := true |}.

Definition default_other (id : nat) : OtherItem :=
  {| other_id := id; other_name := ""; other_display_rule := "show_if_filled";
     other_linked_to := ""; other_order := "1" |}.

Definition default_income (id : nat) : IncomeItem :=
  {| income_id := id; income_name := "";
     income_display_rule := "show_if_filled"; income_order := "1" |}.

(** The section holds nothing in edit mode and one record, [template] under
    some identifier, otherwise. *)
Definition seeded {I : Type} (edit : bool) (template : nat -> I)
  (items : list I) : Prop :=
  if edit then items = [] else exists id, items = [template id].

(** ** Forms that survive a reload *)

(** A text that an [<input type="text">] can hold. *)
Definition single_line (s : string) : Prop := strip_newlines s = s.

(** The number shown in a number input reads back as itself. *)
Definition reads_back (x : number) : Prop :=
  parseFloat (sanitize_number (Num.toString x)) = x.

(** The same for a tax bracket limit, which is trimmed and tested for
    blankness before it is read. *)
Definition limit_reads_back (x : number) : Prop :=
  Str.trim (sanitize_number (Num.toString x)) <> "" /\
  parseFloat (Str.trim (sanitize_number (Num.toString x))) = x.

(** The same for an order, read by [parseInt(...) || 1]. *)
Definition order_reads_back (x : number) : Prop :=
  or_default (parseInt (sanitize_number (Num.toString x))) one = x.

Definition basic_reloads (item : BasicItem) : Prop :=
  single_line (Str.trim (comp_name item)) /\
  single_line (Str.trim (comp_code item)) /\
  reads_back (basic_percentage item).

Definition allowance_reloads (item : AllowanceItem) : Prop :=
  single_line (Str.trim (allow_name item)) /\
  single_line (Str.trim (allow_based_on item)) /\
  In (allow_calc_type item) ["percentage"; "fixed"] /\
  reads_back (parseFloat (allow_percentage item)) /\
  reads_back (parseFloat (allow_fixed_amount item)) /\
  (allow_calc_type item = "percentage" ->
   Str.nonempty (Str.trim (allow_based_on item)) = true).

Definition relief_reloads (item : ReliefItem) : Prop :=
  single_line (Str.trim (relief_name item)) /\
  single_line (Str.trim (relief_based_on item)) /\
  In (relief_formula_type item)
    ["percentage_plus_fixed"; "percentage"; "fixed"] /\
  reads_back (parseFloat (relief_percentage item)) /\
  reads_back (parseFloat (relief_fixed_amount item)) /\
  (relief_formula_type item <> "fixed" ->
   Str.nonempty (Str.trim (relief_based_on item)) = true).

Definition bracket_reloads (item : TaxBracketItem) : Prop :=
  reads_back (parseFloat (bracket_rate item)) /\
  (Str.trim (bracket_limit item) = "" \/
   limit_reads_back (parseFloat (Str.trim (bracket_limit item)))).

Definition statutory_reloads (item : StatutoryItem) : Prop :=
  single_line (Str.trim (stat_name item)) /\
  single_line (Str.trim (stat_based_on item)) /\
  reads_back (parseFloat (stat_percentage item)).

Definition other_reloads (item : OtherItem) : Prop :=
  single_line (Str.trim (other_name item)) /\
  In (other_display_rule item) ["show_if_filled"; "always_show"] /\
  In (other_linked_to item) [""; "staff_loan"; "salary_advance"] /\
  order_reads_back (or_default (parseInt (other_order item)) one).

Definition income_reloads (item : IncomeItem) : Prop :=
  single_line (Str.trim (income_name item)) /\
  In (income_display_rule item) ["show_if_filled"; "always_show"] /\
  order_reads_back (or_default (parseInt (income_order item)) one).

(** Every record of the page meets the conditions above. *)
Definition reloads (p : Page) : Prop :=
  Forall basic_reloads (container (basicComponents p)) /\
  Forall allowance_reloads (container (allowances p)) /\
  Forall relief_reloads (container (reliefs p)) /\
  Forall bracket_reloads (container (taxBrackets p)) /\
  Forall statutory_reloads (container (statutoryDeductions p)) /\
  Forall other_reloads (container (otherDeductions p)) /\
  Forall income_reloads (container (incomeItems p)).

(** ** The record shapes of the specification

    Written after section 3 of the specification, for the statement of
    the round trip as the specification has it. *)

Definition is_some_string (v : option json) : bool :=
  match v with Some (JStr _) => true | _ => false end.

Definition is_number (v : option json) : bool :=
  match v with Some (JNum x) => isFinite x | _ => false end.

Definition is_boolean (v : option json) : bool :=
  match v with Some (JBool _) => true | _ => false end.

Definition named (record : json) : bool :=
  match get "name" record with
  | Some (JStr name) => Str.nonempty (Str.trim name)
  | _ => false
  end.

Definition one_of (v : option json) (choices : list string) : bool :=
  match v with
  | Some (JStr s) => existsb (String.eqb s) choices
  | _ => false
  end.

Definition absent (v : option json) : bool :=
  match v with None => true | Some _ => false end.

(** Income Items: {name, display_rule, order}, name required. *)
Definition income_shape (record : json) : bool :=
  named record &&
  one_of (get "display_rule" record) ["show_if_filled"; "always_show"] &&
  is_number (get "order" record).

(** Allowances: {name, is_active, annual_only, calc_type in {percentage,
    fixed}, percentage?, based_on?, fixed_amount?}, with the fields of one
    group only, the one of the calc_type. *)
Definition allowance_shape (record : json) : bool :=
  named record &&
  is_boolean (get "is_active" record) &&
  is_boolean (get "annual_only" record) &&
  (absent (get "percentage" record) || is_number (get "percentage" record)) &&
  (absent (get "based_on" record) || is_some_string (get "based_on" record)) &&
  (absent (get "fixed_amount" record) ||
   is_number (get "fixed_amount" record)) &&
  (if Html.is_string (get "calculation_type" record) "percentage"
   then absent (get "fixed_amount" record)
   else Html.is_string (get "calculation_type" record) "fixed" &&
        absent (get "percentage" record) && absent (get "based_on" record)).

(** An array whose records all have the shape. *)
Definition array_of (shape : json -> bool) (form : json) : bool :=
  match form with
  | JArr records => forallb shape records
  | _ => false
  end.

(** ** Auxiliary notions of the proofs *)

(** The text starts with a decimal digit. *)
Definition starts_digit (s : string) : bool :=
  match s with String c _ => Str.is_digit c | EmptyString => false end.

(** The text is empty or starts with a character that is not white space. *)
Definition starts_solid (s : string) : bool :=
  match s with String c _ => negb (Str.is_space c) | EmptyString => true end.

(** [k1] may stand before [k2] in property order. *)
Definition precedes (k1 k2 : string) : Prop :=
  match array_index k1, array_index k2 with
  | Some i, Some j => i < j
  | Some _, None => True
  | None, Some _ => False
  | None, None => True
  end.

(** An object as [JSON.parse] or successive assignments build it: distinct
    property names, array indices first and ascending. *)
Definition ordered (o : object) : Prop :=
  NoDup (keys o) /\ ForallOrdPairs precedes (keys o).

(** The object rebuilt by assigning its properties in their order. *)
Definition rebuild (o acc : object) : object :=
  fold_left (fun acc kv => Json.set (fst kv) (snd kv) acc) o acc.

(** The records of [records] were made from the data of [data], one each,
    under some identifiers. *)
Definition made_from {I : Type} (make : nat -> json -> I)
  (records : list I) (data : list json) : Prop :=
  Forall2 (fun record d => exists id, record = make id d) records data.

(** The data that an array section is loaded with: the records of a
    non-empty array, else nothing in edit mode and the template's [null]
    otherwise. *)
Definition array_data (value : string) (edit : bool) : list json :=
  match Json.parse (or_else value "[]") with
  | Some (JArr (first :: rest)) => first :: rest
  | _ => if edit then [] else [JNull]
  end.

(** ** Example data *)

Definition component (id : nat) (name code percentage : string) : BasicItem :=
  {| comp_id := id; comp_name := name; comp_code := code;
     comp_percentage := percentage; comp_amount := zero |}.

Definition bracket (id : nat) (limit rate : string) : TaxBracketItem :=
  {| bracket_id := id; bracket_limit := limit; bracket_rate := rate |}.

(** An empty page. *)
Definition blank_page : Page := rendered "" "" "" "" "" "" "".

(** Basic 60 and Housing 30: the total is 90. *)
Definition page_of_ninety : Page :=
  with_basicComponents blank_page
    (mkSection [component 1 "Basic" "B" "60"; component 2 "Housing" "H" "30"]
       true "").

(** Two brackets with a rate and no limit. *)
Definition two_open_brackets : list TaxBracketItem :=
  [bracket 1 "" "10"; bracket 2 "" "20"].

(** A basic component whose percentage is not a number. *)
Definition component_without_number : BasicItem :=
  component 1 "Basic" "B" "abc".

(** The allowance of the specification's example: 10 percent of TOTAL. *)
Definition housing_allowance : AllowanceItem :=
  {| allow_id := 1; allow_name := "Housing"; allow_calc_type := "percentage";
     allow_active := true; allow_annual := false; allow_percentage := "10";
     allow_based_on := "TOTAL"; allow_fixed_amount := "";
     allow_percentage_fields := "block"; allow_fixed_fields := "none" |}.

Definition pension_relief : ReliefItem :=
  {| relief_id := 2; relief_name := "Pension";
     relief_formula_type := "percentage_plus_fixed"; relief_active := true;
     relief_percentage := "20"; relief_based_on := "gross_income";
     relief_fixed_amount := "200000";
     relief_percentage_fields := "block"; relief_fixed_fields := "block" |}.

Definition page_with_types : Page :=
  with_reliefs
    (with_allowances blank_page (mkSection [housing_allowance] true ""))
    (mkSection [pension_relief] true "").

(** A page with that allowance and no relief, and one with that relief and
    no allowance. *)
Definition page_with_allowance : Page :=
  with_allowances blank_page (mkSection [housing_allowance] true "").

Definition page_with_relief : Page :=
  with_reliefs blank_page (mkSection [pension_relief] true "").

(** Three basic components whose names give the key [basic_salary]; they
    add up to 100. *)
Definition page_with_collisions : Page :=
  with_basicComponents blank_page
    (mkSection [component 1 "Basic Salary" "B1" "60";
                component 2 "basic   salary" "B2" "25";
                component 3 " BASIC SALARY " "B3" "15"] true "").

(** Two basic components named [__proto__], in two letter cases; they add
    up to 100. *)
Definition page_with_proto : Page :=
  with_basicComponents blank_page
    (mkSection [component 1 "__proto__" "P1" "60";
                component 2 "__PROTO__" "P2" "40"] true "").

(** ** Loaded data *)

(** Whether the hidden field of an array section holds a non-empty array. *)
Definition holds_records (value : string) : bool :=
  match Json.parse (or_else value "[]") with
  | Some (JArr (_ :: _)) => true
  | _ => false
  end.

(** The data of the records of an object: what [addBasicComponent] receives
    for each of its values. *)
Definition values_data (o : object) : list json :=
  map (fun kv => component_data (snd kv)) o.

(** A page rendered in edit mode with every section empty. *)
Definition emptied_page : Page := rendered "{ }" "[]" "[]" "[]" "[]" "[]" "[]".

(** A page rendered with one stored basic component and no text in the
    other fields. *)
Definition page_with_empty_sections : Page :=
  rendered
    (stringify
       (JObj [("basic", JObj [("code", JStr "B");
                              ("percentage", JNum (Num.of_Z 100));
                              ("name", JStr "Basic")])]))
    "" "" "" "" "" "".

(** A property of an object that is the record of a basic component which
    has its name and code and survives a reload, under its key. *)
Definition recorded (kv : string * json) : Prop :=
  exists item,
    basic_reloads item /\ basic_included item = true /\
    fst kv = basic_key (Str.trim (comp_name item)) /\
    snd kv = basic_record item /\
    String.eqb (fst kv) "__proto__" = false.

(** ** Example forms *)

(** A store with a record in every section. *)
Definition sample_store : Page :=
  {| basicComponents :=
       mkSection [component 1 "Basic Salary" "B" "60";
                  component 2 "Housing" "H" "40";
                  component 3 "" "" ""] true "";
     allowances :=
       mkSection
         [housing_allowance;
          {| allow_id := 5; allow_name := "Transport";
             allow_calc_type := "fixed"; allow_active := false;
             allow_annual := true; allow_percentage := "";
             allow_based_on := "TOTAL"; allow_fixed_amount := "15000.5";
             allow_percentage_fields := "none";
             allow_fixed_fields := "block" |}] true "";
     reliefs := mkSection [pension_relief] true "";
     taxBrackets :=
       mkSection [bracket 7 "300000" "7"; bracket 8 "" "24"] true "";
     statutoryDeductions :=
       mkSection
         [{| stat_id := 9; stat_name := "Pension"; stat_percentage := "8";
             stat_based_on := "B+H"; stat_active := true |}] true "";
     otherDeductions :=
       mkSection
         [{| other_id := 10; other_name := "Loan";
             other_display_rule := "always_show";
             other_linked_to := "staff_loan"; other_order := "2" |}] true "";
     incomeItems :=
       mkSection
         [{| income_id := 11; income_name := "Bonus";
             income_display_rule := "show_if_filled";
             income_order := "1" |}] true "";
     totalPercentage_text := "0.00";
     totalPercentage_class := "";
     componentCounter := 11;
     console := [];
     error_shown := None |}.

(** The page the server renders from what [sample_store] submitted. *)
Definition sample_reload : Page :=
  match hidden_fields (serialize_all sample_store) with
  | [b; a; r; t; s; o; i] => rendered b a r t s o i
  | _ => blank_page
  end.

(** An income item of order 0: a form of the shape of section 3. *)
Definition income_of_order_zero : json :=
  JArr [JObj [("name", JStr "Bonus");
              ("display_rule", JStr "show_if_filled");
              ("order", JNum zero)]].

(** A percentage allowance whose base was cleared by the user. *)
Definition allowance_without_base : AllowanceItem :=
  {| allow_id := 1; allow_name := "Housing"; allow_calc_type := "percentage";
     allow_active := true; allow_annual := false; allow_percentage := "10";
     allow_based_on := ""; allow_fixed_amount := "";
     allow_percentage_fields := "block"; allow_fixed_fields := "none" |}.

(** The page rendered with the given forms of the allowances and of the
    income items, the other sections empty. *)
Definition rendered_with (allowances_form income_form : json) : Page :=
  rendered "{}" (stringify allowances_form) "[]" "[]" "[]" "[]"
    (stringify income_form).

(* ================================================================== *)
(** * The rest of the script *)
(* ================================================================== *)

(** ** Escaping *)

(** [s.replace(/c/g, by)] for a single character [c]. *)
Fixpoint replace_char (c : ascii) (by_text : string) (s : string) : string :=
  match s with
  | String a r =>
      if Ascii.eqb a c then by_text ++ replace_char c by_text r
      else String a (replace_char c by_text r)
  | EmptyString => EmptyString
  end.

Definition ampersand : ascii := Str.chr 38.
Definition less_than : ascii := Str.chr 60.
Definition greater_than : ascii := Str.chr 62.
Definition double_quote : ascii := Str.chr 34.
Definition apostrophe : ascii := Str.chr 39.

(** The five [replace] calls of [escapeHtml], in their order. *)
Definition escape_text (s : string) : string :=
  replace_char apostrophe "&#039;"
    (replace_char double_quote "&quot;"
       (replace_char greater_than "&gt;"
          (replace_char less_than "&lt;"
             (replace_char ampersand "&amp;" s)))).

(** [escapeHtml(unsafe)]; [None] is [undefined]. *)
Definition escapeHtml (unsafe : option json) : string :=
  match unsafe with
  | None | Some JNull => EmptyString
  | Some v => escape_text (to_string v)
  end.

(** What one character becomes when every character is escaped on its
    own. *)
Definition escape_char (a : ascii) : string :=
  if Ascii.eqb a ampersand then "&amp;"
  else if Ascii.eqb a less_than then "&lt;"
  else if Ascii.eqb a greater_than then "&gt;"
  else if Ascii.eqb a double_quote then "&quot;"
  else if Ascii.eqb a apostrophe then "&#039;"
  else String a EmptyString.

Fixpoint escape_each (s : string) : string :=
  match s with
  | String a r => escape_char a ++ escape_each r
  | EmptyString => EmptyString
  end.

(** Whether the character occurs in the text. *)
Fixpoint occurs (c : ascii) (s : string) : bool :=
  match s with
  | String a r => Ascii.eqb a c || occurs c r
  | EmptyString => false
  end.

(** The five character references read back. *)
Fixpoint unescape (s : string) : string :=
  match s with
  | String "&" (String "a" (String "m" (String "p" (String ";" r)))) =>
      String ampersand (unescape r)
  | String "&" (String "l" (String "t" (String ";" r))) =>
      String less_than (unescape r)
  | String "&" (String "g" (String "t" (String ";" r))) =>
      String greater_than (unescape r)
  | String "&" (String "q" (String "u" (String "o" (String "t"
      (String ";" r))))) =>
      String double_quote (unescape r)
  | String "&" (String "#" (String "0" (String "3" (String "9"
      (String ";" r))))) =>
      String apostrophe (unescape r)
  | String a r => String a (unescape r)
  | EmptyString => EmptyString
  end.

(* ------------------------------------------------------------------ *)
(** ** Removing a record *)

Fixpoint remove_nth {A : Type} (i : nat) (l : list A) : list A :=
  match l, i with
  | [], _ => []
  | _ :: r, O => r
  | x :: r, S j => x :: remove_nth j r
  end.

(** [item.remove()] on the [i]-th child of the container. *)
Definition remove_item {I : Type} (i : nat) (s : Section I) : Section I :=
  {| container := remove_nth i (container s);
     has_items := has_items s;
     hidden := hidden s |}.

(** The [click] listeners of the remove buttons. *)
Definition remove_basic_component (i : nat) (p : Page) : Page :=
  updateBasicComponentsJSON
    (with_basicComponents p (remove_item i (basicComponents p))).

Definition remove_allowance (i : nat) (p : Page) : Page :=
  updateAllowancesJSON (with_allowances p (remove_item i (allowances p))).

Definition remove_relief (i : nat) (p : Page) : Page :=
  updateReliefsJSON (with_reliefs p (remove_item i (reliefs p))).

Definition remove_tax_bracket (i : nat) (p : Page) : Page :=
  updateTaxBracketsJSON (with_taxBrackets p (remove_item i (taxBrackets p))).

Definition remove_statutory_deduction (i : nat) (p : Page) : Page :=
  updateStatutoryDeductionsJSON
    (with_statutoryDeductions p (remove_item i (statutoryDeductions p))).

Definition remove_other_deduction (i : nat) (p : Page) : Page :=
  updateOtherDeductionsJSON
    (with_otherDeductions p (remove_item i (otherDeductions p))).

Definition remove_income_item (i : nat) (p : Page) : Page :=
  updateIncomeItemsJSON (with_incomeItems p (remove_item i (incomeItems p))).

(* ------------------------------------------------------------------ *)
(** ** The [change] listener of the hidden fields *)

Definition on_hidden_change (p : Page) : Page :=
  updateReliefsJSON (updateAllowancesJSON (updateBasicComponentsJSON p)).

(** The user puts a text in a hidden field. *)
Definition paste {I : Type} (text : string) (s : Section I) : Section I :=
  {| container := container s; has_items := has_items s; hidden := text |}.

(* ------------------------------------------------------------------ *)
(** ** Disabling the form *)

(** An element of the document, with what [disableEditing] reads and
    writes. *)
Record Element := {
  el_id : string;
  (** [el.tagName.toLowerCase()] *)
  tagName : string;
  (** [el.type] *)
  el_type : string;
  classList : list string;
  (** a descendant of [#salarySettingForm] *)
  in_form : bool;
  (** the [disabled] attribute *)
  disabled : bool;
  (** [style.display] *)
  display : string
}.

Definition has_class (name : string) (e : Element) : bool :=
  existsb (String.eqb name) (classList e).

(** [el.setAttribute('disabled', 'disabled')]. *)
Definition disable (e : Element) : Element :=
  {| el_id := el_id e; tagName := tagName e; el_type := el_type e;
     classList := classList e; in_form := in_form e;
     disabled := true; display := display e |}.

(** [el.style.display = 'none']. *)
Definition hide (e : Element) : Element :=
  {| el_id := el_id e; tagName := tagName e; el_type := el_type e;
     classList := classList e; in_form := in_form e;
     disabled := disabled e; display := "none" |}.

(** The element [document.getElementById(id)] gets the attribute, if there
    is one: the first element of that identifier.  The script looks the
    buttons up when it starts; the templates of the records give no
    identifier to an element, so the button is still the first element of
    its identifier when [disableEditing] runs. *)
Fixpoint disable_by_id (id : string) (doc : list Element) : list Element :=
  match doc with
  | [] => []
  | e :: rest =>
      if String.eqb (el_id e) id then disable e :: rest
      else e :: disable_by_id id rest
  end.

Definition add_buttons : list string :=
  ["addBasicComponentBtn"; "addAllowanceBtn"; "addReliefBtn";
   "addTaxBracketBtn"; "addStatutoryDeductionBtn"; "addOtherDeductionBtn";
   "addIncomeItemBtn"].

(** The elements matched by
    [#salarySettingForm input, ... select, ... textarea, ... button]. *)
Definition form_control (e : Element) : bool :=
  in_form e &&
  existsb (String.eqb (tagName e)) ["input"; "select"; "textarea"; "button"].

(** [el.type === 'submit' || el.type === 'button' &&
    el.classList.contains('btn-danger') === false]. *)
Definition kept_enabled (e : Element) : bool :=
  String.eqb (el_type e) "submit" ||
  (String.eqb (el_type e) "button" && negb (has_class "btn-danger" e)).

(** The body of the second loop on one matched element. *)
Definition disable_control (e : Element) : Element :=
  if kept_enabled e then e
  else if String.eqb (tagName e) "input" || String.eqb (tagName e) "select"
          || String.eqb (tagName e) "textarea"
          || String.eqb (tagName e) "button"
       then disable e else e.

Definition disableEditing (doc : list Element) : list Element :=
  let doc := fold_left (fun d id => disable_by_id id d) add_buttons doc in
  let doc := map (fun e => if form_control e then disable_control e else e) doc in
  map (fun e => if has_class "remove-btn" e then hide e else e) doc.

(** The attributes [disableEditing] never writes. *)
Definition identity (e : Element) :=
  (el_id e, tagName e, el_type e, classList e, in_form e).

(** The second loop disables the element: it is an input, select, textarea
    or button inside [#salarySettingForm], its type is not [submit] and,
    when its type is [button], it has the class [btn-danger]. *)
Definition to_disable (e : Element) : Prop :=
  in_form e = true /\
  In (tagName e) ["input"; "select"; "textarea"; "button"] /\
  el_type e <> "submit" /\
  (el_type e = "button" -> In "btn-danger" (classList e)).

(** The [n]-th element of the document is the one that [getElementById]
    returns for its identifier: no element before it has that identifier. *)
Definition first_of_its_id (doc : list Element) (n : nat) (e : Element)
  : Prop :=
  ~ In (el_id e) (map el_id (firstn n doc)).

(** What [disableEditing] makes of the [n]-th element [e] of the document:
    the same element, with the [disabled] attribute exactly when it had it,
    or is the element of one of the seven add buttons' identifiers, or is
    disabled by the second loop; hidden when it has the class [remove-btn],
    else displayed as before. *)
Definition locked_at (doc : list Element) (n : nat) (e e' : Element) : Prop :=
  identity e' = identity e /\
  (disabled e' = true <->
   disabled e = true \/
   (In (el_id e) add_buttons /\ first_of_its_id doc n e) \/
   to_disable e) /\
  (In "remove-btn" (classList e) -> display e' = "none") /\
  (~ In "remove-btn" (classList e) -> display e' = display e).

(* ------------------------------------------------------------------ *)
(** ** Identifiers, inputs and synchronisation *)

(** The identifiers of all the records of the page. *)
Definition all_ids (p : Page) : list nat :=
  (map comp_id (container (basicComponents p)) ++
   map allow_id (container (allowances p)) ++
   map relief_id (container (reliefs p)) ++
   map bracket_id (container (taxBrackets p)) ++
   map stat_id (container (statutoryDeductions p)) ++
   map other_id (container (otherDeductions p)) ++
   map income_id (container (incomeItems p)))%list.

(** No identifier is used twice and none is above the counter. *)
Definition fresh_ids (p : Page) : Prop :=
  NoDup (all_ids p) /\
  Forall (fun id => (id <= componentCounter p)%nat) (all_ids p).

(** A value that an [<input type="number">] can hold. *)
Definition numeric (s : string) : Prop := sanitize_number s = s.

(** Every input of the page holds a value that its kind of control can
    hold: a single line in a text input, empty text or a valid finite
    number in a number input, one of its options in a select. *)
Definition well_formed_inputs (p : Page) : Prop :=
  Forall (fun item =>
            single_line (comp_name item) /\ single_line (comp_code item) /\
            numeric (comp_percentage item))
    (container (basicComponents p)) /\
  Forall (fun item =>
            single_line (allow_name item) /\
            single_line (allow_based_on item) /\
            numeric (allow_percentage item) /\
            numeric (allow_fixed_amount item) /\
            In (allow_calc_type item) ["percentage"; "fixed"])
    (container (allowances p)) /\
  Forall (fun item =>
            single_line (relief_name item) /\
            single_line (relief_based_on item) /\
            numeric (relief_percentage item) /\
            numeric (relief_fixed_amount item) /\
            In (relief_formula_type item)
              ["percentage_plus_fixed"; "percentage"; "fixed"])
    (container (reliefs p)) /\
  Forall (fun item =>
            numeric (bracket_limit item) /\ numeric (bracket_rate item))
    (container (taxBrackets p)) /\
  Forall (fun item =>
            single_line (stat_name item) /\ single_line (stat_based_on item) /\
            numeric (stat_percentage item))
    (container (statutoryDeductions p)) /\
  Forall (fun item =>
            single_line (other_name item) /\ numeric (other_order item) /\
            In (other_display_rule item) ["show_if_filled"; "always_show"] /\
            In (other_linked_to item) [""; "staff_loan"; "salary_advance"])
    (container (otherDeductions p)) /\
  Forall (fun item =>
            single_line (income_name item) /\ numeric (income_order item) /\
            In (income_display_rule item) ["show_if_filled"; "always_show"])
    (container (incomeItems p)).

(** The hidden field of a section holds the serialization of its
    container and the class [has-items] tells whether there is a record, or
    the section was left alone: no record, and the text and the class that
    were there. *)
Definition settled {I : Type} (before after : Section I) (form : json)
  : Prop :=
  (hidden after = stringify form /\
   has_items after = match container after with [] => false | _ => true end)
  \/
  (container after = [] /\ hidden after = hidden before /\
   has_items after = has_items before).

(** The first [null] among the values stops the loop over them. *)
Fixpoint before_null (values : list json) : list json :=
  match values with
  | [] => []
  | JNull :: _ => []
  | v :: rest => v :: before_null rest
  end.

Definition has_null (values : list json) : bool :=
  existsb (fun v => match v with JNull => true | _ => false end) values.

(** Whether the [try] block of the basic components ends in its [catch]. *)
Definition basic_load_fails (value : string) : bool :=
  match Json.parse (or_else value "{}") with
  | None => true
  | Some parsed =>
      match object_values parsed with
      | None => true
      | Some values => has_null values
      end
  end.

(** Whether the [try] block of an array section ends in its [catch]. *)
Definition array_load_fails (value : string) : bool :=
  match Json.parse (or_else value "[]") with
  | None => true
  | Some _ => false
  end.

(** The warnings of [loadExistingData], latest first. *)
Definition load_warnings (q : Page) : list string :=
  ((if array_load_fails (hidden (incomeItems q))
    then ["Failed to parse income items JSON"] else []) ++
   (if array_load_fails (hidden (otherDeductions q))
    then ["Failed to parse other deductions JSON"] else []) ++
   (if array_load_fails (hidden (statutoryDeductions q))
    then ["Failed to parse statutory deductions JSON"] else []) ++
   (if array_load_fails (hidden (taxBrackets q))
    then ["Failed to parse tax brackets JSON"] else []) ++
   (if array_load_fails (hidden (reliefs q))
    then ["Failed to parse reliefs JSON"] else []) ++
   (if array_load_fails (hidden (allowances q))
    then ["Failed to parse allowances JSON"] else []) ++
   (if basic_load_fails (hidden (basicComponents q))
    then ["Failed to parse basic components JSON"] else []))%list.

(** ** More example data *)

Definition hidden_input : Element :=
  {| el_id := "id_basic_components_json"; tagName := "input";
     el_type := "hidden"; classList := []; in_form := true;
     disabled := false; display := "" |}.

Definition remove_button : Element :=
  {| el_id := ""; tagName := "button"; el_type := "button";
     classList := ["btn"; "btn-danger"; "btn-sm"; "remove-btn"; "mt-2"];
     in_form := true; disabled := false; display := "" |}.

Definition submit_button : Element :=
  {| el_id := ""; tagName := "button"; el_type := "submit";
     classList := ["btn"]; in_form := true; disabled := false;
     display := "" |}.

Definition sample_document : list Element :=
  [hidden_input; remove_button; submit_button].

(** Basic components stored with a [null] between two records. *)
Definition components_with_null : object :=
  [("basic", JObj [("name", JStr "Basic"); ("code", JStr "B");
                   ("percentage", JNum (Num.of_Z 60))]);
   ("bonus", JNull);
   ("housing", JObj [("name", JStr "Housing"); ("code", JStr "H");
                     ("percentage", JNum (Num.of_Z 40))])].

Definition page_with_null_component : Page :=
  rendered (stringify (JObj components_with_null)) "" "" "" "" "" "".

(** The add button of the allowances as the page has it, a second element
    that was given the same identifier, a cancel button and an input outside
    the form. *)
Definition add_allowance_button : Element :=
  {| el_id := "addAllowanceBtn"; tagName := "button"; el_type := "button";
     classList := ["btn"; "btn-primary"]; in_form := true;
     disabled := false; display := "" |}.

Definition second_of_that_id : Element :=
  {| el_id := "addAllowanceBtn"; tagName := "div"; el_type := "";
     classList := []; in_form := false; disabled := false; display := "" |}.

Definition cancel_button : Element :=
  {| el_id := ""; tagName := "button"; el_type := "button";
     classList := ["btn"; "btn-secondary"]; in_form := true;
     disabled := false; display := "" |}.

Definition search_input : Element :=
  {| el_id := "search"; tagName := "input"; el_type := "text";
     classList := []; in_form := false; disabled := false; display := "" |}.

Definition locked_document : list Element :=
  [add_allowance_button; second_of_that_id; hidden_input; remove_button;
   submit_button; cancel_button; search_input].

(* ------------------------------------------------------------------ *)
(** ** Data that the templates render as modelled

    The templates put the text fields of a record through [escapeHtml] and
    its number fields as they are into the markup that [innerHTML] parses.
    The items above are what the page then holds when the field converts to
    a text ([String] does not throw: it is no object and no array), a text
    field holds no U+0000 (the attribute parser gives U+FFFD for it) and a
    number field that is a text holds no double quote and no ampersand (the
    one ends the attribute, the other starts a character reference). *)

Definition plain_text (v : option json) : bool :=
  match v with
  | None | Some JNull | Some (JBool _) | Some (JNum _) => true
  | Some (JStr s) => negb (occurs (Str.chr 0) s)
  | Some (JArr _) | Some (JObj _) => false
  end.

Definition plain_number (v : option json) : bool :=
  match v with
  | None | Some JNull | Some (JBool _) | Some (JNum _) => true
  | Some (JStr s) => negb (occurs double_quote s) && negb (occurs ampersand s)
  | Some (JArr _) | Some (JObj _) => false
  end.

(** The fields that the seven templates read, each as its kind. *)
Definition plain_record (data : json) : bool :=
  forallb (fun k => plain_text (get k data)) ["name"; "code"; "based_on"] &&
  forallb (fun k => plain_number (get k data))
    ["percentage"; "fixed_amount"; "limit"; "rate"; "order"].

(** No [\u] escape of the text names a character above U+00FF, the only
    texts on which [Json.parse] differs from [JSON.parse]: the two first
    digits of every such escape are zeros. *)
Fixpoint within_latin1 (text : string) : bool :=
  match text with
  | String "\" (String "u" (String a (String b rest))) =>
      Ascii.eqb a "0" && Ascii.eqb b "0" && within_latin1 rest
  | String "\" (String _ rest) => within_latin1 rest
  | String _ rest => within_latin1 rest
  | EmptyString => true
  end.

(** The hidden field of an array section is within the model: its text is,
    and so is every record it holds. *)
Definition plain_array_field (value : string) : bool :=
  within_latin1 value &&
  match Json.parse (or_else value "[]") with
  | Some (JArr records) => forallb plain_record records
  | _ => true
  end.

(** The same for the basic components, whose values are rendered up to the
    first [null]. *)
Definition plain_object_field (value : string) : bool :=
  within_latin1 value &&
  match Json.parse (or_else value "{}") with
  | Some parsed =>
      match object_values parsed with
      | Some values => forallb plain_record (before_null values)
      | None => true
      end
  | None => true
  end.

Definition plain_fields (q : Page) : bool :=
  plain_object_field (hidden (basicComponents q)) &&
  plain_array_field (hidden (allowances q)) &&
  plain_array_field (hidden (reliefs q)) &&
  plain_array_field (hidden (taxBrackets q)) &&
  plain_array_field (hidden (statutoryDeductions q)) &&
  plain_array_field (hidden (otherDeductions q)) &&
  plain_array_field (hidden (incomeItems q)).

(** A page whose basic components hold a [null], whose allowances and income
    items are no JSON and whose reliefs hold a record with texts where
    numbers are expected. *)
Definition page_with_bad_fields : Page :=
  rendered (stringify (JObj components_with_null)) "[oops"
    (stringify
       (JArr [JObj [("name", JStr "Pension"); ("formula_type", JStr "fixed");
                    ("percentage", JStr "abc");
                    ("fixed_amount", JStr "200000")]]))
    "" "" "" "nothing".

(** The data of a fixed allowance. *)
Definition transport_data : json :=
  JObj [("name", JStr "Transport"); ("is_active", JBool true);
        ("calculation_type", JStr "fixed"); ("annual_only", JBool false);
        ("fixed_amount", JNum (Num.of_Z 15000))].

(* ================================================================== *)
(** * Properties of the platform functions *)
(* ================================================================== *)

(** ** Trimming *)

Lemma all_space_trimEnd s : Str.all_space (Str.trimEnd s) = Str.all_space s.
Proof.
  induction s as [|c r IH]; [reflexivity|].
  cbn [Str.trimEnd]. destruct (Str.all_space (String c r)) eqn:E.
  - reflexivity.
  - cbn [Str.all_space] in *. rewrite IH. exact E.
Qed.

Lemma trimEnd_idempotent s : Str.trimEnd (Str.trimEnd s) = Str.trimEnd s.
Proof.
  induction s as [|c r IH]; [reflexivity|].
  cbn [Str.trimEnd]. destruct (Str.all_space (String c r)) eqn:E.
  - reflexivity.
  - cbn [Str.trimEnd].
    assert (E' : Str.all_space (String c (Str.trimEnd r)) = false).
    { cbn [Str.all_space] in *. rewrite all_space_trimEnd. exact E. }
    rewrite E', IH. reflexivity.
Qed.

Lemma trimStart_starts_solid s : starts_solid (Str.trimStart s) = true.
Proof.
  induction s as [|c r IH]; [reflexivity|].
  cbn [Str.trimStart]. destruct (Str.is_space c) eqn:E; [exact IH|].
  simpl. rewrite E. reflexivity.
Qed.

Lemma trimStart_of_solid s : starts_solid s = true -> Str.trimStart s = s.
Proof.
  destruct s as [|c r]; [reflexivity|]. simpl.
  destruct (Str.is_space c); [discriminate|reflexivity].
Qed.

Lemma trimEnd_starts_solid s :
  starts_solid s = true -> starts_solid (Str.trimEnd s) = true.
Proof.
  destruct s as [|c r]; [reflexivity|]. intros H.
  cbn [Str.trimEnd]. destruct (Str.all_space (String c r)); [reflexivity|exact H].
Qed.

Lemma trim_idempotent s : Str.trim (Str.trim s) = Str.trim s.
Proof.
  unfold Str.trim.
  rewrite (trimStart_of_solid (Str.trimEnd (Str.trimStart s))).
  - apply trimEnd_idempotent.
  - apply trimEnd_starts_solid, trimStart_starts_solid.
Qed.

(** ** Searching a text *)

Lemma starts_with_append p s : Str.starts_with p (p ++ s) = true.
Proof.
  induction p as [|c r IH]; simpl.
  - destruct s; reflexivity.
  - rewrite Ascii.eqb_refl. exact IH.
Qed.

Lemma includes_unfold p s :
  Str.includes p s =
  Str.starts_with p s ||
  match s with String _ r => Str.includes p r | EmptyString => false end.
Proof. destruct s; reflexivity. Qed.

Lemma includes_middle a p b : Str.includes p (a ++ p ++ b) = true.
Proof.
  induction a as [|c r IH].
  - rewrite includes_unfold. simpl. rewrite starts_with_append. reflexivity.
  - rewrite includes_unfold. simpl. rewrite IH. apply orb_true_r.
Qed.

(** ** Objects *)

Lemma lookup_replace k k' v o :
  lookup k' o <> None ->
  lookup k (replace k' v o) = if String.eqb k k' then Some v else lookup k o.
Proof.
  induction o as [|[k1 v1] r IH]; simpl; intros H.
  - congruence.
  - destruct (String.eqb_spec k' k1) as [->|Hne]; simpl.
    + destruct (String.eqb k k1); reflexivity.
    + rewrite IH by assumption.
      destruct (String.eqb_spec k k1) as [->|]; [|reflexivity].
      destruct (String.eqb_spec k1 k'); congruence.
Qed.

Lemma lookup_insert_index k i k' v o :
  lookup k' o = None ->
  lookup k (insert_index i k' v o) =
  if String.eqb k k' then Some v else lookup k o.
Proof.
  induction o as [|[k1 v1] r IH]; simpl; intros H.
  - reflexivity.
  - destruct (String.eqb_spec k' k1) as [->|Hne]; [discriminate|].
    destruct (array_index k1) as [j|]; [destruct (j <? i)|]; simpl;
      try reflexivity.
    rewrite IH by assumption.
    destruct (String.eqb_spec k k1) as [->|]; [|reflexivity].
    destruct (String.eqb_spec k1 k'); congruence.
Qed.

Lemma lookup_app k o1 o2 :
  lookup k (o1 ++ o2)%list =
  match lookup k o1 with Some v => Some v | None => lookup k o2 end.
Proof.
  induction o1 as [|[k1 v1] r IH]; simpl; [reflexivity|].
  destruct (String.eqb k k1); auto.
Qed.

(** Reading a property after an assignment. *)
Lemma lookup_set k k' v o :
  lookup k (Json.set k' v o) = if String.eqb k k' then Some v else lookup k o.
Proof.
  unfold Json.set, has_key.
  destruct (lookup k' o) as [x|] eqn:E.
  - apply lookup_replace. congruence.
  - destruct (array_index k').
    + apply lookup_insert_index, E.
    + rewrite lookup_app. simpl.
      destruct (String.eqb_spec k k') as [->|].
      * rewrite E. reflexivity.
      * destruct (lookup k o); reflexivity.
Qed.

Lemma lookup_None_keys k o : lookup k o = None <-> ~ In k (keys o).
Proof.
  induction o as [|[k1 v1] r IH]; simpl.
  - tauto.
  - destruct (String.eqb_spec k k1) as [->|Hne].
    + split; [discriminate|]. intros H. exfalso. auto.
    + rewrite IH. split; [intros H [E|I]; [congruence|auto]|tauto].
Qed.

Lemma keys_replace k v o : keys (replace k v o) = keys o.
Proof.
  induction o as [|[k1 v1] r IH]; simpl; [reflexivity|].
  destruct (String.eqb_spec k k1) as [->|]; simpl; congruence.
Qed.

Lemma In_keys_insert_index x i k v o :
  In x (keys (insert_index i k v o)) <-> x = k \/ In x (keys o).
Proof.
  induction o as [|[k1 v1] r IH]; simpl.
  - intuition.
  - destruct (array_index k1) as [j|]; [destruct (j <? i)|]; simpl;
      rewrite ?IH; intuition.
Qed.

Lemma NoDup_keys_insert_index i k v o :
  ~ In k (keys o) -> NoDup (keys o) -> NoDup (keys (insert_index i k v o)).
Proof.
  induction o as [|[k1 v1] r IH]; simpl; intros Hk Hnd.
  - constructor; [tauto|constructor].
  - inversion Hnd; subst.
    destruct (array_index k1) as [j|]; [destruct (j <? i)|]; simpl.
    + constructor.
      * rewrite In_keys_insert_index. intuition.
      * apply IH; tauto.
    + constructor; [simpl; tauto|assumption].
    + constructor; [simpl; tauto|assumption].
Qed.

(** Assignments keep the property names distinct. *)
Lemma NoDup_keys_set k v o : NoDup (keys o) -> NoDup (keys (Json.set k v o)).
Proof.
  intros Hnd. unfold Json.set, has_key.
  destruct (lookup k o) eqn:E.
  - rewrite keys_replace. exact Hnd.
  - apply lookup_None_keys in E.
    destruct (array_index k).
    + apply NoDup_keys_insert_index; assumption.
    + unfold keys. rewrite map_app. simpl.
      apply NoDup_app; [assumption|constructor; [tauto|constructor]|].
      intros a Ha [<-|[]]. auto.
Qed.

(** ** Property order *)

Lemma array_index_canonical k n : array_index k = Some n -> Str.of_Z n = k.
Proof.
  unfold array_index.
  destruct (Str.span_digits k) as [[|d ds] [|c r]]; try discriminate.
  destruct (String.eqb_spec (Str.of_Z (Str.digits_value (d :: ds))) k) as [E|];
    [|discriminate].
  simpl. destruct (_ <? _); [|discriminate].
  intros [= <-]. exact E.
Qed.

Lemma array_index_injective k1 k2 n :
  array_index k1 = Some n -> array_index k2 = Some n -> k1 = k2.
Proof.
  intros H1 H2. apply array_index_canonical in H1, H2. congruence.
Qed.

Lemma ordered_insert_index i k v o :
  array_index k = Some i -> ~ In k (keys o) ->
  ForallOrdPairs precedes (keys o) ->
  ForallOrdPairs precedes (keys (insert_index i k v o)).
Proof.
  intros Hk. induction o as [|[k1 v1] r IH]; simpl; intros Hin Hord.
  - repeat constructor.
  - inversion Hord as [|a l Hall Hrest]; subst.
    assert (Hne : k1 <> k) by tauto.
    destruct (array_index k1) as [j|] eqn:E1; [destruct (j <? i) eqn:Hlt|];
      simpl.
    + constructor; [|apply IH; tauto].
      apply Forall_forall. intros x Hx.
      apply In_keys_insert_index in Hx. destruct Hx as [->|Hx].
      * unfold precedes. rewrite E1, Hk. lia.
      * rewrite Forall_forall in Hall. auto.
    + constructor; [|exact Hord].
      assert (Hij : i < j).
      { assert (i <> j); [|lia].
        intros ->. apply Hne. eapply array_index_injective; eassumption. }
      constructor.
      * unfold precedes. rewrite E1, Hk. exact Hij.
      * rewrite Forall_forall in *. intros x Hx. specialize (Hall x Hx).
        unfold precedes in *. rewrite E1 in Hall. rewrite Hk.
        destruct (array_index x); [lia|exact I].
    + constructor; [|exact Hord].
      constructor.
      * unfold precedes. rewrite E1, Hk. exact I.
      * rewrite Forall_forall in *. intros x Hx. specialize (Hall x Hx).
        unfold precedes in *. rewrite E1 in Hall. rewrite Hk.
        destruct (array_index x); [contradiction|exact I].
Qed.

Lemma ordered_append k l :
  array_index k = None ->
  ForallOrdPairs precedes l -> ForallOrdPairs precedes (l ++ [k])%list.
Proof.
  intros Hk. induction 1 as [|a l Hall Hrest IH]; simpl.
  - repeat constructor.
  - constructor; [|exact IH].
    apply Forall_app. split; [exact Hall|].
    constructor; [|constructor].
    unfold precedes. rewrite Hk. destruct (array_index a); exact I.
Qed.

(** Assignments keep an object in property order. *)
Lemma ordered_set k v o : ordered o -> ordered (Json.set k v o).
Proof.
  intros [Hnd Hord]. split; [apply NoDup_keys_set, Hnd|].
  unfold Json.set, has_key.
  destruct (lookup k o) eqn:E.
  - rewrite keys_replace. exact Hord.
  - apply lookup_None_keys in E.
    destruct (array_index k) eqn:Hk.
    + apply ordered_insert_index; assumption.
    + unfold keys. rewrite map_app. apply ordered_append; assumption.
Qed.

Lemma ordered_nil : ordered [].
Proof. split; constructor. Qed.

Lemma precedes_before l1 k l2 :
  ForallOrdPairs precedes (l1 ++ k :: l2)%list ->
  forall x, In x l1 -> precedes x k.
Proof.
  induction l1 as [|a l IH]; simpl; intros H x Hx; [contradiction|].
  inversion H as [|? ? Hall Hrest]; subst.
  destruct Hx as [->|Hx]; [|eauto].
  rewrite Forall_forall in Hall. apply Hall, in_elt.
Qed.

Lemma insert_index_last i k v o :
  (forall x, In x (keys o) ->
     match array_index x with Some j => j < i | None => False end) ->
  insert_index i k v o = (o ++ [(k, v)])%list.
Proof.
  induction o as [|[k1 v1] r IH]; simpl; intros H; [reflexivity|].
  pose proof (H k1 (or_introl eq_refl)) as H1.
  destruct (array_index k1) as [j|]; [|contradiction].
  destruct (Z.ltb_spec j i); [|lia].
  rewrite IH; [reflexivity|].
  intros x Hx. apply H. right. exact Hx.
Qed.

(** Assigning the properties of an ordered object in their order builds the
    object again. *)
Lemma rebuild_ordered o acc :
  ordered (acc ++ o)%list -> rebuild o acc = (acc ++ o)%list.
Proof.
  revert acc. induction o as [|[k v] r IH]; intros acc [Hnd Hord].
  - simpl. rewrite app_nil_r. reflexivity.
  - unfold rebuild in *. cbn [fold_left fst snd].
    assert (E : Json.set k v acc = (acc ++ [(k, v)])%list).
    { unfold keys in Hnd, Hord. rewrite map_app in Hnd, Hord. simpl in Hnd, Hord.
      assert (Hin : ~ In k (keys acc)) by (apply NoDup_remove_2 in Hnd;
        intros Hx; apply Hnd, in_or_app; auto).
      unfold Json.set, has_key.
      apply lookup_None_keys in Hin. rewrite Hin.
      destruct (array_index k) as [i|] eqn:Hk; [|reflexivity].
      apply insert_index_last. intros x Hx.
      pose proof (precedes_before _ _ _ Hord x Hx) as Hp.
      unfold precedes in Hp. rewrite Hk in Hp.
      destruct (array_index x); [exact Hp|contradiction]. }
    rewrite E, IH.
    + rewrite <- app_assoc. reflexivity.
    + rewrite <- app_assoc. split; assumption.
Qed.

(** ** Rounding never produces NaN *)

Lemma shr_1_nonneg mrs : 0 <= shr_m mrs -> 0 <= shr_m (shr_1 mrs).
Proof.
  destruct mrs as [m r s]. simpl.
  destruct m as [|[q|q|]|[q|q|]]; simpl; lia.
Qed.

Lemma iter_pos_nonneg n mrs :
  0 <= shr_m mrs -> 0 <= shr_m (iter_pos shr_1 n mrs).
Proof.
  revert mrs. induction n as [n IH|n IH|]; simpl; intros mrs H.
  - apply IH, IH, shr_1_nonneg, H.
  - apply IH, IH, H.
  - apply shr_1_nonneg, H.
Qed.

Lemma shr_nonneg mrs e n : 0 <= shr_m mrs -> 0 <= shr_m (fst (shr mrs e n)).
Proof.
  intros H. destruct n; simpl; auto using iter_pos_nonneg.
Qed.

Lemma shr_fexp_nonneg m e l :
  0 <= m -> 0 <= shr_m (fst (shr_fexp prec emax m e l)).
Proof.
  intros H. unfold shr_fexp. apply shr_nonneg.
  destruct l as [|[| |]]; simpl; exact H.
Qed.

Lemma round_nearest_even_nonneg m l : 0 <= m -> 0 <= round_nearest_even m l.
Proof.
  intros H. destruct l as [|[| |]]; simpl; try lia.
  destruct (Z.even m); lia.
Qed.

Lemma binary_round_aux_not_nan s m e l :
  0 <= m -> isNaN (binary_round_aux prec emax s m e l) = false.
Proof.
  intros H. unfold binary_round_aux.
  pose proof (shr_fexp_nonneg m e l H) as H1.
  destruct (shr_fexp prec emax m e l) as [mrs' e'].
  simpl in H1.
  pose proof (shr_fexp_nonneg _ e' loc_Exact
                (round_nearest_even_nonneg _ (loc_of_shr_record mrs') H1)) as H2.
  destruct (shr_fexp prec emax _ e' loc_Exact) as [mrs'' e''].
  simpl in H2.
  destruct (shr_m mrs''); [reflexivity| |lia].
  destruct (e'' <=? emax - prec); reflexivity.
Qed.

Lemma binary_round_not_nan s m e :
  isNaN (binary_round prec emax s m e) = false.
Proof.
  unfold binary_round.
  destruct (shl_align m e _) as [mz ez].
  apply binary_round_aux_not_nan. lia.
Qed.

Lemma binary_normalize_not_nan m e s :
  isNaN (binary_normalize prec emax m e s) = false.
Proof.
  destruct m; simpl; auto using binary_round_not_nan.
Qed.

Lemma div_finite_not_nan s1 m1 e1 s2 m2 e2 :
  isNaN (SFdiv prec emax (S754_finite s1 m1 e1) (S754_finite s2 m2 e2)) = false.
Proof.
  unfold SFdiv, SFdiv_core_binary.
  set (m' := match _ - _ - _ with Z0 => Zpos m1 | Zpos _ => _ | Zneg _ => 0 end).
  assert (Hm : 0 <= m').
  { subst m'. destruct (_ - _ - _); try lia. apply Z.shiftl_nonneg. lia. }
  pose proof (Z_div_mod m' (Zpos m2) eq_refl) as Hd.
  destruct (Z.div_eucl m' (Zpos m2)) as [q r].
  apply binary_round_aux_not_nan.
  destruct Hd as [Hd Hr]. nia.
Qed.

Lemma of_decimal_not_nan neg m e : isNaN (of_decimal neg m e) = false.
Proof.
  unfold of_decimal. destruct m; try reflexivity.
  destruct e; auto using binary_round_not_nan, div_finite_not_nan.
Qed.

(** Adding a finite number to a number keeps it a number. *)
Lemma add_finite_not_nan x y :
  isNaN x = false -> isFinite y = true -> isNaN (add x y) = false.
Proof.
  destruct x as [sx|sx| |sx mx ex], y as [sy|sy| |sy my ey];
    try discriminate; intros _ _; simpl; try reflexivity.
  - destruct sx, sy; reflexivity.
  - apply binary_normalize_not_nan.
Qed.

(** ** Texts that start with a digit *)

Lemma digit_char_is_digit n : Str.is_digit (Str.digit_char (n mod 10)) = true.
Proof.
  pose proof (Z.mod_pos_bound n 10 eq_refl) as H.
  assert (E : In (n mod 10) [0; 1; 2; 3; 4; 5; 6; 7; 8; 9]) by (simpl; lia).
  simpl in E.
  repeat (destruct E as [<-|E]; [reflexivity|]). destruct E.
Qed.

Lemma digits_aux_starts_digit fuel n acc :
  fuel <> O \/ starts_digit acc = true ->
  starts_digit (Str.digits_aux fuel n acc) = true.
Proof.
  revert n acc. induction fuel as [|f IH]; intros n acc H; simpl.
  - destruct H; [congruence|assumption].
  - destruct (n <? 10).
    + apply digit_char_is_digit.
    + apply IH. right. apply digit_char_is_digit.
Qed.

Lemma of_Z_starts_digit n : starts_digit (Str.of_Z n) = true.
Proof. apply digits_aux_starts_digit. left. discriminate. Qed.

Lemma append_starts_digit a b :
  starts_digit a = true -> starts_digit (a ++ b) = true.
Proof. destruct a; simpl; [discriminate|auto]. Qed.

Lemma take_starts_digit n s :
  (0 < n)%nat -> starts_digit s = true -> starts_digit (Str.take n s) = true.
Proof. destruct n, s; simpl; auto; lia. Qed.

Lemma layout_starts_digit ds k n :
  starts_digit ds = true -> starts_digit (layout ds k n) = true.
Proof.
  intros H. unfold layout.
  destruct ((k <=? n) && (n <=? 21)); [apply append_starts_digit, H|].
  destruct ((0 <? n) && (n <=? 21)) eqn:E.
  - apply append_starts_digit, take_starts_digit; [lia|exact H].
  - destruct ((-6 <? n) && (n <=? 0)); [reflexivity|].
    destruct (k =? 1); [apply append_starts_digit, H|].
    apply append_starts_digit, take_starts_digit; [lia|exact H].
Qed.

Lemma toString_pos_starts_digit m e : starts_digit (toString_pos m e) = true.
Proof.
  unfold toString_pos.
  destruct (fraction m e) as [num den].
  destruct (shortest _ _ _ _ _) as [[s k] n].
  apply layout_starts_digit, of_Z_starts_digit.
Qed.

Lemma parseFloat_digit_first (neg : bool) s :
  starts_digit s = true ->
  isNaN (parseFloat ((if neg then "-" else "") ++ s)) = false.
Proof.
  destruct s as [|c r]; [discriminate|]. simpl. intros H.
  assert (E : parseFloat ((if neg then "-" else "") ++ String c r)
              = let '(ip, u1) := Str.span_digits (String c r) in
                let '(fp, u2) :=
                  match u1 with
                  | String "." r => Str.span_digits r
                  | _ => ([], u1)
                  end in
                match (ip ++ fp)%list with
                | [] => NaN
                | ds => of_decimal neg (Str.digits_value ds)
                          (read_exponent u2 - Z.of_nat (List.length fp))
                end).
  { destruct c as [[] [] [] [] [] [] [] []]; try discriminate H;
      destruct neg; reflexivity. }
  rewrite E. simpl. rewrite H.
  destruct (Str.span_digits r) as [ds rest].
  destruct (match rest with String "." r0 => _ | _ => _ end) as [fp u2].
  simpl. apply of_decimal_not_nan.
Qed.

Lemma toFixed2_reads_as_number x :
  isNaN x = false -> isNaN (parseFloat (toFixed2 x)) = false.
Proof.
  destruct x as [s|s| |s m e]; try discriminate; intros _.
  - reflexivity.
  - destruct s; reflexivity.
  - unfold toFixed2. destruct (fraction m e) as [num den].
    apply parseFloat_digit_first.
    destruct (10 ^ 21 * den <=? num).
    + apply toString_pos_starts_digit.
    + apply append_starts_digit, of_Z_starts_digit.
Qed.

Lemma nonempty_append_r a b :
  Str.nonempty b = true -> Str.nonempty (a ++ b) = true.
Proof. destruct a; simpl; auto. Qed.

Lemma starts_digit_nonempty s : starts_digit s = true -> Str.nonempty s = true.
Proof. destruct s; [discriminate|reflexivity]. Qed.

Lemma toFixed2_nonempty x : Str.nonempty (toFixed2 x) = true.
Proof.
  destruct x as [s|s| |s m e]; try reflexivity.
  - destruct s; reflexivity.
  - unfold toFixed2. destruct (fraction m e) as [num den].
    apply nonempty_append_r, starts_digit_nonempty.
    destruct (10 ^ 21 * den <=? num).
    + apply toString_pos_starts_digit.
    + apply append_starts_digit, of_Z_starts_digit.
Qed.

(* ================================================================== *)
(** * Properties of the serializers *)
(* ================================================================== *)

(** ** The loop over the basic components *)

Lemma lookup_assign_component k k' v o :
  lookup k (assign_component k' v o) =
  if String.eqb k k' && negb (String.eqb k' "__proto__") then Some v
  else lookup k o.
Proof.
  unfold assign_component.
  destruct (String.eqb k' "__proto__"); [rewrite andb_false_r; reflexivity|].
  rewrite lookup_set, andb_true_r. reflexivity.
Qed.

Lemma basic_scan_lookup k items o t :
  String.eqb k "__proto__" = false ->
  lookup k (fst (basic_scan items o t)) =
  match last_with_key k items with
  | Some record => Some record
  | None => lookup k o
  end.
Proof.
  intros Hk. revert o t.
  induction items as [|item rest IH]; intros o t; [reflexivity|].
  cbn [basic_scan last_with_key].
  unfold basic_included, basic_key, basic_record, basic_percentage.
  destruct (Str.nonempty (Str.trim (comp_name item)) &&
            Str.nonempty (Str.trim (comp_code item)));
    cbn [andb]; rewrite IH; destruct (last_with_key k rest); try reflexivity.
  rewrite lookup_assign_component, (String.eqb_sym k).
  destruct (String.eqb_spec
              (Str.replace_spaces (Str.toLowerCase (Str.trim (comp_name item))))
              k) as [E|_]; [|reflexivity].
  rewrite E, Hk. reflexivity.
Qed.

Lemma basic_scan_proto items o t :
  lookup "__proto__" (fst (basic_scan items o t)) = lookup "__proto__" o.
Proof.
  revert o t. induction items as [|item rest IH]; intros o t; [reflexivity|].
  cbn [basic_scan]. destruct (basic_included item); rewrite IH;
    [|reflexivity].
  rewrite lookup_assign_component.
  destruct (String.eqb_spec "__proto__"
              (basic_key (Str.trim (comp_name item)))) as [<-|_]; reflexivity.
Qed.

Lemma ordered_assign_component k v o :
  ordered o -> ordered (assign_component k v o).
Proof.
  intros H. unfold assign_component.
  destruct (String.eqb k "__proto__"); [exact H|apply ordered_set, H].
Qed.

Lemma basic_scan_total items o t :
  snd (basic_scan items o t) =
  fold_left add (map basic_percentage (filter basic_included items)) t.
Proof.
  revert o t. induction items as [|item rest IH]; intros o t; simpl.
  - reflexivity.
  - destruct (basic_included item); simpl; apply IH.
Qed.

Lemma basic_scan_ordered items o t :
  ordered o -> ordered (fst (basic_scan items o t)).
Proof.
  revert o t. induction items as [|item rest IH]; intros o t H; simpl.
  - exact H.
  - destruct (basic_included item); apply IH;
      [apply ordered_assign_component|]; exact H.
Qed.


Lemma basic_total_sum items : basic_total items = sum_percentages items.
Proof. apply basic_scan_total. Qed.

Lemma map_entered_preview items :
  map entered (map basic_preview items) = map entered items.
Proof. rewrite map_map. apply map_ext. reflexivity. Qed.

(** ** Records of the array sections *)


Lemma collect_filter {I : Type} (entry : I -> option json)
  (complete : I -> bool) items :
  (forall item, complete item = false -> entry item = None) ->
  collect entry (filter complete items) = collect entry items.
Proof.
  intros H. induction items as [|x r IH]; simpl; [reflexivity|].
  destruct (complete x) eqn:E; simpl.
  - rewrite IH. reflexivity.
  - rewrite (H x E). exact IH.
Qed.



Lemma bracket_incomplete item :
  bracket_complete item = false -> bracket_entry item = None.
Proof. unfold bracket_complete, bracket_entry. intros ->. reflexivity. Qed.




(** Serializing touches no entered value. *)
Lemma serialize_all_same_entries p : same_entries p (serialize_all p).
Proof.
  unfold same_entries. simpl. rewrite map_entered_preview.
  repeat split; reflexivity.
Qed.

(** ** The total of the basic components *)

Lemma basic_percentage_finite item :
  is_infinite (parseFloat (comp_percentage item)) = false ->
  isFinite (basic_percentage item) = true.
Proof.
  unfold basic_percentage, or_default.
  destruct (parseFloat (comp_percentage item)); simpl; auto; discriminate.
Qed.

Lemma sum_is_a_number items t :
  Forall (fun item => is_infinite (parseFloat (comp_percentage item)) = false)
    items ->
  isNaN t = false ->
  isNaN (fold_left add (map basic_percentage (filter basic_included items)) t)
  = false.
Proof.
  intros H. revert t. induction H as [|item rest Hi Hr IH]; intros t Ht; simpl.
  - exact Ht.
  - destruct (basic_included item); simpl; [|auto].
    apply IH, add_finite_not_nan; [exact Ht|].
    apply basic_percentage_finite, Hi.
Qed.

Lemma presented_total_serialized p :
  presented_total (serialize_all p) =
  parseFloat (toFixed2 (sum_percentages (container (basicComponents p)))).
Proof.
  unfold presented_total. simpl. rewrite basic_total_sum.
  unfold or_else. rewrite toFixed2_nonempty. reflexivity.
Qed.

(* ================================================================== *)
(** * The submission gate *)
(* ================================================================== *)

Lemma presented_total_is_a_number p :
  percentages_bounded p -> isNaN (presented_total (serialize_all p)) = false.
Proof.
  intros H. rewrite presented_total_serialized.
  apply toFixed2_reads_as_number.
  apply sum_is_a_number; [exact H|reflexivity].
Qed.

Lemma on_submit_unfold p :
  on_submit p =
  let q := serialize_all p in
  let total := presented_total q in
  if isNaN total || gt (abs (sub total hundred)) tolerance
  then (showError (total_message total) q, false)
  else (q, true).
Proof. reflexivity. Qed.

Lemma showError_same_entries p m q :
  same_entries p q -> same_entries p (showError m q).
Proof. intros H. exact H. Qed.

(** C1: at submission every section is serialized again and the total of
    the basic components is read back from the text shown in
    [#totalPercentage], which is the sum of the percentages with two
    decimals.  No entered value changes.  When the total read back differs
    from 100 by more than 0.01 the event is cancelled and the message shown
    contains that total with two decimals; otherwise the submission
    proceeds. *)
Theorem submission_gate (p : Page) :
  percentages_bounded p ->
  let total := presented_total (serialize_all p) in
  total = parseFloat (toFixed2 (sum_percentages (container (basicComponents p))))
  /\ same_entries p (fst (on_submit p))
  /\ (gt (abs (sub total hundred)) tolerance = true ->
      snd (on_submit p) = false /\
      exists message,
        error_shown (fst (on_submit p)) = Some message /\
        Str.includes (toFixed2 total) message = true)
  /\ (gt (abs (sub total hundred)) tolerance = false ->
      snd (on_submit p) = true /\ fst (on_submit p) = serialize_all p).
Proof.
  intros H.
  pose proof (presented_total_is_a_number p H) as Hnum.
  pose proof (presented_total_serialized p) as Htot.
  pose proof (serialize_all_same_entries p) as Hsame.
  rewrite on_submit_unfold. cbv zeta.
  generalize dependent (presented_total (serialize_all p)).
  generalize dependent (serialize_all p).
  intros q Hsame total Hnum Htot.
  split; [exact Htot|]. rewrite Hnum. cbn [orb].
  destruct (gt (abs (sub total hundred)) tolerance).
  - split; [apply showError_same_entries, Hsame|]. split; [|discriminate].
    intros _. split; [reflexivity|].
    exists (total_message total). split; [reflexivity|].
    unfold total_message. rewrite Hnum. apply includes_middle.
  - split; [exact Hsame|]. split; [discriminate|].
    intros _. split; reflexivity.
Qed.

Lemma submission_gate_witness :
  percentages_bounded page_of_ninety /\
  snd (on_submit page_of_ninety) = false /\
  exists message,
    error_shown (fst (on_submit page_of_ninety)) = Some message /\
    Str.includes "90.00" message = true.
Proof.
  assert (H : percentages_bounded page_of_ninety).
  { unfold percentages_bounded.
    repeat (constructor; [vm_compute; reflexivity|]). constructor. }
  split; [exact H|].
  destruct (submission_gate page_of_ninety H) as (_ & _ & Hblocked & _).
  destruct Hblocked as (Hs & m & Hm & Hi); [vm_compute; reflexivity|].
  split; [exact Hs|]. exists m. split; [exact Hm|].
  replace "90.00" with (toFixed2 (presented_total (serialize_all page_of_ninety)))
    by (vm_compute; reflexivity).
  exact Hi.
Defined.

(* ================================================================== *)
(** * Colliding keys of the basic components *)
(* ================================================================== *)

(** X19: for every key but [__proto__], the canonical form of the basic
    components has the property exactly when some component with a name and
    a code derives the key, and its value is the record of the last of them
    in iteration order; no key occurs twice.  The total shown, its class
    and the total that the submission gate reads are those of the sum over
    all the components with a name and a code, the overwritten ones
    included. *)
Theorem colliding_keys_keep_last_and_sum_all (p : Page) (k : string) :
  k <> "__proto__" ->
  let items := container (basicComponents p) in
  hidden (basicComponents (updateBasicComponentsJSON p)) =
    stringify (JObj (basic_components items))
  /\ lookup k (basic_components items) = last_with_key k items
  /\ NoDup (keys (basic_components items))
  /\ totalPercentage_text (updateBasicComponentsJSON p) =
       toFixed2 (sum_of_all items)
  /\ totalPercentage_class (updateBasicComponentsJSON p) =
       (if lt (abs (sub (sum_of_all items) hundred)) tolerance
        then "percentage-valid" else "percentage-invalid")
  /\ presented_total (serialize_all p) =
       parseFloat (toFixed2 (sum_of_all items)).
Proof.
  intros Hk items. repeat split.
  - unfold basic_components. rewrite basic_scan_lookup.
    + destruct (last_with_key k items); reflexivity.
    + apply String.eqb_neq, Hk.
  - apply (basic_scan_ordered items [] zero ordered_nil).
  - simpl. rewrite basic_total_sum. reflexivity.
  - simpl. rewrite basic_total_sum. reflexivity.
  - apply presented_total_serialized.
Qed.

Lemma colliding_keys_keep_last_and_sum_all_witness :
  lookup "basic_salary"
    (basic_components (container (basicComponents page_with_collisions))) =
    Some (JObj [("code", JStr "B3"); ("percentage", JNum (Num.of_Z 15));
                ("name", JStr "BASIC SALARY")])
  /\ keys (basic_components
             (container (basicComponents page_with_collisions))) =
     ["basic_salary"]
  /\ totalPercentage_text (updateBasicComponentsJSON page_with_collisions) =
     "100.00"
  /\ totalPercentage_class (updateBasicComponentsJSON page_with_collisions) =
     "percentage-valid".
Proof.
  destruct (colliding_keys_keep_last_and_sum_all page_with_collisions
              "basic_salary") as (_ & Hl & _ & Ht & Hc & _);
    [discriminate|].
  repeat apply conj.
  - rewrite Hl. vm_compute. reflexivity.
  - vm_compute. reflexivity.
  - rewrite Ht. vm_compute. reflexivity.
  - rewrite Hc. vm_compute. reflexivity.
Defined.

(** C10: two basic components named [__proto__] have a name and a code and
    derive the same key, but the canonical form keeps neither of them: the
    hidden field is the empty object, while their percentages are added to
    the total, which is 100, and the submission goes through with that
    field. *)
Theorem proto_components_are_not_stored :
  let p := updateBasicComponentsJSON page_with_proto in
  Forall (fun item => basic_included item = true)
    (container (basicComponents page_with_proto))
  /\ map (fun item => basic_key (Str.trim (comp_name item)))
       (container (basicComponents page_with_proto)) =
     ["__proto__"; "__proto__"]
  /\ hidden (basicComponents p) = "{}"
  /\ totalPercentage_text p = "100.00"
  /\ snd (on_submit page_with_proto) = true
  /\ hidden (basicComponents (fst (on_submit page_with_proto))) = "{}".
Proof.
  cbv zeta. repeat apply conj; try (vm_compute; reflexivity).
  repeat constructor.
Qed.

(* ================================================================== *)
(** * Locking *)
(* ================================================================== *)

(** C6: the form is locked exactly when the form carries
    [data-locked="true"], or the [is_locked] input holds "true", "1" or "on"
    in any letter case, or the global flag is [true]; the sources are tried
    in this order and the first affirmative one decides.  In particular a
    form whose own flag is not affirmative is locked when the input holds
    "on". *)
Theorem lock_precedence (e : LockSignals) :
  (isFormLocked e = true <->
     form_dataset_locked e = Some (Some "true") \/
     (exists value, isLockedInput e = Some value /\
        In (Str.toLowerCase value) ["true"; "1"; "on"]) \/
     SALARY_SETTING_LOCKED e = Some (JBool true))
  /\ (form_flag e = true -> isFormLocked e = true)
  /\ (form_flag e = false -> isFormLocked e = input_flag e || global_flag e)
  /\ (forall value,
        form_flag e = false -> isLockedInput e = Some value ->
        Str.toLowerCase value = "on" -> isFormLocked e = true).
Proof.
  assert (Hform : form_flag e = true <-> form_dataset_locked e = Some (Some "true")).
  { unfold form_flag. destruct (form_dataset_locked e) as [[v|]|];
      try (split; [discriminate|intros [=]]).
    destruct (String.eqb_spec v "true") as [->|Hne]; split; auto;
      [discriminate|intros [=]; contradiction]. }
  assert (Hinput : input_flag e = true <->
            exists value, isLockedInput e = Some value /\
              In (Str.toLowerCase value) ["true"; "1"; "on"]).
  { unfold input_flag. destruct (isLockedInput e) as [v|].
    - split.
      + intros H. exists v. split; [reflexivity|].
        apply orb_true_iff in H. destruct H as [H|H].
        * apply orb_true_iff in H. destruct H as [H|H];
            apply String.eqb_eq in H; rewrite H; simpl; auto.
        * apply String.eqb_eq in H. rewrite H. simpl. auto.
      + intros (v' & [= <-] & Hin). simpl in Hin.
        destruct Hin as [<-|[<-|[<-|[]]]]; reflexivity.
    - split; [discriminate|]. intros (v' & [=] & _). }
  assert (Hglobal : global_flag e = true <->
            SALARY_SETTING_LOCKED e = Some (JBool true)).
  { unfold global_flag.
    destruct (SALARY_SETTING_LOCKED e) as [[|[]| | | |]|];
      split; auto; try discriminate. }
  unfold isFormLocked.
  split; [|split; [|split]].
  - rewrite <- Hform, <- Hinput, <- Hglobal.
    destruct (form_flag e), (input_flag e), (global_flag e); intuition congruence.
  - intros ->. reflexivity.
  - intros ->. destruct (input_flag e), (global_flag e); reflexivity.
  - intros value Hf Hv Hon. rewrite Hf.
    unfold input_flag. rewrite Hv, Hon. reflexivity.
Qed.

Lemma lock_precedence_witness :
  isFormLocked
    {| form_dataset_locked := Some (Some "false");
       isLockedInput := Some "On";
       SALARY_SETTING_LOCKED := None |} = true.
Proof.
  apply (lock_precedence
           {| form_dataset_locked := Some (Some "false");
              isLockedInput := Some "On";
              SALARY_SETTING_LOCKED := None |}) with (value := "On");
    reflexivity.
Defined.

(* ================================================================== *)
(** * Tax brackets *)
(* ================================================================== *)

Lemma bracket_entry_rate item record :
  bracket_entry item = Some record ->
  get "rate" record = Some (JNum (parseFloat (bracket_rate item))) /\
  isNaN (parseFloat (bracket_rate item)) = false.
Proof.
  unfold bracket_entry.
  destruct (isNaN (parseFloat (bracket_rate item))); [discriminate|].
  intros [= <-]. split; reflexivity.
Qed.

Lemma bracket_entry_open item record :
  bracket_entry item = Some record -> open_ended record = blank_limit item.
Proof.
  unfold bracket_entry, blank_limit.
  destruct (isNaN (parseFloat (bracket_rate item))); [discriminate|].
  intros [= <-]. unfold open_ended. simpl.
  destruct (String.eqb _ ""); reflexivity.
Qed.

Lemma count_open_ended items :
  List.length (filter open_ended (collect bracket_entry items)) =
  List.length
    (filter (fun item => bracket_complete item && blank_limit item) items).
Proof.
  induction items as [|item rest IH]; [reflexivity|].
  cbn [collect filter]. unfold bracket_complete at 1.
  destruct (bracket_entry item) as [record|] eqn:E.
  - destruct (bracket_entry_rate _ _ E) as [_ Hn].
    rewrite Hn. cbn [negb andb filter].
    rewrite (bracket_entry_open _ _ E).
    destruct (blank_limit item); simpl; congruence.
  - assert (Hn : isNaN (parseFloat (bracket_rate item)) = true).
    { unfold bracket_entry in E.
      destruct (isNaN (parseFloat (bracket_rate item))); [reflexivity|discriminate]. }
    rewrite Hn. exact IH.
Qed.

(** C3 as the code has it: every record of the tax brackets form has a
    rate that is a number, a bracket with an unparsable rate being left out;
    a record has [limit = null] exactly when its limit input is blank, and
    there are as many such records as brackets with a rate and a blank
    limit, whatever their number. *)
Theorem tax_brackets_form (items : list TaxBracketItem) :
  Forall (fun record =>
            exists rate,
              get "rate" record = Some (JNum rate) /\ isNaN rate = false)
    (collect bracket_entry items)
  /\ collect bracket_entry items =
       collect bracket_entry (filter bracket_complete items)
  /\ List.length (filter open_ended (collect bracket_entry items)) =
       List.length
         (filter (fun item => bracket_complete item && blank_limit item) items).
Proof.
  split; [|split].
  - induction items as [|item rest IH]; simpl; [constructor|].
    destruct (bracket_entry item) as [record|] eqn:E; [|exact IH].
    constructor; [|exact IH].
    exists (parseFloat (bracket_rate item)). apply bracket_entry_rate, E.
  - symmetry. apply collect_filter, bracket_incomplete.
  - apply count_open_ended.
Qed.

(** C3 as stated fails: two brackets with a rate and no limit give two
    records with [limit = null]. *)
Lemma two_open_ended_records :
  ~ (List.length (filter open_ended (collect bracket_entry two_open_brackets))
     <= 1)%nat.
Proof. vm_compute. intros H. apply (Nat.nle_succ_diag_l 1). exact H. Qed.

(* ================================================================== *)
(** * Numeric inputs that do not parse *)
(* ================================================================== *)

Lemma allowance_numbers item record :
  allowance_entry item = Some record ->
  (isNaN (parseFloat (allow_percentage item)) = true ->
   get "percentage" record = None) /\
  (isNaN (parseFloat (allow_fixed_amount item)) = true ->
   get "fixed_amount" record = None).
Proof.
  unfold allowance_entry.
  destruct (Str.nonempty (Str.trim (allow_name item))); [|discriminate].
  cbn [negb].
  destruct (String.eqb _ "percentage");
    destruct (isNaN (parseFloat (allow_percentage item)));
    destruct (isNaN (parseFloat (allow_fixed_amount item)));
    destruct (Str.nonempty (Str.trim (allow_based_on item)));
    intros [= <-]; split; intros H; try discriminate H; reflexivity.
Qed.

Lemma relief_numbers item record :
  relief_entry item = Some record ->
  (isNaN (parseFloat (relief_percentage item)) = true ->
   get "percentage" record = None) /\
  (isNaN (parseFloat (relief_fixed_amount item)) = true ->
   get "fixed_amount" record = None).
Proof.
  unfold relief_entry.
  destruct (Str.nonempty (Str.trim (relief_name item))); [|discriminate].
  cbn [negb].
  destruct (String.eqb _ "fixed"); destruct (String.eqb _ "percentage");
    destruct (isNaN (parseFloat (relief_percentage item)));
    destruct (isNaN (parseFloat (relief_fixed_amount item)));
    destruct (Str.nonempty (Str.trim (relief_based_on item)));
    intros [= <-]; split; intros H; try discriminate H; reflexivity.
Qed.

Lemma other_entry_order item record :
  other_entry item = Some record ->
  get "order" record =
  Some (JNum (or_default (parseInt (other_order item)) one)).
Proof.
  unfold other_entry.
  destruct (Str.nonempty (Str.trim (other_name item))); [|discriminate].
  cbn [negb].
  destruct (Str.nonempty (Str.trim (other_linked_to item)));
    intros [= <-]; reflexivity.
Qed.

Lemma income_entry_order item record :
  income_entry item = Some record ->
  get "order" record =
  Some (JNum (or_default (parseInt (income_order item)) one)).
Proof.
  unfold income_entry.
  destruct (Str.nonempty (Str.trim (income_name item))); [|discriminate].
  intros [= <-]. reflexivity.
Qed.

Lemma or_default_of_NaN x d : isNaN x = true -> or_default x d = d.
Proof. destruct x; try discriminate. reflexivity. Qed.

(** C4 as the code has it: an unparsable percentage or fixed amount of an
    allowance or of a relief is left out of its record; an unparsable order
    of an other deduction or of an income item is written as 1; the
    unparsable percentage of a basic component is written as 0, not left
    out; a tax bracket whose rate, and a statutory deduction whose
    percentage, does not parse is left out as a whole; the limit of a tax
    bracket is [null] when blank and the number read otherwise. *)
Theorem unparsable_numbers :
  (forall item record,
     allowance_entry item = Some record ->
     (isNaN (parseFloat (allow_percentage item)) = true ->
      get "percentage" record = None) /\
     (isNaN (parseFloat (allow_fixed_amount item)) = true ->
      get "fixed_amount" record = None))
  /\ (forall item record,
        relief_entry item = Some record ->
        (isNaN (parseFloat (relief_percentage item)) = true ->
         get "percentage" record = None) /\
        (isNaN (parseFloat (relief_fixed_amount item)) = true ->
         get "fixed_amount" record = None))
  /\ (forall item record,
        other_entry item = Some record ->
        isNaN (parseInt (other_order item)) = true ->
        get "order" record = Some (JNum one))
  /\ (forall item record,
        income_entry item = Some record ->
        isNaN (parseInt (income_order item)) = true ->
        get "order" record = Some (JNum one))
  /\ (forall item,
        isNaN (parseFloat (comp_percentage item)) = true ->
        get "percentage" (basic_record item) = Some (JNum zero))
  /\ (forall item,
        isNaN (parseFloat (bracket_rate item)) = true ->
        bracket_entry item = None)
  /\ (forall item,
        isNaN (parseFloat (stat_percentage item)) = true ->
        statutory_entry item = None)
  /\ (forall item record,
        bracket_entry item = Some record ->
        get "limit" record =
        Some (if blank_limit item then JNull
              else JNum (parseFloat (Str.trim (bracket_limit item))))).
Proof.
  repeat apply conj.
  - intros item record H. apply (allowance_numbers _ _ H).
  - intros item record H. apply (relief_numbers _ _ H).
  - intros item record H Hn.
    rewrite (other_entry_order _ _ H), or_default_of_NaN by assumption.
    reflexivity.
  - intros item record H Hn.
    rewrite (income_entry_order _ _ H), or_default_of_NaN by assumption.
    reflexivity.
  - intros item H. unfold basic_record, basic_percentage. simpl.
    rewrite or_default_of_NaN by assumption. reflexivity.
  - intros item H. unfold bracket_entry. rewrite H. reflexivity.
  - intros item H. unfold statutory_entry. rewrite H.
    rewrite andb_false_r. reflexivity.
  - intros item record. unfold bracket_entry, blank_limit.
    destruct (isNaN (parseFloat (bracket_rate item))); [discriminate|].
    intros [= <-]. reflexivity.
Qed.

Lemma unparsable_numbers_witness :
  get "percentage" (basic_record component_without_number) = Some (JNum zero)
  /\ bracket_entry (bracket 1 "1000" "ten") = None.
Proof.
  destruct unparsable_numbers as (_ & _ & _ & _ & Hbasic & Hrate & _).
  split.
  - apply Hbasic. vm_compute. reflexivity.
  - apply Hrate. vm_compute. reflexivity.
Defined.

(** C4 as stated fails: the percentage of this basic component does not
    parse, yet its record in the canonical form has a percentage. *)
Lemma basic_percentage_not_omitted :
  isNaN (parseFloat (comp_percentage component_without_number)) = true /\
  exists record,
    lookup "basic" (basic_components [component_without_number]) = Some record
    /\ get "percentage" record <> None.
Proof.
  split; [vm_compute; reflexivity|].
  eexists. split; [vm_compute; reflexivity|].
  simpl. discriminate.
Qed.

(* ================================================================== *)
(** * Records that lack a required field *)
(* ================================================================== *)


(* ================================================================== *)
(** * Switching the type of an allowance or of a relief *)
(* ================================================================== *)

Lemma update_nth_twice {A : Type} i (f g : A -> A) l :
  update_nth i f (update_nth i g l) = update_nth i (fun x => f (g x)) l.
Proof.
  revert i. induction l as [|x r IH]; intros [|i]; simpl; try reflexivity.
  rewrite IH. reflexivity.
Qed.

Lemma update_nth_at {A : Type} i (f g : A -> A) l x :
  nth_error l i = Some x -> f x = g x -> update_nth i f l = update_nth i g l.
Proof.
  revert i. induction l as [|y r IH]; intros [|i]; simpl; try discriminate.
  - intros [= ->] ->. reflexivity.
  - intros H E. rewrite (IH i H E). reflexivity.
Qed.

Lemma nth_error_update_nth {A : Type} i (f : A -> A) l x :
  nth_error l i = Some x -> nth_error (update_nth i f l) i = Some (f x).
Proof.
  revert i. induction l as [|y r IH]; intros [|i]; simpl; try discriminate.
  - intros [= ->]. reflexivity.
  - apply IH.
Qed.

Lemma collect_update_nth {I : Type} (entry : I -> option json) i f l :
  (forall x, entry (f x) = entry x) ->
  collect entry (update_nth i f l) = collect entry l.
Proof.
  intros H. revert i. induction l as [|x r IH]; intros [|i]; simpl;
    try reflexivity.
  - rewrite H. reflexivity.
  - rewrite IH. reflexivity.
Qed.

Lemma allowance_entry_toggle item :
  allowance_entry (toggle_allowance_fields item) = allowance_entry item.
Proof. reflexivity. Qed.

Lemma relief_entry_toggle item :
  relief_entry (toggle_relief_fields item) = relief_entry item.
Proof. reflexivity. Qed.

Lemma change_calc_type_container i value p :
  container (allowances (change_calc_type i value p)) =
  update_nth i (fun item => toggle_allowance_fields (select_calc_type value item))
    (container (allowances p)).
Proof. simpl. apply update_nth_twice. Qed.

Lemma change_formula_type_container i value p :
  container (reliefs (change_formula_type i value p)) =
  update_nth i (fun item => toggle_relief_fields (select_formula_type value item))
    (container (reliefs p)).
Proof. simpl. apply update_nth_twice. Qed.

Lemma change_calc_type_hidden i value p :
  hidden (allowances (change_calc_type i value p)) =
  stringify (canonical_allowances (change_calc_type i value p)).
Proof. reflexivity. Qed.

Lemma change_formula_type_hidden i value p :
  hidden (reliefs (change_formula_type i value p)) =
  stringify (canonical_reliefs (change_formula_type i value p)).
Proof. reflexivity. Qed.

(** C7: for every allowance of the page, switching its type to another
    value and back leaves every value entered in the record as it was, the
    ones of the subgroup that was hidden in between included; only the
    visibility of the two subgroups is set again from the type.  The
    canonical form after the two switches is the one before them, and the
    hidden field holds it.  The same holds for every relief of the page and
    its formula type.  Neither half needs a record of the other kind. *)
Theorem type_switch_and_back (p : Page) :
  (forall (i : nat) (allowance : AllowanceItem) (other : string),
     nth_error (container (allowances p)) i = Some allowance ->
     let pa := change_calc_type i (allow_calc_type allowance)
                 (change_calc_type i other p) in
     container (allowances pa) =
       update_nth i toggle_allowance_fields (container (allowances p))
     /\ nth_error (container (allowances pa)) i =
          Some (toggle_allowance_fields allowance)
     /\ canonical_allowances pa = canonical_allowances p
     /\ hidden (allowances pa) = stringify (canonical_allowances p))
  /\
  (forall (j : nat) (relief : ReliefItem) (other : string),
     nth_error (container (reliefs p)) j = Some relief ->
     let pr := change_formula_type j (relief_formula_type relief)
                 (change_formula_type j other p) in
     container (reliefs pr) =
       update_nth j toggle_relief_fields (container (reliefs p))
     /\ nth_error (container (reliefs pr)) j =
          Some (toggle_relief_fields relief)
     /\ canonical_reliefs pr = canonical_reliefs p
     /\ hidden (reliefs pr) = stringify (canonical_reliefs p)).
Proof.
  split.
  - intros i allowance other Ha pa.
    assert (Ea : container (allowances pa) =
                 update_nth i toggle_allowance_fields
                   (container (allowances p))).
    { unfold pa. rewrite !change_calc_type_container, update_nth_twice.
      apply (update_nth_at _ _ _ _ allowance Ha). reflexivity. }
    assert (Ca : canonical_allowances pa = canonical_allowances p).
    { unfold canonical_allowances. rewrite Ea.
      rewrite (collect_update_nth _ _ _ _ allowance_entry_toggle).
      reflexivity. }
    repeat apply conj.
    + exact Ea.
    + rewrite Ea. apply nth_error_update_nth, Ha.
    + exact Ca.
    + unfold pa. rewrite change_calc_type_hidden. fold pa. rewrite Ca.
      reflexivity.
  - intros j relief other Hr pr.
    assert (Er : container (reliefs pr) =
                 update_nth j toggle_relief_fields (container (reliefs p))).
    { unfold pr. rewrite !change_formula_type_container, update_nth_twice.
      apply (update_nth_at _ _ _ _ relief Hr). reflexivity. }
    assert (Cr : canonical_reliefs pr = canonical_reliefs p).
    { unfold canonical_reliefs. rewrite Er.
      rewrite (collect_update_nth _ _ _ _ relief_entry_toggle). reflexivity. }
    repeat apply conj.
    + exact Er.
    + rewrite Er. apply nth_error_update_nth, Hr.
    + exact Cr.
    + unfold pr. rewrite change_formula_type_hidden. fold pr. rewrite Cr.
      reflexivity.
Qed.

Lemma type_switch_and_back_witness :
  canonical_allowances
    (change_calc_type 0 "percentage"
       (change_calc_type 0 "fixed" page_with_allowance))
  = JArr [JObj [("name", JStr "Housing"); ("is_active", JBool true);
                ("calculation_type", JStr "percentage");
                ("annual_only", JBool false);
                ("percentage", JNum (Num.of_Z 10));
                ("based_on", JStr "TOTAL")]]
  /\ nth_error
       (container
          (allowances
             (change_calc_type 0 "percentage"
                (change_calc_type 0 "fixed" page_with_allowance)))) 0
     = Some housing_allowance
  /\ canonical_reliefs
       (change_formula_type 0 "percentage_plus_fixed"
          (change_formula_type 0 "fixed" page_with_relief))
     = canonical_reliefs page_with_relief
  /\ nth_error
       (container
          (reliefs
             (change_formula_type 0 "percentage_plus_fixed"
                (change_formula_type 0 "fixed" page_with_relief)))) 0
     = Some pension_relief.
Proof.
  destruct (type_switch_and_back page_with_allowance) as [Ha _].
  destruct (type_switch_and_back page_with_relief) as [_ Hr].
  destruct (Ha 0%nat housing_allowance "fixed" eq_refl) as (_ & Ia & Ca & _).
  destruct (Hr 0%nat pension_relief "fixed" eq_refl) as (_ & Ir & Cr & _).
  repeat apply conj.
  - etransitivity; [exact Ca|]. vm_compute. reflexivity.
  - exact Ia.
  - exact Cr.
  - exact Ir.
Defined.

(* ================================================================== *)
(** * Loading *)
(* ================================================================== *)

(** ** What a load leaves alone *)

Lemma fold_add_frame {T : Type} (f : Page -> T) (add : json -> Page -> Page)
  records p :
  (forall d q, f (add d q) = f q) ->
  f (fold_left (fun q record => add record q) records p) = f p.
Proof.
  intros H. revert p. induction records as [|d r IH]; intros p; simpl.
  - reflexivity.
  - rewrite IH. apply H.
Qed.

Lemma load_array_frame {T : Type} (f : Page -> T) message value add edit p :
  (forall d q, f (add d q) = f q) ->
  (forall m q, f (warn m q) = f q) ->
  f (load_array message value add edit p) = f p.
Proof.
  intros Hadd Hwarn. unfold load_array.
  destruct (Json.parse (or_else value "[]")) as [[| | | |[|first rest]|]|];
    try (destruct edit; rewrite ?Hadd, ?Hwarn; reflexivity).
  apply (fold_add_frame f add (first :: rest) p Hadd).
Qed.

Lemma add_components_frame {T : Type} (f : Page -> T) values p :
  (forall d q, f (addBasicComponent d q) = f q) ->
  f (fst (add_components values p)) = f p.
Proof.
  intros H. revert p. induction values as [|v r IH]; intros p; simpl.
  - reflexivity.
  - destruct v; try reflexivity; rewrite IH; apply H.
Qed.

Lemma load_basic_frame {T : Type} (f : Page -> T) edit p :
  (forall d q, f (addBasicComponent d q) = f q) ->
  (forall m q, f (warn m q) = f q) ->
  f (load_basic_components edit p) = f p.
Proof.
  intros Hadd Hwarn. unfold load_basic_components.
  destruct (Json.parse _) as [v|];
    [|destruct edit; rewrite ?Hadd, ?Hwarn; reflexivity].
  destruct (object_values v) as [[|first rest]|];
    try (destruct edit; rewrite ?Hadd, ?Hwarn; reflexivity).
  pose proof (add_components_frame f (first :: rest) p Hadd) as E.
  destruct (add_components (first :: rest) p) as [p' completed].
  simpl in E. destruct completed; [exact E|].
  destruct edit; rewrite ?Hadd, ?Hwarn; exact E.
Qed.

(** ** What a load puts in its container *)

Lemma made_from_snoc {I : Type} (make : nat -> json -> I) l ds id d :
  made_from make l ds ->
  made_from make (l ++ [make id d])%list (ds ++ [d])%list.
Proof.
  intros H. apply Forall2_app; [exact H|].
  constructor; [exists id; reflexivity|constructor].
Qed.

Lemma fold_add_content {I : Type} (sec : Page -> Section I)
  (make : nat -> json -> I) (add : json -> Page -> Page) records p :
  (forall d q, container (sec (add d q)) =
               (container (sec q) ++ [make (S (componentCounter q)) d])%list) ->
  exists l,
    container (sec (fold_left (fun q record => add record q) records p)) =
      (container (sec p) ++ l)%list /\
    made_from make l records.
Proof.
  intros H. revert p. induction records as [|d r IH]; intros p; simpl.
  - exists []. rewrite app_nil_r. split; [reflexivity|constructor].
  - destruct (IH (add d p)) as (l & E & M).
    exists (make (S (componentCounter p)) d :: l). split.
    + rewrite E, H, <- app_assoc. reflexivity.
    + constructor; [exists (S (componentCounter p)); reflexivity|exact M].
Qed.

Lemma load_array_content {I : Type} (sec : Page -> Section I)
  (make : nat -> json -> I) message value add edit p :
  (forall d q, container (sec (add d q)) =
               (container (sec q) ++ [make (S (componentCounter q)) d])%list) ->
  (forall m q, sec (warn m q) = sec q) ->
  exists l,
    container (sec (load_array message value add edit p)) =
      (container (sec p) ++ l)%list /\
    made_from make l (array_data value edit).
Proof.
  intros Hadd Hwarn. unfold load_array, array_data.
  assert (Hdefault :
    forall w : Page, sec w = sec p ->
    exists l,
      container (sec (if edit then w else add JNull w)) =
        (container (sec p) ++ l)%list /\
      made_from make l (if edit then [] else [JNull])).
  { intros w Hw. destruct edit.
    - exists []. rewrite Hw, app_nil_r. split; [reflexivity|constructor].
    - exists [make (S (componentCounter w)) JNull]. rewrite Hadd, Hw. split;
        [reflexivity|].
      constructor; [eexists; reflexivity|constructor]. }
  destruct (Json.parse (or_else value "[]")) as [[| | | |[|first rest]|]|];
    try (apply Hdefault; reflexivity).
  - apply (fold_add_content sec make add (first :: rest) p Hadd).
  - apply Hdefault. apply Hwarn.
Qed.

Lemma made_from_nil {I : Type} (make : nat -> json -> I) l :
  made_from make l [] -> l = [].
Proof. inversion 1. reflexivity. Qed.

Lemma made_from_one {I : Type} (make : nat -> json -> I) l d :
  made_from make l [d] -> exists id, l = [make id d].
Proof.
  inversion 1 as [|x y l' ds [id ->] Hrest]; subst.
  inversion Hrest; subst. exists id. reflexivity.
Qed.

Lemma array_data_without_records value edit :
  holds_records value = false ->
  array_data value edit = if edit then [] else [JNull].
Proof.
  unfold holds_records, array_data.
  destruct (Json.parse (or_else value "[]")) as [[| | | |[|first rest]|]|];
    try reflexivity.
  discriminate.
Qed.

Lemma parse_empty_text : Json.parse "" = None.
Proof. reflexivity. Qed.

Lemma or_else_parsed value d v :
  Json.parse value = Some v -> or_else value d = value.
Proof.
  destruct value; [discriminate|reflexivity].
Qed.

Lemma blank_array_without_records value :
  blank_array value -> holds_records value = false.
Proof.
  unfold holds_records. intros [->|H].
  - reflexivity.
  - rewrite (or_else_parsed _ _ _ H), H. reflexivity.
Qed.

(** ** The container of each section after [loadExistingData] *)

Ltac frame := intros; reflexivity.

(** The later [try] blocks leave the section alone, the earlier ones too;
    its own block fills it. *)
Ltac section_content sec make q :=
  unfold loadExistingData; cbv zeta;
  unfold load_income_items, load_other_deductions, load_statutory_deductions,
    load_tax_brackets, load_reliefs, load_allowances;
  repeat (rewrite (load_array_frame sec) by frame);
  match goal with
  | |- context [container (sec (load_array ?m (hidden (sec ?p)) ?a ?e ?p))] =>
      let p0 := fresh "p0" in
      let Hp0 := fresh "Hp0" in
      let F := fresh "F" in
      remember p as p0 eqn:Hp0;
      assert (F : sec p0 = sec (clear_containers q))
        by (rewrite Hp0;
            repeat (rewrite (load_array_frame sec) by frame);
            rewrite (load_basic_frame sec) by frame; reflexivity);
      let l := fresh "l" in
      let E := fresh "E" in
      let M := fresh "M" in
      destruct (load_array_content sec make m (hidden (sec p0)) a e p0)
        as (l & E & M); [frame|frame|];
      rewrite F in E, M; rewrite F;
      exists l; split; [exact E|exact M]
  end.

Lemma loaded_allowances_content q :
  exists l,
    container (allowances (loadExistingData q)) = l /\
    made_from allowance_item l
      (array_data (hidden (allowances q)) (isEditMode q)).
Proof. section_content allowances allowance_item q. Qed.

Lemma loaded_reliefs_content q :
  exists l,
    container (reliefs (loadExistingData q)) = l /\
    made_from relief_item l (array_data (hidden (reliefs q)) (isEditMode q)).
Proof. section_content reliefs relief_item q. Qed.

Lemma loaded_brackets_content q :
  exists l,
    container (taxBrackets (loadExistingData q)) = l /\
    made_from bracket_item l
      (array_data (hidden (taxBrackets q)) (isEditMode q)).
Proof. section_content taxBrackets bracket_item q. Qed.

Lemma loaded_statutory_content q :
  exists l,
    container (statutoryDeductions (loadExistingData q)) = l /\
    made_from statutory_item l
      (array_data (hidden (statutoryDeductions q)) (isEditMode q)).
Proof. section_content statutoryDeductions statutory_item q. Qed.

Lemma loaded_others_content q :
  exists l,
    container (otherDeductions (loadExistingData q)) = l /\
    made_from other_item l
      (array_data (hidden (otherDeductions q)) (isEditMode q)).
Proof. section_content otherDeductions other_item q. Qed.

Lemma loaded_income_content q :
  exists l,
    container (incomeItems (loadExistingData q)) = l /\
    made_from income_item l
      (array_data (hidden (incomeItems q)) (isEditMode q)).
Proof. section_content incomeItems income_item q. Qed.

(** ** The basic components after [loadExistingData] *)

Lemma loaded_basic_section q :
  basicComponents (loadExistingData q) =
  basicComponents
    (load_basic_components (isEditMode q) (clear_containers q)).
Proof.
  unfold loadExistingData. cbv zeta.
  unfold load_income_items, load_other_deductions, load_statutory_deductions,
    load_tax_brackets, load_reliefs, load_allowances.
  repeat (rewrite (load_array_frame basicComponents) by frame).
  reflexivity.
Qed.

Lemma load_basic_blank edit p :
  blank_object (hidden (basicComponents p)) ->
  load_basic_components edit p =
  if edit then p else addBasicComponent JNull p.
Proof.
  unfold load_basic_components. intros [E|E].
  - rewrite E. reflexivity.
  - rewrite (or_else_parsed _ _ _ E), E. reflexivity.
Qed.

Lemma add_components_all values p :
  Forall (fun v => v <> JNull) values ->
  add_components values p =
  (fold_left (fun q comp => addBasicComponent (component_data comp) q)
     values p, true).
Proof.
  intros H. revert p. induction H as [|v r Hv Hr IH]; intros p; simpl.
  - reflexivity.
  - destruct v; try (apply IH). congruence.
Qed.

(* ================================================================== *)
(** * Default seeding and edit mode *)
(* ================================================================== *)

Lemma seeded_from {I : Type} (make : nat -> json -> I) template edit value l :
  (forall id, make id JNull = template id) ->
  holds_records value = false ->
  made_from make l (array_data value edit) ->
  seeded edit template l.
Proof.
  intros Ht Hv M. rewrite (array_data_without_records _ _ Hv) in M.
  unfold seeded. destruct edit.
  - apply (made_from_nil _ _ M).
  - destruct (made_from_one _ _ _ M) as [id ->]. exists id.
    rewrite Ht. reflexivity.
Qed.

Lemma seeded_length {I : Type} (template : nat -> I) edit l :
  seeded edit template l ->
  List.length l = if edit then 0%nat else 1%nat.
Proof.
  unfold seeded. destruct edit; [intros ->|intros [id ->]]; reflexivity.
Qed.

Lemma seeded_basic q :
  blank_object (hidden (basicComponents q)) ->
  seeded (isEditMode q) default_basic
    (container (basicComponents (loadExistingData q))).
Proof.
  intros H. rewrite loaded_basic_section, load_basic_blank by exact H.
  unfold seeded. destruct (isEditMode q).
  - reflexivity.
  - eexists. reflexivity.
Qed.

(** C5: after [loadExistingData], a section whose hidden field is empty
    text or an empty form holds exactly one record, the default template,
    when the page is not in edit mode, and no record when it is. *)
Theorem default_seeding (q : Page) :
  let p := loadExistingData q in
  let edit := isEditMode q in
  (blank_object (hidden (basicComponents q)) ->
   seeded edit default_basic (container (basicComponents p)))
  /\ (blank_array (hidden (allowances q)) ->
      seeded edit default_allowance (container (allowances p)))
  /\ (blank_array (hidden (reliefs q)) ->
      seeded edit default_relief (container (reliefs p)))
  /\ (blank_array (hidden (taxBrackets q)) ->
      seeded edit default_bracket (container (taxBrackets p)))
  /\ (blank_array (hidden (statutoryDeductions q)) ->
      seeded edit default_statutory (container (statutoryDeductions p)))
  /\ (blank_array (hidden (otherDeductions q)) ->
      seeded edit default_other (container (otherDeductions p)))
  /\ (blank_array (hidden (incomeItems q)) ->
      seeded edit default_income (container (incomeItems p))).
Proof.
  cbv zeta. repeat apply conj.
  - apply seeded_basic.
  - intros H. destruct (loaded_allowances_content q) as (l & -> & M).
    apply (seeded_from allowance_item _ _ _ _ (fun _ => eq_refl)
             (blank_array_without_records _ H) M).
  - intros H. destruct (loaded_reliefs_content q) as (l & -> & M).
    apply (seeded_from relief_item _ _ _ _ (fun _ => eq_refl)
             (blank_array_without_records _ H) M).
  - intros H. destruct (loaded_brackets_content q) as (l & -> & M).
    apply (seeded_from bracket_item _ _ _ _ (fun _ => eq_refl)
             (blank_array_without_records _ H) M).
  - intros H. destruct (loaded_statutory_content q) as (l & -> & M).
    apply (seeded_from statutory_item _ _ _ _ (fun _ => eq_refl)
             (blank_array_without_records _ H) M).
  - intros H. destruct (loaded_others_content q) as (l & -> & M).
    apply (seeded_from other_item _ _ _ _ (fun _ => eq_refl)
             (blank_array_without_records _ H) M).
  - intros H. destruct (loaded_income_content q) as (l & -> & M).
    apply (seeded_from income_item _ _ _ _ (fun _ => eq_refl)
             (blank_array_without_records _ H) M).
Qed.

Lemma default_seeding_witness :
  seeded false default_basic
    (container (basicComponents (loadExistingData blank_page)))
  /\ seeded false default_allowance
       (container (allowances (loadExistingData blank_page)))
  /\ seeded true default_basic
       (container (basicComponents (loadExistingData emptied_page)))
  /\ seeded true default_income
       (container (incomeItems (loadExistingData emptied_page))).
Proof.
  destruct (default_seeding blank_page) as (Hb & Ha & _).
  destruct (default_seeding emptied_page) as (Hb' & _ & _ & _ & _ & _ & Hi').
  repeat apply conj.
  - apply Hb. left. reflexivity.
  - apply Ha. left. reflexivity.
  - apply Hb'. right. vm_compute. reflexivity.
  - apply Hi'. right. vm_compute. reflexivity.
Defined.

(** C9: edit mode is read off the hidden field of the basic components
    alone: it holds when that field is neither empty nor the text "{}".
    For each of the six other sections whose own field is an empty
    serialized form (no text, or an empty array), the section ends with no
    record in edit mode and with one record otherwise: the field of the
    basic components decides, not the section's own. *)
Theorem edit_mode_from_basic_components (q : Page) :
  let p := loadExistingData q in
  let value := hidden (basicComponents q) in
  let edit := Str.nonempty value && negb (String.eqb value "{}") in
  isEditMode q = edit
  /\ (blank_array (hidden (allowances q)) ->
      List.length (container (allowances p)) = if edit then 0%nat else 1%nat)
  /\ (blank_array (hidden (reliefs q)) ->
      List.length (container (reliefs p)) = if edit then 0%nat else 1%nat)
  /\ (blank_array (hidden (taxBrackets q)) ->
      List.length (container (taxBrackets p)) = if edit then 0%nat else 1%nat)
  /\ (blank_array (hidden (statutoryDeductions q)) ->
      List.length (container (statutoryDeductions p)) =
      if edit then 0%nat else 1%nat)
  /\ (blank_array (hidden (otherDeductions q)) ->
      List.length (container (otherDeductions p)) =
      if edit then 0%nat else 1%nat)
  /\ (blank_array (hidden (incomeItems q)) ->
      List.length (container (incomeItems p)) = if edit then 0%nat else 1%nat).
Proof.
  cbv zeta. fold (isEditMode q). repeat apply conj.
  - reflexivity.
  - intros H. destruct (loaded_allowances_content q) as (l & -> & M).
    apply (seeded_length default_allowance).
    apply (seeded_from allowance_item _ _ _ _ (fun _ => eq_refl)
             (blank_array_without_records _ H) M).
  - intros H. destruct (loaded_reliefs_content q) as (l & -> & M).
    apply (seeded_length default_relief).
    apply (seeded_from relief_item _ _ _ _ (fun _ => eq_refl)
             (blank_array_without_records _ H) M).
  - intros H. destruct (loaded_brackets_content q) as (l & -> & M).
    apply (seeded_length default_bracket).
    apply (seeded_from bracket_item _ _ _ _ (fun _ => eq_refl)
             (blank_array_without_records _ H) M).
  - intros H. destruct (loaded_statutory_content q) as (l & -> & M).
    apply (seeded_length default_statutory).
    apply (seeded_from statutory_item _ _ _ _ (fun _ => eq_refl)
             (blank_array_without_records _ H) M).
  - intros H. destruct (loaded_others_content q) as (l & -> & M).
    apply (seeded_length default_other).
    apply (seeded_from other_item _ _ _ _ (fun _ => eq_refl)
             (blank_array_without_records _ H) M).
  - intros H. destruct (loaded_income_content q) as (l & -> & M).
    apply (seeded_length default_income).
    apply (seeded_from income_item _ _ _ _ (fun _ => eq_refl)
             (blank_array_without_records _ H) M).
Qed.

Lemma edit_mode_from_basic_components_witness :
  isEditMode emptied_page = true
  /\ List.length (container (allowances (loadExistingData emptied_page))) =
     0%nat
  /\ isEditMode blank_page = false
  /\ List.length (container (allowances (loadExistingData blank_page))) =
     1%nat
  /\ isEditMode page_with_empty_sections = true
  /\ List.length
       (container (incomeItems (loadExistingData page_with_empty_sections))) =
     0%nat.
Proof.
  destruct (edit_mode_from_basic_components emptied_page) as (Ee & He & _).
  destruct (edit_mode_from_basic_components blank_page) as (Eb & Hb & _).
  destruct (edit_mode_from_basic_components page_with_empty_sections)
    as (Es & _ & _ & _ & _ & _ & Hs).
  repeat apply conj.
  - reflexivity.
  - apply He. right. vm_compute. reflexivity.
  - reflexivity.
  - apply Hb. left. reflexivity.
  - vm_compute. reflexivity.
  - apply Hs. left. reflexivity.
Defined.

(* ================================================================== *)
(** * Reloading a canonical form *)
(* ================================================================== *)

(** ** What the templates render *)

Lemma text_value_string s d :
  Str.nonempty s = true -> single_line s -> text_value (Some (JStr s)) d = s.
Proof.
  unfold text_value, single_line. simpl. intros -> H. exact H.
Qed.

Lemma text_value_absent d : text_value None d = strip_newlines d.
Proof. reflexivity. Qed.

Lemma number_value_number x d :
  number_value (Some (JNum x)) d = sanitize_number (Num.toString x).
Proof. reflexivity. Qed.

Lemma number_value_absent : number_value None "" = "".
Proof. reflexivity. Qed.

Lemma number_value_null : number_value (Some JNull) "" = "".
Proof. reflexivity. Qed.

Lemma parseFloat_empty : parseFloat "" = NaN.
Proof. reflexivity. Qed.

Lemma trim_empty : Str.trim "" = "".
Proof. reflexivity. Qed.

Lemma nonempty_trim_trim s :
  Str.nonempty (Str.trim (Str.trim s)) = Str.nonempty (Str.trim s).
Proof. rewrite trim_idempotent. reflexivity. Qed.

Lemma or_default_idempotent x d : or_default (or_default x d) d = or_default x d.
Proof.
  unfold or_default. destruct (Num.truthy x) eqn:E; [rewrite E|]; try reflexivity.
  destruct (Num.truthy d); reflexivity.
Qed.

Lemma trim_staff_loan : Str.trim "staff_loan" = "staff_loan".
Proof. reflexivity. Qed.

Lemma trim_salary_advance : Str.trim "salary_advance" = "salary_advance".
Proof. reflexivity. Qed.

Lemma based_on_default b :
  single_line (Str.trim b) ->
  Str.nonempty (or_else (Str.trim b) "B") = true /\
  single_line (or_else (Str.trim b) "B") /\
  Str.trim (or_else (Str.trim b) "B") = or_else (Str.trim b) "B".
Proof.
  intros H. unfold or_else.
  destruct (Str.nonempty (Str.trim b)) eqn:E.
  - repeat split; [exact E|exact H|apply trim_idempotent].
  - repeat split; reflexivity.
Qed.

(** ** One record through the template and the serializer again *)

Local Opaque Str.trim parseFloat parseInt Num.toString sanitize_number
  strip_newlines.

Lemma allowance_reloaded item record id :
  allowance_reloads item ->
  allowance_entry item = Some record ->
  allowance_entry (allowance_item id record) = Some record.
Proof.
  intros (Hname & Hbased & Htype & Hpct & Hfixed & Hpresent).
  unfold allowance_entry at 1.
  destruct (Str.nonempty (Str.trim (allow_name item))) eqn:En; [|discriminate].
  cbn [negb].
  unfold reads_back in Hpct, Hfixed.
  destruct Htype as [Et|[Et|[]]]; rewrite <- Et in *;
    cbn [or_else Str.nonempty String.eqb Ascii.eqb Bool.eqb andb].
  - pose proof (Hpresent eq_refl) as Eb. rewrite Eb.
    destruct (isNaN (parseFloat (allow_percentage item))) eqn:Ep;
      intros [= <-]; unfold allowance_entry, allowance_item; simpl;
      rewrite !text_value_string by assumption;
      rewrite ?number_value_number, ?number_value_absent;
      rewrite !trim_idempotent, En, Eb; simpl;
      rewrite ?Hpct, ?Ep, ?parseFloat_empty;
      destruct (allow_active item), (allow_annual item); reflexivity.
  - destruct (isNaN (parseFloat (allow_fixed_amount item))) eqn:Ep;
      intros [= <-]; unfold allowance_entry, allowance_item; simpl;
      rewrite !text_value_string by assumption;
      rewrite ?number_value_number, ?number_value_absent;
      rewrite !trim_idempotent, En; simpl;
      rewrite ?Hfixed, ?Ep, ?parseFloat_empty;
      destruct (allow_active item), (allow_annual item); reflexivity.
Qed.

Lemma relief_reloaded item record id :
  relief_reloads item ->
  relief_entry item = Some record ->
  relief_entry (relief_item id record) = Some record.
Proof.
  intros (Hname & Hbased & Htype & Hpct & Hfixed & Hpresent).
  unfold relief_entry at 1.
  destruct (Str.nonempty (Str.trim (relief_name item))) eqn:En; [|discriminate].
  cbn [negb].
  unfold reads_back in Hpct, Hfixed.
  destruct Htype as [Et|[Et|[Et|[]]]]; rewrite <- Et in *;
    cbn [or_else Str.nonempty String.eqb Ascii.eqb Bool.eqb andb negb].
  - assert (Eb : Str.nonempty (Str.trim (relief_based_on item)) = true)
      by (apply Hpresent; discriminate).
    rewrite Eb.
    destruct (isNaN (parseFloat (relief_percentage item))) eqn:Ep;
      destruct (isNaN (parseFloat (relief_fixed_amount item))) eqn:Ef;
      intros [= <-]; unfold relief_entry, relief_item; simpl;
      rewrite !text_value_string by assumption;
      rewrite ?number_value_number, ?number_value_absent;
      rewrite !trim_idempotent, En, Eb; simpl;
      rewrite ?Hpct, ?Hfixed, ?Ep, ?Ef, ?parseFloat_empty;
      destruct (relief_active item); reflexivity.
  - assert (Eb : Str.nonempty (Str.trim (relief_based_on item)) = true)
      by (apply Hpresent; discriminate).
    rewrite Eb.
    destruct (isNaN (parseFloat (relief_percentage item))) eqn:Ep;
      intros [= <-]; unfold relief_entry, relief_item; simpl;
      rewrite !text_value_string by assumption;
      rewrite ?number_value_number, ?number_value_absent;
      rewrite !trim_idempotent, En, Eb; simpl;
      rewrite ?Hpct, ?Ep, ?parseFloat_empty;
      destruct (relief_active item); reflexivity.
  - destruct (isNaN (parseFloat (relief_fixed_amount item))) eqn:Ef;
      intros [= <-]; unfold relief_entry, relief_item; simpl;
      rewrite !text_value_string by assumption;
      rewrite ?number_value_number, ?number_value_absent;
      rewrite !trim_idempotent, En; simpl;
      rewrite ?Hfixed, ?Ef, ?parseFloat_empty;
      destruct (relief_active item); reflexivity.
Qed.

Lemma bracket_reloaded item record id :
  bracket_reloads item ->
  bracket_entry item = Some record ->
  bracket_entry (bracket_item id record) = Some record.
Proof.
  intros (Hrate & Hlimit). unfold bracket_entry at 1.
  destruct (isNaN (parseFloat (bracket_rate item))) eqn:Er; [discriminate|].
  cbn [negb]. unfold reads_back in Hrate.
  destruct Hlimit as [Eb|(Hne & Hl)].
  - rewrite Eb. intros [= <-].
    unfold bracket_entry, bracket_item. simpl.
    rewrite number_value_number, number_value_null, trim_empty, Hrate, Er.
    reflexivity.
  - destruct (String.eqb_spec (Str.trim (bracket_limit item)) "") as [E|E].
    + intros [= <-].
      unfold bracket_entry, bracket_item. simpl.
      rewrite number_value_number, number_value_null, trim_empty, Hrate, Er.
      reflexivity.
    + intros [= <-].
      unfold bracket_entry, bracket_item. simpl.
      rewrite !number_value_number, Hrate, Er, Hl.
      destruct (String.eqb_spec
                  (Str.trim (sanitize_number
                     (toString (parseFloat (Str.trim (bracket_limit item))))))
                  ""); [contradiction|reflexivity].
Qed.

Lemma statutory_reloaded item record id :
  statutory_reloads item ->
  statutory_entry item = Some record ->
  statutory_entry (statutory_item id record) = Some record.
Proof.
  intros (Hname & Hbased & Hpct). unfold statutory_entry at 1.
  destruct (Str.nonempty (Str.trim (stat_name item))) eqn:En; [|discriminate].
  destruct (isNaN (parseFloat (stat_percentage item))) eqn:Ep; [discriminate|].
  cbn [negb andb]. unfold reads_back in Hpct.
  destruct (based_on_default _ Hbased) as (B1 & B2 & B3).
  intros [= <-]. unfold statutory_entry, statutory_item. simpl.
  rewrite !text_value_string by assumption.
  rewrite number_value_number, trim_idempotent, En, Hpct, Ep, B3.
  unfold or_else at 1. rewrite B1.
  destruct (stat_active item); reflexivity.
Qed.

Lemma other_reloaded item record id :
  other_reloads item ->
  other_entry item = Some record ->
  other_entry (other_item id record) = Some record.
Proof.
  intros (Hname & Hrule & Hlink & Horder). unfold other_entry at 1.
  destruct (Str.nonempty (Str.trim (other_name item))) eqn:En; [|discriminate].
  cbn [negb]. unfold order_reads_back in Horder.
  destruct Hrule as [Er|[Er|[]]]; rewrite <- Er in *;
    destruct Hlink as [El|[El|[El|[]]]]; rewrite <- El in *;
    rewrite ?trim_empty, ?trim_staff_loan, ?trim_salary_advance;
    intros [= <-]; unfold other_entry, other_item; simpl;
    rewrite !text_value_string by assumption;
    rewrite number_value_number, trim_idempotent, En, Horder;
    rewrite ?trim_empty, ?trim_staff_loan, ?trim_salary_advance;
    reflexivity.
Qed.

Lemma income_reloaded item record id :
  income_reloads item ->
  income_entry item = Some record ->
  income_entry (income_item id record) = Some record.
Proof.
  intros (Hname & Hrule & Horder). unfold income_entry at 1.
  destruct (Str.nonempty (Str.trim (income_name item))) eqn:En; [|discriminate].
  cbn [negb]. unfold order_reads_back in Horder.
  destruct Hrule as [Er|[Er|[]]]; rewrite <- Er in *;
    intros [= <-]; unfold income_entry, income_item; simpl;
    rewrite !text_value_string by assumption;
    rewrite number_value_number, trim_idempotent, En, Horder;
    reflexivity.
Qed.

Lemma basic_reloaded item id :
  basic_reloads item ->
  basic_included item = true ->
  let item' := basic_item id (component_data (basic_record item)) in
  basic_included item' = true /\
  basic_key (Str.trim (comp_name item')) =
    basic_key (Str.trim (comp_name item)) /\
  basic_record item' = basic_record item.
Proof.
  intros (Hname & Hcode & Hpct) Hin. unfold basic_included in Hin.
  apply andb_true_iff in Hin. destruct Hin as [En Ec].
  unfold reads_back in Hpct.
  cbv zeta. unfold basic_included, basic_record, basic_item, basic_percentage.
  simpl.
  rewrite !text_value_string by assumption.
  rewrite number_value_number, !trim_idempotent, En, Ec.
  fold (basic_percentage item). rewrite Hpct.
  unfold basic_percentage. rewrite or_default_idempotent.
  repeat split.
Qed.

Local Transparent Str.trim parseFloat parseInt Num.toString sanitize_number
  strip_newlines.

(** ** A section through the load and the serializer again *)

Lemma collect_made_from {I : Type} (make : nat -> json -> I)
  (entry : I -> option json) l records :
  Forall (fun record => forall id, entry (make id record) = Some record)
    records ->
  made_from make l records -> collect entry l = records.
Proof.
  intros H M. induction M as [|x d l ds [id ->] _ IH]; [reflexivity|].
  inversion H as [|? ? Hd Hds]; subst. simpl.
  rewrite Hd, (IH Hds). reflexivity.
Qed.

Lemma collect_Forall {I : Type} (entry : I -> option json)
  (P : I -> Prop) (Q : json -> Prop) items :
  (forall item record, P item -> entry item = Some record -> Q record) ->
  Forall P items -> Forall Q (collect entry items).
Proof.
  intros H. induction 1 as [|item rest Hi Hr IH]; simpl; [constructor|].
  destruct (entry item) as [record|] eqn:E; [|exact IH].
  constructor; [apply (H item); assumption|exact IH].
Qed.

Lemma array_reloaded {I : Type} (make : nat -> json -> I)
  (entry : I -> option json) (P : I -> Prop) l value edit items :
  (forall id, entry (make id JNull) = None) ->
  (forall item record id,
     P item -> entry item = Some record ->
     entry (make id record) = Some record) ->
  Forall P items ->
  Json.parse value = Some (JArr (collect entry items)) ->
  made_from make l (array_data value edit) ->
  collect entry l = collect entry items.
Proof.
  intros Hnull Hback HP Hparse M.
  unfold array_data in M. rewrite (or_else_parsed _ _ _ Hparse), Hparse in M.
  pose proof (collect_Forall entry P
                (fun record => forall id, entry (make id record) = Some record)
                items (fun item record Hi He id => Hback item record id Hi He) HP)
    as Hall.
  destruct (collect entry items) as [|first rest].
  - destruct edit.
    + rewrite (made_from_nil _ _ M). reflexivity.
    + destruct (made_from_one _ _ _ M) as [id ->]. simpl.
      rewrite Hnull. reflexivity.
  - apply (collect_made_from make entry l (first :: rest) Hall M).
Qed.

(** ** The basic components through the load and the serializer again *)

Lemma Forall_replace (P : string * json -> Prop) k v o :
  Forall P o -> P (k, v) -> Forall P (replace k v o).
Proof.
  intros H Hkv. induction H as [|[k1 v1] r H1 Hr IH]; simpl; [constructor|].
  destruct (String.eqb k k1); constructor; assumption.
Qed.

Lemma Forall_insert_index (P : string * json -> Prop) i k v o :
  Forall P o -> P (k, v) -> Forall P (insert_index i k v o).
Proof.
  intros H Hkv. induction H as [|[k1 v1] r H1 Hr IH]; simpl.
  - constructor; [exact Hkv|constructor].
  - destruct (array_index k1) as [j|]; [destruct (j <? i)|];
      repeat (constructor; try assumption).
Qed.

Lemma Forall_set (P : string * json -> Prop) k v o :
  Forall P o -> P (k, v) -> Forall P (Json.set k v o).
Proof.
  intros H Hkv. unfold Json.set.
  destruct (has_key k o); [apply Forall_replace; assumption|].
  destruct (array_index k); [apply Forall_insert_index; assumption|].
  apply Forall_app. split; [exact H|constructor; [exact Hkv|constructor]].
Qed.

Lemma basic_scan_recorded items o t :
  Forall basic_reloads items -> Forall recorded o ->
  Forall recorded (fst (basic_scan items o t)).
Proof.
  intros H. revert o t. induction H as [|item rest Hi Hr IH]; intros o t Ho.
  - exact Ho.
  - simpl. destruct (basic_included item) eqn:E; [|apply IH, Ho].
    apply IH. unfold assign_component.
    destruct (String.eqb (basic_key (Str.trim (comp_name item))) "__proto__")
      eqn:K; [exact Ho|].
    apply Forall_set; [exact Ho|].
    exists item. split; [exact Hi|]. split; [exact E|].
    repeat split. exact K.
Qed.

Lemma entered_same a b :
  entered a = entered b ->
  basic_included a = basic_included b /\
  basic_key (Str.trim (comp_name a)) = basic_key (Str.trim (comp_name b)) /\
  basic_record a = basic_record b /\
  basic_percentage a = basic_percentage b.
Proof.
  unfold entered, basic_included, basic_record, basic_percentage.
  intros [= _ -> -> ->]. repeat split.
Qed.

Lemma basic_scan_entered l1 l2 o t :
  map entered l1 = map entered l2 -> basic_scan l1 o t = basic_scan l2 o t.
Proof.
  revert l2 o t. induction l1 as [|a r IH]; intros [|b r'] o t; simpl;
    try discriminate; [reflexivity|].
  intros H. assert (Hab : entered a = entered b) by congruence.
  assert (Hr : map entered r = map entered r') by congruence. clear H.
  destruct (entered_same a b Hab) as (-> & -> & -> & ->).
  destruct (basic_included b); apply IH, Hr.
Qed.

Lemma fold_addBasic_entered values p :
  exists l,
    map entered
      (container
         (basicComponents
            (fold_left
               (fun q comp => addBasicComponent (component_data comp) q)
               values p))) =
    map entered (container (basicComponents p) ++ l)%list /\
    made_from basic_item l (map component_data values).
Proof.
  revert p. induction values as [|v r IH]; intros p; simpl.
  - exists []. rewrite app_nil_r. split; [reflexivity|constructor].
  - destruct (IH (addBasicComponent (component_data v) p)) as (l & E & M).
    exists (basic_item (S (componentCounter p)) (component_data v) :: l).
    split.
    + rewrite E. simpl. rewrite !map_app, !map_entered_preview.
      rewrite <- app_assoc. reflexivity.
    + constructor; [eexists; reflexivity|exact M].
Qed.

Lemma basic_scan_made l o acc t :
  Forall recorded o ->
  made_from basic_item l (values_data o) ->
  fst (basic_scan l acc t) = rebuild o acc.
Proof.
  intros H. revert l acc t.
  induction H as [|[k v] r (item & Hre & Hin & Hk & Hv & Hp) Hr IH];
    intros l acc t M; inversion M as [|x d l' ds [id Hx] M']; subst.
  - reflexivity.
  - simpl in Hk, Hv, Hp. subst v.
    destruct (basic_reloaded item id Hre Hin) as (E1 & E2 & E3).
    cbn [basic_scan snd]. rewrite E1, E2, E3, <- Hk.
    unfold assign_component. rewrite Hp.
    unfold rebuild. cbn [fold_left fst snd]. apply IH, M'.
Qed.

Lemma recorded_not_null o :
  Forall recorded o -> Forall (fun v => v <> JNull) (map snd o).
Proof.
  induction 1 as [|[k v] r (item & _ & _ & _ & Hv & _) Hr IH]; simpl;
    constructor; [|exact IH].
  simpl in Hv. rewrite Hv. discriminate.
Qed.

Lemma basic_reloaded_form s q :
  Forall basic_reloads (container (basicComponents s)) ->
  Json.parse (hidden (basicComponents q)) = Some (canonical_basic s) ->
  canonical_basic (loadExistingData q) = canonical_basic s.
Proof.
  intros Hre Hparse. unfold canonical_basic in *.
  rewrite loaded_basic_section.
  assert (Hrec : Forall recorded
                   (basic_components (container (basicComponents s)))).
  { apply basic_scan_recorded; [exact Hre|constructor]. }
  assert (Hord : ordered (basic_components (container (basicComponents s)))).
  { apply (basic_scan_ordered _ [] zero ordered_nil). }
  remember (basic_components (container (basicComponents s))) as o eqn:Ho.
  clear Ho.
  unfold load_basic_components.
  change (hidden (basicComponents (clear_containers q)))
    with (hidden (basicComponents q)).
  rewrite (or_else_parsed _ _ _ Hparse), Hparse.
  cbn [object_values].
  destruct o as [|kv r].
  - cbn [map]. destruct (isEditMode q); reflexivity.
  - pose proof (recorded_not_null _ Hrec) as Hnn.
    pose proof (add_components_all (map snd (kv :: r)) (clear_containers q) Hnn)
      as Hadd.
    destruct (fold_addBasic_entered (map snd (kv :: r)) (clear_containers q))
      as (l & E & M).
    cbn [map] in *. rewrite Hadd.
    f_equal. unfold basic_components.
    rewrite (basic_scan_entered _ _ _ _ E).
    cbn [clear_containers basicComponents clear container app].
    assert (M' : made_from basic_item l (values_data (kv :: r))).
    { unfold values_data. rewrite <- map_map. exact M. }
    rewrite (basic_scan_made l (kv :: r) [] zero Hrec M').
    apply (rebuild_ordered (kv :: r) []). exact Hord.
Qed.

Lemma hidden_fields_serialized p :
  hidden_fields (serialize_all p) = map stringify (canonical_forms p).
Proof. reflexivity. Qed.

(** C2 as the code has it: take the canonical forms that the serializers
    produce from a store in which every percentage allowance and every
    relief that is not fixed has a base, whose texts hold no line break,
    whose selects hold one of their options and whose numbers read back as
    themselves from the text a number input shows.  A page whose hidden
    fields parse to these forms, once loaded, has the same canonical forms,
    and serializing it writes them to the hidden fields. *)
Theorem reload_round_trip (s q : Page) :
  reloads s ->
  map Json.parse (hidden_fields q) = map Some (canonical_forms s) ->
  canonical_forms (loadExistingData q) = canonical_forms s
  /\ hidden_fields (serialize_all (loadExistingData q)) =
     map stringify (canonical_forms s).
Proof.
  intros (Rb & Ra & Rr & Rt & Rs & Ro & Ri) Hparse.
  assert (E : canonical_forms (loadExistingData q) = canonical_forms s).
  { unfold hidden_fields, canonical_forms in *. cbn [map] in Hparse.
    injection Hparse as Pb Pa Pr Pt Ps Po Pi.
    unfold canonical_allowances, canonical_reliefs, canonical_brackets,
      canonical_statutory, canonical_others, canonical_income in *.
    rewrite (basic_reloaded_form s q Rb Pb).
    destruct (loaded_allowances_content q) as (la & -> & Ma).
    destruct (loaded_reliefs_content q) as (lr & -> & Mr).
    destruct (loaded_brackets_content q) as (lt & -> & Mt).
    destruct (loaded_statutory_content q) as (ls & -> & Ms).
    destruct (loaded_others_content q) as (lo & -> & Mo).
    destruct (loaded_income_content q) as (li & -> & Mi).
    rewrite (array_reloaded allowance_item allowance_entry allowance_reloads
               la _ _ _ (fun _ => eq_refl)
               (fun item record id => allowance_reloaded item record id)
               Ra Pa Ma).
    rewrite (array_reloaded relief_item relief_entry relief_reloads
               lr _ _ _ (fun _ => eq_refl)
               (fun item record id => relief_reloaded item record id)
               Rr Pr Mr).
    rewrite (array_reloaded bracket_item bracket_entry bracket_reloads
               lt _ _ _ (fun _ => eq_refl)
               (fun item record id => bracket_reloaded item record id)
               Rt Pt Mt).
    rewrite (array_reloaded statutory_item statutory_entry statutory_reloads
               ls _ _ _ (fun _ => eq_refl)
               (fun item record id => statutory_reloaded item record id)
               Rs Ps Ms).
    rewrite (array_reloaded other_item other_entry other_reloads
               lo _ _ _ (fun _ => eq_refl)
               (fun item record id => other_reloaded item record id)
               Ro Po Mo).
    rewrite (array_reloaded income_item income_entry income_reloads
               li _ _ _ (fun _ => eq_refl)
               (fun item record id => income_reloaded item record id)
               Ri Pi Mi).
    reflexivity. }
  split; [exact E|].
  rewrite hidden_fields_serialized, E. reflexivity.
Qed.

Lemma sample_store_reloads : reloads sample_store.
Proof.
  unfold reloads, sample_store; cbn [container basicComponents allowances
    reliefs taxBrackets statutoryDeductions otherDeductions incomeItems].
  repeat apply conj;
    repeat (apply Forall_cons; [|]); try apply Forall_nil;
    repeat apply conj;
    try (vm_compute; reflexivity);
    try (intros _; vm_compute; reflexivity);
    try (cbn; tauto);
    try (left; vm_compute; reflexivity);
    try (right; split; [vm_compute; discriminate|vm_compute; reflexivity]).
Defined.

Lemma reload_round_trip_witness :
  canonical_forms (loadExistingData sample_reload) =
  canonical_forms sample_store.
Proof.
  apply (reload_round_trip sample_store sample_reload sample_store_reloads).
  vm_compute. reflexivity.
Defined.

(** C2 as stated fails, on two forms.  The first has the shape that
    section 3 gives to the income items, with an order of 0, and is read by
    [JSON.parse] from its own text: loaded and serialized it has the order
    1.  The second is what the serializer itself writes for a percentage
    allowance whose base the user cleared, and has the shape of an
    allowance: loaded and serialized it has the base TOTAL. *)
Lemma round_trip_fails :
  (array_of income_shape income_of_order_zero = true /\
   Json.parse (stringify income_of_order_zero) = Some income_of_order_zero /\
   canonical_income
     (loadExistingData (rendered_with (JArr []) income_of_order_zero))
   <> income_of_order_zero)
  /\ (array_of allowance_shape
        (JArr (collect allowance_entry [allowance_without_base])) = true /\
      Json.parse
        (stringify (JArr (collect allowance_entry [allowance_without_base])))
      = Some (JArr (collect allowance_entry [allowance_without_base])) /\
      canonical_allowances
        (loadExistingData
           (rendered_with
              (JArr (collect allowance_entry [allowance_without_base]))
              (JArr [])))
      <> JArr (collect allowance_entry [allowance_without_base])).
Proof.
  repeat apply conj; try (vm_compute; reflexivity);
    vm_compute; discriminate.
Qed.

(* ================================================================== *)
(** * Further properties of the script *)
(* ================================================================== *)

(** ** Pages *)

Lemma page_ext p q :
  basicComponents p = basicComponents q ->
  allowances p = allowances q ->
  reliefs p = reliefs q ->
  taxBrackets p = taxBrackets q ->
  statutoryDeductions p = statutoryDeductions q ->
  otherDeductions p = otherDeductions q ->
  incomeItems p = incomeItems q ->
  totalPercentage_text p = totalPercentage_text q ->
  totalPercentage_class p = totalPercentage_class q ->
  componentCounter p = componentCounter q ->
  console p = console q ->
  error_shown p = error_shown q ->
  p = q.
Proof.
  destruct p, q. simpl.
  intros; subst; reflexivity.
Qed.

Lemma basic_scan_preview items o t :
  basic_scan (map basic_preview items) o t = basic_scan items o t.
Proof. apply basic_scan_entered, map_entered_preview. Qed.

Lemma map_preview_twice items :
  map basic_preview (map basic_preview items) = map basic_preview items.
Proof. rewrite map_map. apply map_ext. reflexivity. Qed.

Lemma updated_basic_section p :
  basicComponents (updateBasicComponentsJSON p) =
  write_out (map basic_preview (container (basicComponents p)))
    (JObj (basic_components (container (basicComponents p)))).
Proof. reflexivity. Qed.

Lemma updated_basic_text p :
  totalPercentage_text (updateBasicComponentsJSON p) =
  toFixed2 (basic_total (container (basicComponents p))).
Proof. reflexivity. Qed.

Lemma updated_basic_class p :
  totalPercentage_class (updateBasicComponentsJSON p) =
  percentage_class (basic_total (container (basicComponents p))).
Proof. reflexivity. Qed.

Lemma write_out_preview items :
  write_out (map basic_preview (map basic_preview items))
    (JObj (basic_components (map basic_preview items))) =
  write_out (map basic_preview items) (JObj (basic_components items)).
Proof.
  unfold basic_components. rewrite basic_scan_preview, map_preview_twice.
  reflexivity.
Qed.

Lemma basic_total_preview items :
  basic_total (map basic_preview items) = basic_total items.
Proof. unfold basic_total. rewrite basic_scan_preview. reflexivity. Qed.

(** ** Serializing twice *)

(** X1: serializing is idempotent: a second run of the seven
    [update...JSON] functions, with no edit in between, changes nothing on
    the page, neither a hidden field, nor the total shown and its class,
    nor a preview amount. *)
Theorem serialize_all_idempotent (p : Page) :
  serialize_all (serialize_all p) = serialize_all p.
Proof.
  apply page_ext; try reflexivity.
  - change (basicComponents (serialize_all (serialize_all p)))
      with (basicComponents
              (updateBasicComponentsJSON (updateBasicComponentsJSON p))).
    change (basicComponents (serialize_all p))
      with (basicComponents (updateBasicComponentsJSON p)).
    rewrite !updated_basic_section.
    cbn [write_out container]. apply write_out_preview.
  - change (totalPercentage_text (serialize_all (serialize_all p)))
      with (totalPercentage_text
              (updateBasicComponentsJSON (updateBasicComponentsJSON p))).
    change (totalPercentage_text (serialize_all p))
      with (totalPercentage_text (updateBasicComponentsJSON p)).
    rewrite !updated_basic_text, updated_basic_section.
    cbn [write_out container]. rewrite basic_total_preview. reflexivity.
  - change (totalPercentage_class (serialize_all (serialize_all p)))
      with (totalPercentage_class
              (updateBasicComponentsJSON (updateBasicComponentsJSON p))).
    change (totalPercentage_class (serialize_all p))
      with (totalPercentage_class (updateBasicComponentsJSON p)).
    rewrite !updated_basic_class, updated_basic_section.
    cbn [write_out container]. rewrite basic_total_preview. reflexivity.
Qed.

(** ** Submitting without a complete basic component *)

Lemma filter_none {A : Type} (f : A -> bool) l :
  Forall (fun x => f x = false) l -> filter f l = [].
Proof.
  induction 1 as [|x r Hx Hr IH]; simpl; [reflexivity|].
  rewrite Hx. exact IH.
Qed.

(** X2: when no basic component has both a name and a code, whatever the
    other sections hold, the submission is cancelled and the message reports
    a total of 0.00. *)
Theorem submission_needs_a_basic_component (p : Page) :
  Forall (fun item => basic_included item = false)
    (container (basicComponents p)) ->
  snd (on_submit p) = false /\
  error_shown (fst (on_submit p)) =
    Some "Basic salary components must total 100%. Current total: 0.00%".
Proof.
  intros H. rewrite on_submit_unfold. cbv zeta.
  rewrite presented_total_serialized.
  unfold sum_percentages. rewrite (filter_none _ _ H). cbn [map fold_left].
  assert (E : parseFloat (toFixed2 zero) = zero) by (vm_compute; reflexivity).
  rewrite E. split; reflexivity.
Qed.

Lemma submission_needs_a_basic_component_witness :
  snd (on_submit (loadExistingData blank_page)) = false.
Proof.
  apply (submission_needs_a_basic_component (loadExistingData blank_page)).
  vm_compute. repeat constructor.
Defined.

(** ** Adding and removing *)

Lemma basic_scan_app l1 l2 o t :
  basic_scan (l1 ++ l2)%list o t =
  basic_scan l2 (fst (basic_scan l1 o t)) (snd (basic_scan l1 o t)).
Proof.
  revert o t. induction l1 as [|x r IH]; intros o t; simpl; [reflexivity|].
  destruct (basic_included x); apply IH.
Qed.

Lemma added_basic_section d p :
  basicComponents (addBasicComponent d p) =
  write_out
    (map basic_preview
       (container (basicComponents p) ++
        [basic_item (S (componentCounter p)) d])%list)
    (JObj (basic_components
             (container (basicComponents p) ++
              [basic_item (S (componentCounter p)) d])%list)).
Proof. reflexivity. Qed.

Lemma added_allowance_section d p :
  allowances (addAllowance d p) =
  write_out
    (container (allowances p) ++ [allowance_item (S (componentCounter p)) d])%list
    (JArr (collect allowance_entry
             (container (allowances p) ++
              [allowance_item (S (componentCounter p)) d])%list)).
Proof. reflexivity. Qed.

Lemma added_relief_section d p :
  reliefs (addRelief d p) =
  write_out
    (container (reliefs p) ++ [relief_item (S (componentCounter p)) d])%list
    (JArr (collect relief_entry
             (container (reliefs p) ++
              [relief_item (S (componentCounter p)) d])%list)).
Proof. reflexivity. Qed.

Lemma added_bracket_section d p :
  taxBrackets (addTaxBracket d p) =
  write_out
    (container (taxBrackets p) ++ [bracket_item (S (componentCounter p)) d])%list
    (JArr (collect bracket_entry
             (container (taxBrackets p) ++
              [bracket_item (S (componentCounter p)) d])%list)).
Proof. reflexivity. Qed.

Lemma added_statutory_section d p :
  statutoryDeductions (addStatutoryDeduction d p) =
  write_out
    (container (statutoryDeductions p) ++
     [statutory_item (S (componentCounter p)) d])%list
    (JArr (collect statutory_entry
             (container (statutoryDeductions p) ++
              [statutory_item (S (componentCounter p)) d])%list)).
Proof. reflexivity. Qed.

Lemma added_other_section d p :
  otherDeductions (addOtherDeduction d p) =
  write_out
    (container (otherDeductions p) ++ [other_item (S (componentCounter p)) d])%list
    (JArr (collect other_entry
             (container (otherDeductions p) ++
              [other_item (S (componentCounter p)) d])%list)).
Proof. reflexivity. Qed.

Lemma added_income_section d p :
  incomeItems (addIncomeItem d p) =
  write_out
    (container (incomeItems p) ++ [income_item (S (componentCounter p)) d])%list
    (JArr (collect income_entry
             (container (incomeItems p) ++
              [income_item (S (componentCounter p)) d])%list)).
Proof. reflexivity. Qed.



Lemma basic_total_snoc_excluded l x :
  basic_included x = false -> basic_total (l ++ [x])%list = basic_total l.
Proof.
  intros H. unfold basic_total. rewrite basic_scan_app. simpl.
  rewrite H. reflexivity.
Qed.


Lemma remove_nth_last {A : Type} (l : list A) x :
  remove_nth (List.length l) (l ++ [x])%list = l.
Proof. induction l as [|y r IH]; simpl; [reflexivity|]. rewrite IH. reflexivity. Qed.

Lemma removed_basic_section i p :
  basicComponents (remove_basic_component i p) =
  write_out (map basic_preview (remove_nth i (container (basicComponents p))))
    (JObj (basic_components (remove_nth i (container (basicComponents p))))).
Proof. reflexivity. Qed.

Lemma removed_basic_text i p :
  totalPercentage_text (remove_basic_component i p) =
  toFixed2 (basic_total (remove_nth i (container (basicComponents p)))).
Proof. reflexivity. Qed.

Lemma removed_basic_class i p :
  totalPercentage_class (remove_basic_component i p) =
  percentage_class (basic_total (remove_nth i (container (basicComponents p)))).
Proof. reflexivity. Qed.

Lemma removed_allowance_section i p :
  allowances (remove_allowance i p) =
  write_out (remove_nth i (container (allowances p)))
    (JArr (collect allowance_entry (remove_nth i (container (allowances p))))).
Proof. reflexivity. Qed.

Lemma removed_relief_section i p :
  reliefs (remove_relief i p) =
  write_out (remove_nth i (container (reliefs p)))
    (JArr (collect relief_entry (remove_nth i (container (reliefs p))))).
Proof. reflexivity. Qed.

Lemma removed_bracket_section i p :
  taxBrackets (remove_tax_bracket i p) =
  write_out (remove_nth i (container (taxBrackets p)))
    (JArr (collect bracket_entry (remove_nth i (container (taxBrackets p))))).
Proof. reflexivity. Qed.

Lemma removed_statutory_section i p :
  statutoryDeductions (remove_statutory_deduction i p) =
  write_out (remove_nth i (container (statutoryDeductions p)))
    (JArr (collect statutory_entry
             (remove_nth i (container (statutoryDeductions p))))).
Proof. reflexivity. Qed.

Lemma removed_other_section i p :
  otherDeductions (remove_other_deduction i p) =
  write_out (remove_nth i (container (otherDeductions p)))
    (JArr (collect other_entry (remove_nth i (container (otherDeductions p))))).
Proof. reflexivity. Qed.

Lemma removed_income_section i p :
  incomeItems (remove_income_item i p) =
  write_out (remove_nth i (container (incomeItems p)))
    (JArr (collect income_entry (remove_nth i (container (incomeItems p))))).
Proof. reflexivity. Qed.

Lemma length_map_preview l :
  List.length (map basic_preview l) = List.length l.
Proof. apply length_map. Qed.

Lemma remove_added_basic d p :
  remove_basic_component (List.length (container (basicComponents p)))
    (addBasicComponent d p) =
  next_id (updateBasicComponentsJSON p).
Proof.
  assert (E : remove_nth (List.length (container (basicComponents p)))
                (container (basicComponents (addBasicComponent d p))) =
              map basic_preview (container (basicComponents p))).
  { rewrite added_basic_section. cbn [write_out container].
    rewrite map_app. cbn [map].
    rewrite <- (length_map_preview (container (basicComponents p))).
    apply remove_nth_last. }
  apply page_ext; try reflexivity.
  - rewrite removed_basic_section, E.
    change (basicComponents (next_id (updateBasicComponentsJSON p)))
      with (basicComponents (updateBasicComponentsJSON p)).
    rewrite updated_basic_section. apply write_out_preview.
  - rewrite removed_basic_text, E, basic_total_preview. reflexivity.
  - rewrite removed_basic_class, E, basic_total_preview. reflexivity.
Qed.

(** X4: clicking the remove button of the record that was just added
    undoes the addition: the page is the one that serializing the section
    alone gives, except that the identifier of the record is spent (the
    counter stays advanced).  This holds for the seven sections and for any
    data the record was added with. *)
Theorem removing_the_added_record (p : Page) (d : json) :
  remove_basic_component (List.length (container (basicComponents p)))
    (addBasicComponent d p) = next_id (updateBasicComponentsJSON p)
  /\ remove_allowance (List.length (container (allowances p)))
       (addAllowance d p) = next_id (updateAllowancesJSON p)
  /\ remove_relief (List.length (container (reliefs p)))
       (addRelief d p) = next_id (updateReliefsJSON p)
  /\ remove_tax_bracket (List.length (container (taxBrackets p)))
       (addTaxBracket d p) = next_id (updateTaxBracketsJSON p)
  /\ remove_statutory_deduction
       (List.length (container (statutoryDeductions p)))
       (addStatutoryDeduction d p) = next_id (updateStatutoryDeductionsJSON p)
  /\ remove_other_deduction (List.length (container (otherDeductions p)))
       (addOtherDeduction d p) = next_id (updateOtherDeductionsJSON p)
  /\ remove_income_item (List.length (container (incomeItems p)))
       (addIncomeItem d p) = next_id (updateIncomeItemsJSON p).
Proof.
  repeat apply conj.
  - apply remove_added_basic.
  - apply page_ext; try reflexivity.
    rewrite removed_allowance_section, added_allowance_section.
    cbn [write_out container]. rewrite remove_nth_last. reflexivity.
  - apply page_ext; try reflexivity.
    rewrite removed_relief_section, added_relief_section.
    cbn [write_out container]. rewrite remove_nth_last. reflexivity.
  - apply page_ext; try reflexivity.
    rewrite removed_bracket_section, added_bracket_section.
    cbn [write_out container]. rewrite remove_nth_last. reflexivity.
  - apply page_ext; try reflexivity.
    rewrite removed_statutory_section, added_statutory_section.
    cbn [write_out container]. rewrite remove_nth_last. reflexivity.
  - apply page_ext; try reflexivity.
    rewrite removed_other_section, added_other_section.
    cbn [write_out container]. rewrite remove_nth_last. reflexivity.
  - apply page_ext; try reflexivity.
    rewrite removed_income_section, added_income_section.
    cbn [write_out container]. rewrite remove_nth_last. reflexivity.
Qed.

Lemma append_associative (s t u : string) : (s ++ t) ++ u = s ++ (t ++ u).
Proof. induction s as [|a r IH]; simpl; [reflexivity|]. rewrite IH. reflexivity. Qed.

Lemma replace_char_app c by_text s t :
  replace_char c by_text (s ++ t) =
  replace_char c by_text s ++ replace_char c by_text t.
Proof.
  induction s as [|a r IH]; simpl; [reflexivity|].
  destruct (Ascii.eqb a c); simpl; rewrite IH; [|reflexivity].
  symmetry. apply append_associative.
Qed.

Lemma escape_text_app s t :
  escape_text (s ++ t) = escape_text s ++ escape_text t.
Proof. unfold escape_text. rewrite !replace_char_app. reflexivity. Qed.

Lemma escape_text_char a :
  escape_text (String a EmptyString) = escape_char a.
Proof.
  destruct a as [[] [] [] [] [] [] [] []]; reflexivity.
Qed.

Lemma escape_text_each s : escape_text s = escape_each s.
Proof.
  induction s as [|a r IH]; [reflexivity|].
  change (String a r) with (String a EmptyString ++ r).
  rewrite escape_text_app, escape_text_char, IH. reflexivity.
Qed.

(** X5: the five chained [replace] calls of [escapeHtml] escape every
    character on its own: no later replacement touches what an earlier one
    inserted (the ampersand comes first). *)
Theorem escape_is_characterwise (unsafe : option json) :
  escapeHtml unsafe =
  match unsafe with
  | None | Some JNull => EmptyString
  | Some v => escape_each (to_string v)
  end.
Proof.
  unfold escapeHtml.
  destruct unsafe as [v|]; [|reflexivity].
  destruct v; try apply escape_text_each. reflexivity.
Qed.

Lemma occurs_app c s t : occurs c (s ++ t) = occurs c s || occurs c t.
Proof.
  induction s as [|a r IH]; simpl; [reflexivity|].
  rewrite IH. apply orb_assoc.
Qed.

Lemma escape_char_clean a c :
  In c [less_than; greater_than; double_quote; apostrophe] ->
  occurs c (escape_char a) = false.
Proof.
  intros H.
  assert (N : c <> ampersand /\ (Ascii.eqb c less_than || Ascii.eqb c greater_than
              || Ascii.eqb c double_quote || Ascii.eqb c apostrophe) = true).
  { simpl in H. destruct H as [<-|[<-|[<-|[<-|[]]]]]; split; try discriminate;
      reflexivity. }
  destruct N as [_ N].
  unfold escape_char.
  destruct (Ascii.eqb_spec a ampersand) as [->|_].
  { simpl in H. destruct H as [<-|[<-|[<-|[<-|[]]]]]; reflexivity. }
  destruct (Ascii.eqb_spec a less_than) as [->|N1].
  { simpl in H. destruct H as [<-|[<-|[<-|[<-|[]]]]]; reflexivity. }
  destruct (Ascii.eqb_spec a greater_than) as [->|N2].
  { simpl in H. destruct H as [<-|[<-|[<-|[<-|[]]]]]; reflexivity. }
  destruct (Ascii.eqb_spec a double_quote) as [->|N3].
  { simpl in H. destruct H as [<-|[<-|[<-|[<-|[]]]]]; reflexivity. }
  destruct (Ascii.eqb_spec a apostrophe) as [->|N4].
  { simpl in H. destruct H as [<-|[<-|[<-|[<-|[]]]]]; reflexivity. }
  simpl. rewrite orb_false_r.
  simpl in H. destruct H as [<-|[<-|[<-|[<-|[]]]]];
    apply Ascii.eqb_neq; assumption.
Qed.

Lemma escape_each_clean s c :
  In c [less_than; greater_than; double_quote; apostrophe] ->
  occurs c (escape_each s) = false.
Proof.
  intros H. induction s as [|a r IH]; [reflexivity|].
  simpl. rewrite occurs_app, IH, (escape_char_clean a c H). reflexivity.
Qed.

Lemma unescape_char a r :
  unescape (escape_char a ++ r) = String a (unescape r).
Proof.
  destruct a as [[] [] [] [] [] [] [] []]; reflexivity.
Qed.

Lemma unescape_escape_each s : unescape (escape_each s) = s.
Proof.
  induction s as [|a r IH]; [reflexivity|].
  simpl escape_each. rewrite unescape_char, IH. reflexivity.
Qed.

(** X6: whatever [escapeHtml] is given, its result holds none of the
    characters that end an attribute value or open a tag: no [<], [>],
    double quote or apostrophe. *)
Theorem escapeHtml_leaves_no_markup (unsafe : option json) :
  Forall (fun c => occurs c (escapeHtml unsafe) = false)
    [less_than; greater_than; double_quote; apostrophe].
Proof.
  apply Forall_forall. intros c H.
  unfold escapeHtml.
  destruct unsafe as [v|]; [|reflexivity].
  destruct v; try reflexivity;
    rewrite escape_text_each; apply escape_each_clean; exact H.
Qed.

(** X7: [escapeHtml] loses nothing: two different texts are escaped to two
    different texts.  In particular a text that reads like a character
    reference is not escaped to the text that the character is escaped
    to. *)
Theorem escapeHtml_is_injective (s t : string) :
  s <> t -> escapeHtml (Some (JStr s)) <> escapeHtml (Some (JStr t)).
Proof.
  intros Hne H. apply Hne.
  unfold escapeHtml in H. cbn [to_string] in H.
  rewrite !escape_text_each in H.
  rewrite <- (unescape_escape_each s), <- (unescape_escape_each t), H.
  reflexivity.
Qed.

Lemma escapeHtml_is_injective_witness :
  escapeHtml (Some (JStr "a&lt;b")) <> escapeHtml (Some (JStr "a<b")).
Proof.
  apply (escapeHtml_is_injective "a&lt;b" "a<b"). discriminate.
Defined.

(** ** Locking *)

Ltac element_step :=
  cbn [el_id tagName el_type classList in_form disabled display disable hide
       existsb orb andb negb];
  match goal with
  | H : ?x = _ |- context [?x] => rewrite H
  | |- context [String.eqb ?ty "submit" ||
                String.eqb ?ty "button" &&
                negb (existsb (String.eqb "btn-danger") ?cl)] =>
      is_var ty; is_var cl;
      destruct (String.eqb ty "submit" ||
                String.eqb ty "button" &&
                negb (existsb (String.eqb "btn-danger") cl)) eqn:?
  | |- context [String.eqb ?t "input"] =>
      is_var t; destruct (String.eqb t "input") eqn:?
  | |- context [String.eqb ?t "select"] =>
      is_var t; destruct (String.eqb t "select") eqn:?
  | |- context [String.eqb ?t "textarea"] =>
      is_var t; destruct (String.eqb t "textarea") eqn:?
  | |- context [String.eqb ?t "button"] =>
      is_var t; destruct (String.eqb t "button") eqn:?
  | |- context [if ?b then _ else _] => is_var b; destruct b
  | |- context [?b && _] => is_var b; destruct b
  | |- context [?b || _] => is_var b; destruct b
  | |- context [existsb (String.eqb "remove-btn") ?cl] =>
      is_var cl; destruct (existsb (String.eqb "remove-btn") cl) eqn:?
  end.

Ltac element_cases e :=
  let i := fresh "i" in let t := fresh "t" in let ty := fresh "ty" in
  let cl := fresh "cl" in let inf := fresh "inf" in
  let dis := fresh "dis" in let disp := fresh "disp" in
  destruct e as [i t ty cl inf dis disp];
  unfold disable_control, form_control, kept_enabled, has_class;
  repeat element_step;
  cbn [el_id tagName el_type classList in_form disabled display disable hide
       existsb orb andb negb];
  try reflexivity.

Lemma ids_disable_by_id a doc :
  map el_id (disable_by_id a doc) = map el_id doc.
Proof.
  induction doc as [|e rest IH]; simpl; [reflexivity|].
  destruct (String.eqb (el_id e) a); simpl; [reflexivity|].
  rewrite IH. reflexivity.
Qed.

Lemma ids_before_disable_by_id a n doc :
  map el_id (firstn n (disable_by_id a doc)) = map el_id (firstn n doc).
Proof. rewrite <- !firstn_map, ids_disable_by_id. reflexivity. Qed.

Lemma nth_disable_by_id a doc n :
  nth_error (disable_by_id a doc) n =
  option_map
    (fun e =>
       if String.eqb (el_id e) a &&
          negb (existsb (String.eqb (el_id e)) (map el_id (firstn n doc)))
       then disable e else e)
    (nth_error doc n).
Proof.
  revert n. induction doc as [|e rest IH]; intros n.
  - destruct n; reflexivity.
  - cbn [disable_by_id]. destruct n as [|m].
    + cbn [nth_error firstn map existsb negb option_map].
      rewrite andb_true_r.
      destruct (String.eqb (el_id e) a); reflexivity.
    + cbn [firstn map existsb].
      destruct (String.eqb (el_id e) a) eqn:E.
      * cbn [nth_error]. destruct (nth_error rest m) as [x|]; [|reflexivity].
        cbn [option_map]. f_equal.
        destruct (String.eqb_spec (el_id x) a) as [Ex|_]; [|reflexivity].
        rewrite Ex, String.eqb_sym, E. reflexivity.
      * cbn [nth_error]. rewrite IH.
        destruct (nth_error rest m) as [x|]; [|reflexivity].
        cbn [option_map]. f_equal.
        destruct (String.eqb_spec (el_id x) a) as [Ex|_]; [|reflexivity].
        rewrite Ex, String.eqb_sym, E. reflexivity.
Qed.

Lemma nth_add_buttons ids doc n :
  nth_error (fold_left (fun d id => disable_by_id id d) ids doc) n =
  option_map
    (fun e =>
       if existsb (String.eqb (el_id e)) ids &&
          negb (existsb (String.eqb (el_id e)) (map el_id (firstn n doc)))
       then disable e else e)
    (nth_error doc n).
Proof.
  revert doc. induction ids as [|a ids IH]; intros doc.
  - cbn [fold_left existsb andb]. destruct (nth_error doc n); reflexivity.
  - cbn [fold_left]. rewrite IH, nth_disable_by_id, ids_before_disable_by_id.
    destruct (nth_error doc n) as [e|]; [|reflexivity].
    cbn [option_map existsb]. f_equal.
    destruct (existsb (String.eqb (el_id e)) (map el_id (firstn n doc)))
      eqn:B;
      destruct (String.eqb (el_id e) a); cbn [andb orb negb];
      change (el_id (disable e)) with (el_id e); rewrite ?B;
      cbn [andb orb negb]; rewrite ?andb_false_r;
      destruct (existsb (String.eqb (el_id e)) ids); reflexivity.
Qed.

Lemma nth_disableEditing doc n :
  nth_error (disableEditing doc) n =
  option_map
    (fun e =>
       (fun e => if has_class "remove-btn" e then hide e else e)
         ((fun e => if form_control e then disable_control e else e)
            (if existsb (String.eqb (el_id e)) add_buttons &&
                negb (existsb (String.eqb (el_id e))
                        (map el_id (firstn n doc)))
             then disable e else e)))
    (nth_error doc n).
Proof.
  unfold disableEditing. rewrite !nth_error_map, nth_add_buttons.
  destruct (nth_error doc n); reflexivity.
Qed.

Lemma locked_element_identity e (c : bool) :
  identity
    ((fun e => if has_class "remove-btn" e then hide e else e)
       ((fun e => if form_control e then disable_control e else e)
          (if c then disable e else e))) = identity e.
Proof. cbv beta. unfold identity. destruct c; element_cases e. Qed.

Lemma locked_element_disabled e (c : bool) :
  disabled
    ((fun e => if has_class "remove-btn" e then hide e else e)
       ((fun e => if form_control e then disable_control e else e)
          (if c then disable e else e))) =
  disabled e || c || (form_control e && negb (kept_enabled e)).
Proof. cbv beta. destruct c; element_cases e. Qed.

Lemma locked_element_display e (c : bool) :
  display
    ((fun e => if has_class "remove-btn" e then hide e else e)
       ((fun e => if form_control e then disable_control e else e)
          (if c then disable e else e))) =
  if has_class "remove-btn" e then "none" else display e.
Proof. cbv beta. destruct c; element_cases e. Qed.

Lemma has_text x l : existsb (String.eqb x) l = true <-> In x l.
Proof.
  rewrite existsb_exists. split.
  - intros (y & Hy & E). apply String.eqb_eq in E. subst. exact Hy.
  - intros H. exists x. split; [exact H|apply String.eqb_refl].
Qed.

Lemma to_disable_test e :
  to_disable e <-> form_control e && negb (kept_enabled e) = true.
Proof.
  unfold to_disable, form_control, kept_enabled, has_class.
  rewrite !andb_true_iff, negb_true_iff, orb_false_iff, andb_false_iff,
    negb_false_iff, has_text, String.eqb_neq.
  split.
  - intros (Hf & Ht & Hs & Hb). repeat split; try assumption.
    destruct (String.eqb_spec (el_type e) "button") as [E|_];
      [right; apply has_text, Hb, E|left; reflexivity].
  - intros ((Hf & Ht) & Hs & Hb). repeat split; try assumption.
    intros E. destruct Hb as [Hb|Hb]; [|apply has_text, Hb].
    apply String.eqb_neq in Hb. contradiction.
Qed.

(** X8: what [disableEditing] does to each element of the document.  No
    element is added or removed and none changes its identifier, tag, type,
    classes or place.  An element has the [disabled] attribute afterwards
    exactly when it had it before, or it is the first element with the
    identifier of one of the seven add buttons, or it is an input, select,
    textarea or button of the form whose type is not [submit] and, when it
    is [button], that has the class [btn-danger] (the hidden inputs are
    among them).  Exactly the elements of class [remove-btn] are hidden. *)
Theorem disableEditing_locks_the_controls (doc : list Element) :
  List.length (disableEditing doc) = List.length doc /\
  forall (n : nat) (e : Element),
    nth_error doc n = Some e ->
    exists e',
      nth_error (disableEditing doc) n = Some e' /\ locked_at doc n e e'.
Proof.
  split.
  - unfold disableEditing. rewrite !length_map.
    generalize add_buttons. intros ids. revert doc.
    induction ids as [|a ids IH]; intros doc; [reflexivity|].
    cbn [fold_left]. rewrite IH, <- (length_map el_id), ids_disable_by_id.
    apply length_map.
  - intros n e H. rewrite nth_disableEditing, H. cbn [option_map].
    eexists. split; [reflexivity|].
    unfold locked_at.
    rewrite locked_element_identity, locked_element_disabled,
      locked_element_display.
    split; [reflexivity|]. split; [|split].
    + assert (F : existsb (String.eqb (el_id e))
                    (map el_id (firstn n doc)) = false <->
                  first_of_its_id doc n e).
      { unfold first_of_its_id. rewrite <- has_text.
        destruct (existsb (String.eqb (el_id e)) (map el_id (firstn n doc)));
          split; congruence. }
      rewrite !orb_true_iff, andb_true_iff, negb_true_iff, has_text, F,
        <- to_disable_test.
      tauto.
    + intros Hr. apply has_text in Hr. unfold has_class. rewrite Hr.
      reflexivity.
    + intros Hr. unfold has_class.
      destruct (existsb (String.eqb "remove-btn") (classList e)) eqn:E;
        [|reflexivity].
      apply has_text in E. contradiction.
Qed.

Lemma disableEditing_locks_the_controls_witness :
  (exists e',
     nth_error (disableEditing locked_document) 0 = Some e' /\
     disabled e' = true)
  /\ map disabled (disableEditing locked_document) =
     [true; false; true; true; false; false; false]
  /\ map display (disableEditing locked_document) =
     [""; ""; ""; "none"; ""; ""; ""].
Proof.
  destruct (disableEditing_locks_the_controls locked_document) as [_ H].
  destruct (H 0%nat add_allowance_button eq_refl) as (e' & E & _ & [_ D] & _).
  split.
  - exists e'. split; [exact E|]. apply D. right. left. split.
    + simpl. tauto.
    + unfold first_of_its_id. simpl. tauto.
  - split; vm_compute; reflexivity.
Defined.

Lemma disable_by_id_twice a doc :
  disable_by_id a (disable_by_id a doc) = disable_by_id a doc.
Proof.
  induction doc as [|e rest IH]; simpl; [reflexivity|].
  destruct (String.eqb (el_id e) a) eqn:E; simpl.
  - change (el_id (disable e)) with (el_id e). rewrite E. reflexivity.
  - rewrite E, IH. reflexivity.
Qed.

Lemma disable_by_id_swap a b doc :
  disable_by_id a (disable_by_id b doc) =
  disable_by_id b (disable_by_id a doc).
Proof.
  induction doc as [|e rest IH]; simpl; [reflexivity|].
  destruct (String.eqb (el_id e) b) eqn:B,
           (String.eqb (el_id e) a) eqn:A; simpl;
    try change (el_id (disable e)) with (el_id e);
    rewrite ?A, ?B, ?IH; reflexivity.
Qed.

Lemma add_buttons_swap a ids doc :
  fold_left (fun d id => disable_by_id id d) ids (disable_by_id a doc) =
  disable_by_id a (fold_left (fun d id => disable_by_id id d) ids doc).
Proof.
  revert doc. induction ids as [|b ids IH]; intros doc; simpl; [reflexivity|].
  rewrite disable_by_id_swap. apply IH.
Qed.

Lemma add_buttons_twice ids doc :
  fold_left (fun d id => disable_by_id id d) ids
    (fold_left (fun d id => disable_by_id id d) ids doc) =
  fold_left (fun d id => disable_by_id id d) ids doc.
Proof.
  revert doc. induction ids as [|a ids IH]; intros doc; simpl; [reflexivity|].
  rewrite !add_buttons_swap, IH, disable_by_id_twice. reflexivity.
Qed.

Lemma disable_by_id_map (f : Element -> Element) a doc :
  (forall e, el_id (f e) = el_id e) ->
  (forall e, f (disable e) = disable (f e)) ->
  disable_by_id a (map f doc) = map f (disable_by_id a doc).
Proof.
  intros I D. induction doc as [|e rest IH]; simpl; [reflexivity|].
  rewrite I. destruct (String.eqb (el_id e) a); simpl.
  - rewrite D. reflexivity.
  - rewrite IH. reflexivity.
Qed.

Lemma add_buttons_map (f : Element -> Element) ids doc :
  (forall e, el_id (f e) = el_id e) ->
  (forall e, f (disable e) = disable (f e)) ->
  fold_left (fun d id => disable_by_id id d) ids (map f doc) =
  map f (fold_left (fun d id => disable_by_id id d) ids doc).
Proof.
  intros I D. revert doc.
  induction ids as [|a ids IH]; intros doc; simpl; [reflexivity|].
  rewrite (disable_by_id_map f a doc I D). apply IH.
Qed.

Lemma lock_control_id e :
  el_id (if form_control e then disable_control e else e) = el_id e.
Proof. element_cases e. Qed.

Lemma lock_control_disable e :
  (fun e => if form_control e then disable_control e else e) (disable e) =
  disable ((fun e => if form_control e then disable_control e else e) e).
Proof. cbv beta. element_cases e. Qed.

Lemma hide_button_id e :
  el_id (if has_class "remove-btn" e then hide e else e) = el_id e.
Proof. element_cases e. Qed.

Lemma hide_button_disable e :
  (fun e => if has_class "remove-btn" e then hide e else e) (disable e) =
  disable ((fun e => if has_class "remove-btn" e then hide e else e) e).
Proof. cbv beta. element_cases e. Qed.

Lemma lock_element_twice e :
  (fun e => if has_class "remove-btn" e then hide e else e)
    ((fun e => if form_control e then disable_control e else e)
       ((fun e => if has_class "remove-btn" e then hide e else e)
          ((fun e => if form_control e then disable_control e else e) e))) =
  (fun e => if has_class "remove-btn" e then hide e else e)
    ((fun e => if form_control e then disable_control e else e) e).
Proof. cbv beta. element_cases e. Qed.

(** X9: calling [disableEditing] on a document that it has already locked
    changes nothing. *)
Theorem disableEditing_idempotent (doc : list Element) :
  disableEditing (disableEditing doc) = disableEditing doc.
Proof.
  unfold disableEditing.
  rewrite (add_buttons_map _ add_buttons _ hide_button_id hide_button_disable).
  rewrite (add_buttons_map _ add_buttons _ lock_control_id
             lock_control_disable).
  rewrite add_buttons_twice.
  generalize (fold_left (fun d id => disable_by_id id d) add_buttons doc).
  intros l. rewrite !map_map. apply map_ext. intros e.
  apply lock_element_twice.
Qed.

Lemma is_string_exclusive v a b :
  is_string v a = true -> is_string v b = true -> a = b.
Proof.
  destruct v as [[| | |s| |]|]; simpl; try discriminate.
  intros A B. apply String.eqb_eq in A, B. congruence.
Qed.

(** X10: the template of an allowance or of a relief shows the field groups
    that the [change] listener of its type select would show for the value
    the select holds: running the first two statements of the listener on
    a record that was just rendered changes nothing.  This is for data
    that the template renders as modelled: fields that convert to a text,
    and number fields that bring no markup. *)
Theorem rendered_fields_agree_with_listener (id : nat) (data : json) :
  plain_record data = true ->
  toggle_allowance_fields (allowance_item id data) = allowance_item id data /\
  toggle_relief_fields (relief_item id data) = relief_item id data.
Proof.
  intros _. split.
  - unfold toggle_allowance_fields, allowance_item.
    cbn [allow_id allow_name allow_calc_type allow_active allow_annual
         allow_percentage allow_based_on allow_fixed_amount
         allow_percentage_fields allow_fixed_fields].
    destruct (is_string (get "calculation_type" data) "percentage") eqn:P,
             (is_string (get "calculation_type" data) "fixed") eqn:F;
      reflexivity.
  - unfold toggle_relief_fields, relief_item.
    cbn [relief_id relief_name relief_formula_type relief_active
         relief_percentage relief_based_on relief_fixed_amount
         relief_percentage_fields relief_fixed_fields].
    destruct (is_string (get "formula_type" data) "percentage_plus_fixed")
      eqn:B,
      (is_string (get "formula_type" data) "percentage") eqn:P,
      (is_string (get "formula_type" data) "fixed") eqn:F;
      try reflexivity;
      try (pose proof (is_string_exclusive _ _ _ P F); discriminate);
      try (pose proof (is_string_exclusive _ _ _ B F); discriminate);
      try (pose proof (is_string_exclusive _ _ _ B P); discriminate).
Qed.

Lemma rendered_fields_agree_with_listener_witness :
  toggle_allowance_fields (allowance_item 1 transport_data) =
    allowance_item 1 transport_data
  /\ allow_calc_type (allowance_item 1 transport_data) = "fixed"
  /\ allow_percentage_fields (allowance_item 1 transport_data) = "none"
  /\ allow_fixed_fields (allowance_item 1 transport_data) = "block".
Proof.
  destruct (rendered_fields_agree_with_listener 1 transport_data) as [H _];
    [vm_compute; reflexivity|].
  split; [exact H|]. repeat split.
Defined.

(** X11: the [change] listener of the hidden fields never reads the text
    that was put in the field.  A text pasted in the field of the basic
    components, of the allowances or of the reliefs is overwritten from the
    records on the page; a text pasted in one of the other four fields
    stays in it, although the page shows other records. *)
Theorem pasted_text_is_not_read (p : Page) (text : string) :
  on_hidden_change (with_basicComponents p (paste text (basicComponents p))) =
    on_hidden_change p /\
  on_hidden_change (with_allowances p (paste text (allowances p))) =
    on_hidden_change p /\
  on_hidden_change (with_reliefs p (paste text (reliefs p))) =
    on_hidden_change p /\
  taxBrackets
    (on_hidden_change (with_taxBrackets p (paste text (taxBrackets p)))) =
    paste text (taxBrackets p) /\
  statutoryDeductions
    (on_hidden_change
       (with_statutoryDeductions p (paste text (statutoryDeductions p)))) =
    paste text (statutoryDeductions p) /\
  otherDeductions
    (on_hidden_change (with_otherDeductions p (paste text (otherDeductions p))))
    = paste text (otherDeductions p) /\
  incomeItems
    (on_hidden_change (with_incomeItems p (paste text (incomeItems p)))) =
    paste text (incomeItems p).
Proof.
  repeat apply conj; try reflexivity; apply page_ext; reflexivity.
Qed.

(** ** The warnings of a load *)

Lemma add_components_until_null values p :
  add_components values p =
  (fold_left (fun q comp => addBasicComponent (component_data comp) q)
     (before_null values) p,
   negb (has_null values)).
Proof.
  revert p. induction values as [|v r IH]; intros p; [reflexivity|].
  destruct v; try reflexivity; cbn [add_components before_null has_null existsb
    orb fold_left]; apply IH.
Qed.

Lemma fold_components_frame {T : Type} (f : Page -> T) values p :
  (forall d q, f (addBasicComponent d q) = f q) ->
  f (fold_left (fun q comp => addBasicComponent (component_data comp) q)
       values p) = f p.
Proof.
  intros H. revert p. induction values as [|v r IH]; intros p; simpl.
  - reflexivity.
  - rewrite IH. apply H.
Qed.

Lemma load_array_console message value add edit p :
  (forall d q, console (add d q) = console q) ->
  console (load_array message value add edit p) =
  ((if array_load_fails value then [message] else []) ++ console p)%list.
Proof.
  intros H. unfold load_array, array_load_fails.
  destruct (Json.parse (or_else value "[]")) as [[| | | |[|first rest]|]|];
    try (destruct edit; rewrite ?H; reflexivity).
  apply (fold_add_frame console add (first :: rest) p H).
Qed.

Lemma load_basic_console edit p :
  console (load_basic_components edit p) =
  ((if basic_load_fails (hidden (basicComponents p))
    then ["Failed to parse basic components JSON"] else []) ++ console p)%list.
Proof.
  unfold load_basic_components, basic_load_fails.
  destruct (Json.parse _) as [v|]; [|destruct edit; reflexivity].
  destruct (object_values v) as [[|first rest]|];
    try (destruct edit; reflexivity).
  rewrite add_components_until_null.
  destruct (has_null (first :: rest)); cbn [negb app].
  - destruct edit;
      [change (console (warn ?m ?q)) with (m :: console q)
      |change (console (addBasicComponent ?d (warn ?m ?q)))
         with (m :: console q)];
      rewrite (fold_components_frame console) by reflexivity; reflexivity.
  - apply (fold_components_frame console). reflexivity.
Qed.

Ltac untouched sec q :=
  repeat (rewrite (load_array_frame sec) by frame);
  rewrite ?(load_basic_frame sec) by frame; reflexivity.

Ltac array_warning sec q :=
  rewrite load_array_console by frame;
  match goal with
  | |- context [array_load_fails (hidden (sec ?p))] =>
      let F := fresh "F" in
      assert (F : sec p = sec (clear_containers q)) by untouched sec q;
      rewrite F; clear F
  end.

(** X12: [loadExistingData] warns once for each hidden field whose [try]
    block ends in its [catch], in the order of the sections, and for
    nothing else: for an array section when the text is not JSON; for the
    basic components also when the text is [null] or one of the values is
    [null].  This is for hidden fields within the model: no escape of a
    character above U+00FF, and records that the templates render without
    throwing and without markup of their own. *)
Theorem load_warns_for_each_failure (q : Page) :
  plain_fields q = true ->
  console (loadExistingData q) = (load_warnings q ++ console q)%list.
Proof.
  intros _.
  unfold loadExistingData. cbv zeta.
  unfold load_income_items, load_other_deductions, load_statutory_deductions,
    load_tax_brackets, load_reliefs, load_allowances.
  array_warning incomeItems q.
  array_warning otherDeductions q.
  array_warning statutoryDeductions q.
  array_warning taxBrackets q.
  array_warning reliefs q.
  array_warning allowances q.
  rewrite load_basic_console.
  unfold load_warnings. rewrite <- !app_assoc. reflexivity.
Qed.

Lemma load_warns_for_each_failure_witness :
  console (loadExistingData page_with_bad_fields) =
  ["Failed to parse income items JSON"; "Failed to parse allowances JSON";
   "Failed to parse basic components JSON"].
Proof.
  rewrite (load_warns_for_each_failure page_with_bad_fields);
    vm_compute; reflexivity.
Defined.

(** ** A [null] among the basic components *)

Lemma parsed_object_edit q kv r :
  Json.parse (hidden (basicComponents q)) = Some (JObj (kv :: r)) ->
  isEditMode q = true.
Proof.
  unfold isEditMode. cbv zeta.
  destruct (hidden (basicComponents q)) as [|c s] eqn:E; [discriminate|].
  intros H. cbn [Str.nonempty andb].
  destruct (String.eqb_spec (String c s) "{}") as [E'|_]; [|reflexivity].
  rewrite E' in H. vm_compute in H. discriminate.
Qed.

(** X13: a [null] among the values of the basic components object stops
    the load of the section: the components before it are on the page, the
    components after it are not, although they are well formed.  This is
    for values before the [null] that the template renders as modelled:
    fields that convert to a text, and percentages that bring no markup. *)
Theorem null_component_stops_the_load (q : Page) (o : object) :
  Json.parse (hidden (basicComponents q)) = Some (JObj o) ->
  has_null (map snd o) = true ->
  forallb plain_record (before_null (map snd o)) = true ->
  exists l,
    map entered (container (basicComponents (loadExistingData q))) =
      map entered l /\
    made_from basic_item l (map component_data (before_null (map snd o))).
Proof.
  intros Hparse Hnull _.
  rewrite loaded_basic_section. unfold load_basic_components.
  change (hidden (basicComponents (clear_containers q)))
    with (hidden (basicComponents q)).
  rewrite (or_else_parsed _ _ _ Hparse), Hparse.
  cbn [object_values].
  destruct o as [|kv r]; [discriminate|].
  rewrite (parsed_object_edit q kv r Hparse).
  rewrite add_components_until_null, Hnull. cbn [negb].
  destruct (fold_addBasic_entered (before_null (map snd (kv :: r)))
              (clear_containers q)) as (l & E & M).
  exists l. split; [|exact M].
  cbn [map] in *.
  change (basicComponents (warn ?m ?p)) with (basicComponents p).
  exact E.
Qed.

Lemma null_component_stops_the_load_witness :
  (exists l,
     map entered
       (container
          (basicComponents (loadExistingData page_with_null_component)))
       = map entered l /\
     made_from basic_item l
       (map component_data
          (before_null (map snd components_with_null))))
  /\ map entered
       (container (basicComponents (loadExistingData page_with_null_component)))
     = [(1%nat, "Basic", "B", "60")].
Proof.
  split.
  - apply (null_component_stops_the_load page_with_null_component
             components_with_null); vm_compute; reflexivity.
  - vm_compute. reflexivity.
Defined.

(** ** The hidden fields after a load *)

Lemma fold_add_written (W : Page -> Prop) (add : json -> Page -> Page)
  first rest p :
  (forall d q, W (add d q)) ->
  W (fold_left (fun q record => add record q) (first :: rest) p).
Proof.
  intros H. revert first p.
  induction rest as [|d r IH]; intros first p; [apply H|].
  change (fold_left (fun q record => add record q) (first :: d :: r) p)
    with (fold_left (fun q record => add record q) (d :: r) (add first p)).
  apply IH.
Qed.

Lemma load_array_settled {I : Type} (sec : Page -> Section I)
  (canon : Page -> json) message value add edit p :
  (forall d q,
     hidden (sec (add d q)) = stringify (canon (add d q)) /\
     has_items (sec (add d q)) =
       match container (sec (add d q)) with [] => false | _ => true end) ->
  (forall m q, sec (warn m q) = sec q) ->
  container (sec p) = [] ->
  settled (sec p) (sec (load_array message value add edit p))
    (canon (load_array message value add edit p)).
Proof.
  intros Hadd Hwarn Hp. unfold load_array, settled.
  destruct (Json.parse (or_else value "[]")) as [[| | | |[|first rest]|]|];
    try (destruct edit;
         [right; rewrite ?Hwarn; repeat split; [exact Hp]
         |left; apply Hadd]).
  left.
  apply (fold_add_written
           (fun q => hidden (sec q) = stringify (canon q) /\
                     has_items (sec q) =
                       match container (sec q) with
                       | [] => false
                       | _ => true
                       end) add first rest p Hadd).
Qed.

Lemma basic_components_preview items :
  basic_components (map basic_preview items) = basic_components items.
Proof. unfold basic_components. rewrite basic_scan_preview. reflexivity. Qed.

Lemma added_basic_written d q :
  hidden (basicComponents (addBasicComponent d q)) =
    stringify (canonical_basic (addBasicComponent d q)) /\
  has_items (basicComponents (addBasicComponent d q)) =
    match container (basicComponents (addBasicComponent d q)) with
    | [] => false
    | _ => true
    end.
Proof.
  unfold canonical_basic. rewrite added_basic_section.
  cbn [write_out hidden container has_items].
  rewrite basic_components_preview. split; reflexivity.
Qed.

Lemma fold_components_written first rest p :
  let p' :=
    fold_left (fun q comp => addBasicComponent (component_data comp) q)
      (first :: rest) p in
  hidden (basicComponents p') = stringify (canonical_basic p') /\
  has_items (basicComponents p') =
    match container (basicComponents p') with [] => false | _ => true end.
Proof.
  cbv zeta. revert first p.
  induction rest as [|d r IH]; intros first p; [apply added_basic_written|].
  cbn [fold_left] in *. apply IH.
Qed.

Lemma load_basic_settled edit p :
  container (basicComponents p) = [] ->
  settled (basicComponents p) (basicComponents (load_basic_components edit p))
    (canonical_basic (load_basic_components edit p)).
Proof.
  intros Hp. unfold load_basic_components, settled.
  destruct (Json.parse _) as [v|];
    [|destruct edit; [right; repeat split; exact Hp
                     |left; apply added_basic_written]].
  destruct (object_values v) as [[|first rest]|];
    try (destruct edit; [right; repeat split; exact Hp
                        |left; apply added_basic_written]).
  rewrite add_components_until_null.
  destruct (before_null (first :: rest)) as [|b r] eqn:B.
  - cbn [fold_left].
    destruct (negb (has_null (first :: rest)));
      [right; repeat split; exact Hp|].
    destruct edit; [right; repeat split; exact Hp
                   |left; apply added_basic_written].
  - destruct (negb (has_null (first :: rest)));
      [left; apply (fold_components_written b r p)|].
    destruct edit; [|left; apply added_basic_written].
    left.
    change (basicComponents (warn ?m ?q)) with (basicComponents q).
    change (canonical_basic (warn ?m ?q)) with (canonical_basic q).
    apply (fold_components_written b r p).
Qed.

Ltac array_settled sec canon q :=
  unfold canon, loadExistingData; cbv zeta;
  unfold load_income_items, load_other_deductions, load_statutory_deductions,
    load_tax_brackets, load_reliefs, load_allowances;
  repeat (rewrite (load_array_frame sec) by frame);
  match goal with
  | |- context [sec (load_array ?m (hidden (sec ?p)) ?a ?e ?p)] =>
      let p0 := fresh "p0" in
      let Hp0 := fresh "Hp0" in
      let F := fresh "F" in
      let S := fresh "S" in
      remember p as p0 eqn:Hp0;
      assert (F : sec p0 = sec (clear_containers q))
        by (rewrite Hp0; untouched sec q);
      pose proof (load_array_settled sec canon m (hidden (sec p0)) a e p0) as S;
      unfold canon in S;
      specialize (S ltac:(intros; split; reflexivity) ltac:(frame));
      rewrite F in S; specialize (S eq_refl);
      rewrite F; exact S
  end.

(** X14: after [loadExistingData] each hidden field holds the
    serialization of the records its section shows and the class
    [has-items] of the container tells whether it has a record, unless the
    section was left without a record (edit mode, and a field that holds no
    record): then the field has the text it had, JSON or not, and the
    container the class it had. *)
Theorem load_settles_each_section (q : Page) :
  settled (basicComponents q) (basicComponents (loadExistingData q))
    (canonical_basic (loadExistingData q)) /\
  settled (allowances q) (allowances (loadExistingData q))
    (canonical_allowances (loadExistingData q)) /\
  settled (reliefs q) (reliefs (loadExistingData q))
    (canonical_reliefs (loadExistingData q)) /\
  settled (taxBrackets q) (taxBrackets (loadExistingData q))
    (canonical_brackets (loadExistingData q)) /\
  settled (statutoryDeductions q) (statutoryDeductions (loadExistingData q))
    (canonical_statutory (loadExistingData q)) /\
  settled (otherDeductions q) (otherDeductions (loadExistingData q))
    (canonical_others (loadExistingData q)) /\
  settled (incomeItems q) (incomeItems (loadExistingData q))
    (canonical_income (loadExistingData q)).
Proof.
  repeat apply conj.
  - unfold canonical_basic. rewrite loaded_basic_section.
    exact (load_basic_settled (isEditMode q) (clear_containers q) eq_refl).
  - array_settled allowances canonical_allowances q.
  - array_settled reliefs canonical_reliefs q.
  - array_settled taxBrackets canonical_brackets q.
  - array_settled statutoryDeductions canonical_statutory q.
  - array_settled otherDeductions canonical_others q.
  - array_settled incomeItems canonical_income q.
Qed.

(** ** Invariants of a load *)

Lemma fold_add_invariant (Inv : Page -> Prop) (add : json -> Page -> Page)
  records p :
  (forall d q, Inv q -> Inv (add d q)) ->
  Inv p -> Inv (fold_left (fun q record => add record q) records p).
Proof.
  intros H. revert p. induction records as [|d r IH]; intros p Hp; simpl.
  - exact Hp.
  - apply IH, H, Hp.
Qed.

Lemma load_array_invariant (Inv : Page -> Prop) message value add edit p :
  (forall d q, Inv q -> Inv (add d q)) ->
  (forall m q, Inv q -> Inv (warn m q)) ->
  Inv p -> Inv (load_array message value add edit p).
Proof.
  intros Hadd Hwarn Hp. unfold load_array.
  destruct (Json.parse (or_else value "[]")) as [[| | | |[|first rest]|]|];
    try solve [destruct edit; auto].
  apply (fold_add_invariant Inv add (first :: rest) p Hadd Hp).
Qed.

Lemma load_basic_invariant (Inv : Page -> Prop) edit p :
  (forall d q, Inv q -> Inv (addBasicComponent d q)) ->
  (forall m q, Inv q -> Inv (warn m q)) ->
  Inv p -> Inv (load_basic_components edit p).
Proof.
  intros Hadd Hwarn Hp. unfold load_basic_components.
  destruct (Json.parse _) as [v|]; [|solve [destruct edit; auto]].
  destruct (object_values v) as [[|first rest]|];
    try solve [destruct edit; auto].
  rewrite add_components_until_null.
  assert (H : Inv (fold_left
                     (fun q comp => addBasicComponent (component_data comp) q)
                     (before_null (first :: rest)) p)).
  { apply (fold_add_invariant Inv
             (fun d q => addBasicComponent (component_data d) q)).
    - intros d q. apply Hadd.
    - exact Hp. }
  destruct (negb (has_null (first :: rest))); [exact H|].
  destruct edit; auto.
Qed.

Lemma load_invariant (Inv : Page -> Prop) q :
  (forall d p, Inv p -> Inv (addBasicComponent d p)) ->
  (forall d p, Inv p -> Inv (addAllowance d p)) ->
  (forall d p, Inv p -> Inv (addRelief d p)) ->
  (forall d p, Inv p -> Inv (addTaxBracket d p)) ->
  (forall d p, Inv p -> Inv (addStatutoryDeduction d p)) ->
  (forall d p, Inv p -> Inv (addOtherDeduction d p)) ->
  (forall d p, Inv p -> Inv (addIncomeItem d p)) ->
  (forall m p, Inv p -> Inv (warn m p)) ->
  Inv (clear_containers q) -> Inv (loadExistingData q).
Proof.
  intros H1 H2 H3 H4 H5 H6 H7 Hw H.
  unfold loadExistingData. cbv zeta.
  unfold load_income_items, load_other_deductions, load_statutory_deductions,
    load_tax_brackets, load_reliefs, load_allowances.
  repeat (apply load_array_invariant; [assumption|assumption|]).
  apply load_basic_invariant; assumption.
Qed.

(** ** The inputs after a load *)

Lemma strip_newlines_twice s :
  strip_newlines (strip_newlines s) = strip_newlines s.
Proof.
  induction s as [|c r IH]; [reflexivity|].
  simpl. destruct ((Str.code c =? 10) || (Str.code c =? 13)) eqn:E;
    [exact IH|].
  simpl. rewrite E, IH. reflexivity.
Qed.

Lemma text_value_single_line v d : single_line (text_value v d).
Proof. apply strip_newlines_twice. Qed.

Lemma sanitize_number_twice s :
  sanitize_number (sanitize_number s) = sanitize_number s.
Proof.
  unfold sanitize_number.
  destruct (valid_floating_point_number s && isFinite (parseFloat s)) eqn:E.
  - rewrite E. reflexivity.
  - reflexivity.
Qed.

Lemma number_value_numeric v d : numeric (number_value v d).
Proof. apply sanitize_number_twice. Qed.

Lemma numeric_not_infinite s :
  numeric s -> is_infinite (parseFloat s) = false.
Proof.
  unfold numeric, sanitize_number.
  destruct (valid_floating_point_number s && isFinite (parseFloat s)) eqn:E.
  - intros _. apply andb_prop in E. destruct E as [_ E].
    destruct (parseFloat s); try discriminate; reflexivity.
  - intros <-. reflexivity.
Qed.

Lemma well_formed_basic_item id d :
  single_line (comp_name (basic_item id d)) /\
  single_line (comp_code (basic_item id d)) /\
  numeric (comp_percentage (basic_item id d)).
Proof.
  repeat apply conj;
    first [apply text_value_single_line | apply number_value_numeric].
Qed.

Lemma well_formed_allowance_item id d :
  single_line (allow_name (allowance_item id d)) /\
  single_line (allow_based_on (allowance_item id d)) /\
  numeric (allow_percentage (allowance_item id d)) /\
  numeric (allow_fixed_amount (allowance_item id d)) /\
  In (allow_calc_type (allowance_item id d)) ["percentage"; "fixed"].
Proof.
  repeat apply conj;
    try first [apply text_value_single_line | apply number_value_numeric].
  unfold allowance_item. cbn [allow_calc_type].
  destruct (is_string (get "calculation_type" d) "percentage"),
           (is_string (get "calculation_type" d) "fixed");
    cbn; auto.
Qed.

Lemma well_formed_relief_item id d :
  single_line (relief_name (relief_item id d)) /\
  single_line (relief_based_on (relief_item id d)) /\
  numeric (relief_percentage (relief_item id d)) /\
  numeric (relief_fixed_amount (relief_item id d)) /\
  In (relief_formula_type (relief_item id d))
    ["percentage_plus_fixed"; "percentage"; "fixed"].
Proof.
  repeat apply conj;
    try first [apply text_value_single_line | apply number_value_numeric].
  unfold relief_item. cbn [relief_formula_type].
  destruct (is_string (get "formula_type" d) "percentage_plus_fixed"),
           (is_string (get "formula_type" d) "percentage"),
           (is_string (get "formula_type" d) "fixed");
    cbn; auto.
Qed.

Lemma well_formed_bracket_item id d :
  numeric (bracket_limit (bracket_item id d)) /\
  numeric (bracket_rate (bracket_item id d)).
Proof. split; apply number_value_numeric. Qed.

Lemma well_formed_statutory_item id d :
  single_line (stat_name (statutory_item id d)) /\
  single_line (stat_based_on (statutory_item id d)) /\
  numeric (stat_percentage (statutory_item id d)).
Proof.
  repeat apply conj;
    first [apply text_value_single_line | apply number_value_numeric].
Qed.

Lemma display_rule_is_an_option d :
  In (select_value (display_rule_options d)) ["show_if_filled"; "always_show"].
Proof.
  unfold display_rule_options.
  destruct (is_string (get "display_rule" d) "show_if_filled"),
           (is_string (get "display_rule" d) "always_show"); cbn; auto.
Qed.

Lemma well_formed_other_item id d :
  single_line (other_name (other_item id d)) /\
  numeric (other_order (other_item id d)) /\
  In (other_display_rule (other_item id d))
    ["show_if_filled"; "always_show"] /\
  In (other_linked_to (other_item id d)) [""; "staff_loan"; "salary_advance"].
Proof.
  repeat apply conj;
    try first [apply text_value_single_line | apply number_value_numeric
              | apply display_rule_is_an_option].
  unfold other_item. cbn [other_linked_to].
  destruct (negb (truthy (get "linked_to" d))),
           (is_string (get "linked_to" d) "staff_loan"),
           (is_string (get "linked_to" d) "salary_advance"); cbn; auto.
Qed.

Lemma well_formed_income_item id d :
  single_line (income_name (income_item id d)) /\
  numeric (income_order (income_item id d)) /\
  In (income_display_rule (income_item id d))
    ["show_if_filled"; "always_show"].
Proof.
  repeat apply conj;
    try first [apply text_value_single_line | apply number_value_numeric
              | apply display_rule_is_an_option].
Qed.

Lemma Forall_snoc {A : Type} (P : A -> Prop) l x :
  Forall P l -> P x -> Forall P (l ++ [x])%list.
Proof.
  intros H Hx. apply Forall_app. split; [exact H|].
  constructor; [exact Hx|constructor].
Qed.

Ltac keeps_inputs section_lemma item_lemma :=
  intros d p (H1 & H2 & H3 & H4 & H5 & H6 & H7);
  unfold well_formed_inputs;
  repeat apply conj;
  first
    [ rewrite section_lemma; cbn [write_out container];
      apply Forall_snoc; [assumption | apply item_lemma]
    | assumption ].

Lemma addBasicComponent_keeps_inputs d p :
  well_formed_inputs p -> well_formed_inputs (addBasicComponent d p).
Proof.
  revert d p.
  intros d p (H1 & H2 & H3 & H4 & H5 & H6 & H7).
  unfold well_formed_inputs.
  repeat apply conj; try assumption.
  rewrite added_basic_section. cbn [write_out container].
  apply Forall_map. apply Forall_snoc; [exact H1|].
  apply well_formed_basic_item.
Qed.

Lemma addAllowance_keeps_inputs d p :
  well_formed_inputs p -> well_formed_inputs (addAllowance d p).
Proof.
  revert d p.
  keeps_inputs added_allowance_section well_formed_allowance_item.
Qed.

Lemma addRelief_keeps_inputs d p :
  well_formed_inputs p -> well_formed_inputs (addRelief d p).
Proof.
  revert d p. keeps_inputs added_relief_section well_formed_relief_item.
Qed.

Lemma addTaxBracket_keeps_inputs d p :
  well_formed_inputs p -> well_formed_inputs (addTaxBracket d p).
Proof.
  revert d p. keeps_inputs added_bracket_section well_formed_bracket_item.
Qed.

Lemma addStatutoryDeduction_keeps_inputs d p :
  well_formed_inputs p -> well_formed_inputs (addStatutoryDeduction d p).
Proof.
  revert d p.
  keeps_inputs added_statutory_section well_formed_statutory_item.
Qed.

Lemma addOtherDeduction_keeps_inputs d p :
  well_formed_inputs p -> well_formed_inputs (addOtherDeduction d p).
Proof.
  revert d p. keeps_inputs added_other_section well_formed_other_item.
Qed.

Lemma addIncomeItem_keeps_inputs d p :
  well_formed_inputs p -> well_formed_inputs (addIncomeItem d p).
Proof.
  revert d p. keeps_inputs added_income_section well_formed_income_item.
Qed.

(** X15: after [loadExistingData] every input of the page holds a value
    that its control can hold: a single line in a text input, the empty
    text or a valid finite number in a number input, one of its options in
    a select.  In particular no percentage of a basic component reads as an
    infinity, which is what the submission check relies on.  This is for
    hidden fields within the model: no escape of a character above U+00FF,
    and records that the templates render without throwing and without
    markup of their own; the fields need not be JSON and their records need
    not have the types of the canonical forms. *)
Theorem loaded_inputs_are_well_formed (q : Page) :
  plain_fields q = true ->
  well_formed_inputs (loadExistingData q) /\
  percentages_bounded (loadExistingData q).
Proof.
  intros _.
  assert (W : well_formed_inputs (loadExistingData q)).
  { apply load_invariant.
    - exact addBasicComponent_keeps_inputs.
    - exact addAllowance_keeps_inputs.
    - exact addRelief_keeps_inputs.
    - exact addTaxBracket_keeps_inputs.
    - exact addStatutoryDeduction_keeps_inputs.
    - exact addOtherDeduction_keeps_inputs.
    - exact addIncomeItem_keeps_inputs.
    - intros m p H. exact H.
    - unfold well_formed_inputs. repeat apply conj; constructor. }
  split; [exact W|].
  destruct W as (H & _). unfold percentages_bounded.
  revert H. apply Forall_impl. intros item (_ & _ & H).
  apply numeric_not_infinite, H.
Qed.

Lemma loaded_inputs_are_well_formed_witness :
  (well_formed_inputs (loadExistingData page_with_bad_fields) /\
   percentages_bounded (loadExistingData page_with_bad_fields))
  /\ map (fun item => (relief_percentage item, relief_fixed_amount item))
       (container (reliefs (loadExistingData page_with_bad_fields))) =
     [("", "200000")].
Proof.
  split.
  - apply (loaded_inputs_are_well_formed page_with_bad_fields).
    vm_compute. reflexivity.
  - vm_compute. reflexivity.
Defined.

(** ** Identifiers *)

Lemma count_snoc (l : list nat) y x :
  count_occ Nat.eq_dec (l ++ [y]) x =
  (count_occ Nat.eq_dec l x + if Nat.eq_dec y x then 1 else 0)%nat.
Proof.
  rewrite count_occ_app. simpl. destruct (Nat.eq_dec y x); reflexivity.
Qed.

Lemma count_one (y x : nat) :
  count_occ Nat.eq_dec [y] x = if Nat.eq_dec y x then 1%nat else 0%nat.
Proof. simpl. destruct (Nat.eq_dec y x); reflexivity. Qed.

Lemma count_remove_nth i (l : list nat) x :
  (count_occ Nat.eq_dec (remove_nth i l) x <= count_occ Nat.eq_dec l x)%nat.
Proof.
  revert i. induction l as [|y r IH]; intros i; [destruct i; simpl; lia|].
  destruct i as [|j]; simpl.
  - destruct (Nat.eq_dec y x); lia.
  - specialize (IH j). destruct (Nat.eq_dec y x); lia.
Qed.

Lemma map_remove_nth {A B : Type} (f : A -> B) i l :
  map f (remove_nth i l) = remove_nth i (map f l).
Proof.
  revert i. induction l as [|y r IH]; intros i; [destruct i; reflexivity|].
  destruct i as [|j]; simpl; [reflexivity|]. rewrite IH. reflexivity.
Qed.

Lemma map_id_preview l : map comp_id (map basic_preview l) = map comp_id l.
Proof. rewrite map_map. reflexivity. Qed.

Lemma fresh_after_addition p p' :
  (forall x, count_occ Nat.eq_dec (all_ids p') x =
             (count_occ Nat.eq_dec (all_ids p) x +
              if Nat.eq_dec (S (componentCounter p)) x then 1 else 0)%nat) ->
  componentCounter p' = S (componentCounter p) ->
  fresh_ids p -> fresh_ids p'.
Proof.
  intros Hc Hn [Hd Hb]. unfold fresh_ids. rewrite Hn. split.
  - apply (NoDup_count_occ Nat.eq_dec). intros x. rewrite Hc.
    destruct (Nat.eq_dec (S (componentCounter p)) x) as [<-|_].
    + rewrite (proj1 (count_occ_not_In Nat.eq_dec _ _)); [lia|].
      intros Hin. rewrite Forall_forall in Hb. specialize (Hb _ Hin). lia.
    + pose proof (proj1 (NoDup_count_occ Nat.eq_dec _) Hd x). lia.
  - apply Forall_forall. intros x Hin.
    apply (count_occ_In Nat.eq_dec) in Hin. rewrite Hc in Hin.
    destruct (Nat.eq_dec (S (componentCounter p)) x) as [<-|_]; [lia|].
    assert (Hin' : In x (all_ids p))
      by (apply (count_occ_In Nat.eq_dec); lia).
    rewrite Forall_forall in Hb. specialize (Hb _ Hin'). lia.
Qed.

Lemma fresh_after_removal p p' :
  (forall x, (count_occ Nat.eq_dec (all_ids p') x <=
              count_occ Nat.eq_dec (all_ids p) x)%nat) ->
  componentCounter p' = componentCounter p ->
  fresh_ids p -> fresh_ids p'.
Proof.
  intros Hc Hn [Hd Hb]. unfold fresh_ids. rewrite Hn. split.
  - apply (NoDup_count_occ Nat.eq_dec). intros x.
    pose proof (proj1 (NoDup_count_occ Nat.eq_dec _) Hd x).
    specialize (Hc x). lia.
  - apply Forall_forall. intros x Hin.
    apply (count_occ_In Nat.eq_dec) in Hin.
    assert (Hin' : In x (all_ids p)).
    { apply (count_occ_In Nat.eq_dec). specialize (Hc x). lia. }
    rewrite Forall_forall in Hb. apply Hb, Hin'.
Qed.

Ltac count_ids section_lemma :=
  intros x; unfold all_ids; rewrite section_lemma;
  cbn [write_out container];
  rewrite ?map_id_preview, ?map_app, ?map_remove_nth; cbn [map];
  rewrite !count_occ_app, ?count_one.

Lemma addBasicComponent_fresh d p :
  fresh_ids p -> fresh_ids (addBasicComponent d p).
Proof.
  apply fresh_after_addition; [|reflexivity].
  count_ids added_basic_section.
  change (comp_id (basic_item ?i ?d)) with i.
  change (allowances (addBasicComponent d p)) with (allowances p).
  change (reliefs (addBasicComponent d p)) with (reliefs p).
  change (taxBrackets (addBasicComponent d p)) with (taxBrackets p).
  change (statutoryDeductions (addBasicComponent d p))
    with (statutoryDeductions p).
  change (otherDeductions (addBasicComponent d p)) with (otherDeductions p).
  change (incomeItems (addBasicComponent d p)) with (incomeItems p).
  destruct (Nat.eq_dec (S (componentCounter p)) x); lia.
Qed.

Lemma addAllowance_fresh d p : fresh_ids p -> fresh_ids (addAllowance d p).
Proof.
  apply fresh_after_addition; [|reflexivity].
  count_ids added_allowance_section.
  change (allow_id (allowance_item ?i ?d)) with i.
  change (basicComponents (addAllowance d p)) with (basicComponents p).
  change (reliefs (addAllowance d p)) with (reliefs p).
  change (taxBrackets (addAllowance d p)) with (taxBrackets p).
  change (statutoryDeductions (addAllowance d p)) with (statutoryDeductions p).
  change (otherDeductions (addAllowance d p)) with (otherDeductions p).
  change (incomeItems (addAllowance d p)) with (incomeItems p).
  destruct (Nat.eq_dec (S (componentCounter p)) x); lia.
Qed.

Lemma addRelief_fresh d p : fresh_ids p -> fresh_ids (addRelief d p).
Proof.
  apply fresh_after_addition; [|reflexivity].
  count_ids added_relief_section.
  change (relief_id (relief_item ?i ?d)) with i.
  change (basicComponents (addRelief d p)) with (basicComponents p).
  change (allowances (addRelief d p)) with (allowances p).
  change (taxBrackets (addRelief d p)) with (taxBrackets p).
  change (statutoryDeductions (addRelief d p)) with (statutoryDeductions p).
  change (otherDeductions (addRelief d p)) with (otherDeductions p).
  change (incomeItems (addRelief d p)) with (incomeItems p).
  destruct (Nat.eq_dec (S (componentCounter p)) x); lia.
Qed.

Lemma addTaxBracket_fresh d p : fresh_ids p -> fresh_ids (addTaxBracket d p).
Proof.
  apply fresh_after_addition; [|reflexivity].
  count_ids added_bracket_section.
  change (bracket_id (bracket_item ?i ?d)) with i.
  change (basicComponents (addTaxBracket d p)) with (basicComponents p).
  change (allowances (addTaxBracket d p)) with (allowances p).
  change (reliefs (addTaxBracket d p)) with (reliefs p).
  change (statutoryDeductions (addTaxBracket d p))
    with (statutoryDeductions p).
  change (otherDeductions (addTaxBracket d p)) with (otherDeductions p).
  change (incomeItems (addTaxBracket d p)) with (incomeItems p).
  destruct (Nat.eq_dec (S (componentCounter p)) x); lia.
Qed.

Lemma addStatutoryDeduction_fresh d p :
  fresh_ids p -> fresh_ids (addStatutoryDeduction d p).
Proof.
  apply fresh_after_addition; [|reflexivity].
  count_ids added_statutory_section.
  change (stat_id (statutory_item ?i ?d)) with i.
  change (basicComponents (addStatutoryDeduction d p))
    with (basicComponents p).
  change (allowances (addStatutoryDeduction d p)) with (allowances p).
  change (reliefs (addStatutoryDeduction d p)) with (reliefs p).
  change (taxBrackets (addStatutoryDeduction d p)) with (taxBrackets p).
  change (otherDeductions (addStatutoryDeduction d p))
    with (otherDeductions p).
  change (incomeItems (addStatutoryDeduction d p)) with (incomeItems p).
  destruct (Nat.eq_dec (S (componentCounter p)) x); lia.
Qed.

Lemma addOtherDeduction_fresh d p :
  fresh_ids p -> fresh_ids (addOtherDeduction d p).
Proof.
  apply fresh_after_addition; [|reflexivity].
  count_ids added_other_section.
  change (other_id (other_item ?i ?d)) with i.
  change (basicComponents (addOtherDeduction d p)) with (basicComponents p).
  change (allowances (addOtherDeduction d p)) with (allowances p).
  change (reliefs (addOtherDeduction d p)) with (reliefs p).
  change (taxBrackets (addOtherDeduction d p)) with (taxBrackets p).
  change (statutoryDeductions (addOtherDeduction d p))
    with (statutoryDeductions p).
  change (incomeItems (addOtherDeduction d p)) with (incomeItems p).
  destruct (Nat.eq_dec (S (componentCounter p)) x); lia.
Qed.

Lemma addIncomeItem_fresh d p : fresh_ids p -> fresh_ids (addIncomeItem d p).
Proof.
  apply fresh_after_addition; [|reflexivity].
  count_ids added_income_section.
  change (income_id (income_item ?i ?d)) with i.
  change (basicComponents (addIncomeItem d p)) with (basicComponents p).
  change (allowances (addIncomeItem d p)) with (allowances p).
  change (reliefs (addIncomeItem d p)) with (reliefs p).
  change (taxBrackets (addIncomeItem d p)) with (taxBrackets p).
  change (statutoryDeductions (addIncomeItem d p))
    with (statutoryDeductions p).
  change (otherDeductions (addIncomeItem d p)) with (otherDeductions p).
  destruct (Nat.eq_dec (S (componentCounter p)) x); lia.
Qed.

(** X16: the identifiers that [loadExistingData] gives to the records are
    pairwise distinct, over the seven sections together, and none is above
    the counter: the counter is not reset by a load and every record takes
    the next value.  This is for hidden fields within the model: no escape
    of a character above U+00FF, and records that the templates render
    without throwing and without markup of their own. *)
Theorem loaded_identifiers_are_distinct (q : Page) :
  plain_fields q = true ->
  fresh_ids (loadExistingData q).
Proof.
  intros _.
  apply load_invariant.
  - exact addBasicComponent_fresh.
  - exact addAllowance_fresh.
  - exact addRelief_fresh.
  - exact addTaxBracket_fresh.
  - exact addStatutoryDeduction_fresh.
  - exact addOtherDeduction_fresh.
  - exact addIncomeItem_fresh.
  - intros m p H. exact H.
  - split; constructor.
Qed.

Lemma loaded_identifiers_are_distinct_witness :
  fresh_ids (loadExistingData page_with_bad_fields)
  /\ all_ids (loadExistingData page_with_bad_fields) = [1%nat; 2%nat]
  /\ componentCounter (loadExistingData page_with_bad_fields) = 2%nat.
Proof.
  split.
  - apply (loaded_identifiers_are_distinct page_with_bad_fields).
    vm_compute. reflexivity.
  - split; vm_compute; reflexivity.
Defined.

Ltac removal section_lemma p :=
  apply fresh_after_removal; [|reflexivity];
  count_ids section_lemma;
  match goal with
  | |- context [count_occ _ (remove_nth ?i ?l) ?x] =>
      pose proof (count_remove_nth i l x)
  end;
  repeat match goal with
  | |- context [basicComponents (?f ?i p)] =>
      change (basicComponents (f i p)) with (basicComponents p)
  | |- context [allowances (?f ?i p)] =>
      change (allowances (f i p)) with (allowances p)
  | |- context [reliefs (?f ?i p)] =>
      change (reliefs (f i p)) with (reliefs p)
  | |- context [taxBrackets (?f ?i p)] =>
      change (taxBrackets (f i p)) with (taxBrackets p)
  | |- context [statutoryDeductions (?f ?i p)] =>
      change (statutoryDeductions (f i p)) with (statutoryDeductions p)
  | |- context [otherDeductions (?f ?i p)] =>
      change (otherDeductions (f i p)) with (otherDeductions p)
  | |- context [incomeItems (?f ?i p)] =>
      change (incomeItems (f i p)) with (incomeItems p)
  end;
  lia.

(** X17: the buttons keep the identifiers distinct.  On a page whose
    records have distinct identifiers, none above the counter, this still
    holds after a click on any of the seven add buttons, which call
    [add...] without data, and after the removal of any record. *)
Theorem buttons_keep_identifiers_distinct (p : Page) (i : nat) :
  fresh_ids p ->
  Forall fresh_ids
    [addBasicComponent JNull p; addAllowance JNull p; addRelief JNull p;
     addTaxBracket JNull p; addStatutoryDeduction JNull p;
     addOtherDeduction JNull p; addIncomeItem JNull p;
     remove_basic_component i p; remove_allowance i p; remove_relief i p;
     remove_tax_bracket i p; remove_statutory_deduction i p;
     remove_other_deduction i p; remove_income_item i p].
Proof.
  intros H. repeat apply Forall_cons; try apply Forall_nil.
  - apply addBasicComponent_fresh, H.
  - apply addAllowance_fresh, H.
  - apply addRelief_fresh, H.
  - apply addTaxBracket_fresh, H.
  - apply addStatutoryDeduction_fresh, H.
  - apply addOtherDeduction_fresh, H.
  - apply addIncomeItem_fresh, H.
  - revert H. removal removed_basic_section p.
  - revert H. removal removed_allowance_section p.
  - revert H. removal removed_relief_section p.
  - revert H. removal removed_bracket_section p.
  - revert H. removal removed_statutory_section p.
  - revert H. removal removed_other_section p.
  - revert H. removal removed_income_section p.
Qed.

Lemma buttons_keep_identifiers_distinct_witness :
  Forall fresh_ids
    [addBasicComponent JNull (loadExistingData blank_page);
     addAllowance JNull (loadExistingData blank_page);
     addRelief JNull (loadExistingData blank_page);
     addTaxBracket JNull (loadExistingData blank_page);
     addStatutoryDeduction JNull (loadExistingData blank_page);
     addOtherDeduction JNull (loadExistingData blank_page);
     addIncomeItem JNull (loadExistingData blank_page);
     remove_basic_component 0 (loadExistingData blank_page);
     remove_allowance 0 (loadExistingData blank_page);
     remove_relief 0 (loadExistingData blank_page);
     remove_tax_bracket 0 (loadExistingData blank_page);
     remove_statutory_deduction 0 (loadExistingData blank_page);
     remove_other_deduction 0 (loadExistingData blank_page);
     remove_income_item 0 (loadExistingData blank_page)].
Proof.
  apply (buttons_keep_identifiers_distinct (loadExistingData blank_page) 0).
  split.
  - apply (NoDup_count_occ Nat.eq_dec). intros x. vm_compute.
    repeat match goal with
    | |- context [match ?c with left _ => _ | right _ => _ end] =>
        destruct c; try lia
    end.
  - vm_compute. repeat constructor.
Defined.

(** ** The key of a basic component *)

Lemma lower_char_twice c : Str.lower_char (Str.lower_char c) = Str.lower_char c.
Proof. destruct c as [[] [] [] [] [] [] [] []]; vm_compute; reflexivity. Qed.

Lemma replace_spaces_clean (P : ascii -> Prop) in_run s :
  P "_"%char ->
  Forall P (list_ascii_of_string s) ->
  Forall (fun c => Str.is_space c = false /\ P c)
    (list_ascii_of_string (Str.replace_spaces_from in_run s)).
Proof.
  intros Hu. revert in_run.
  induction s as [|c r IH]; intros in_run H; [constructor|].
  inversion H as [|? ? Hc Hr]; subst. simpl.
  destruct (Str.is_space c) eqn:E.
  - destruct in_run; [apply IH, Hr|].
    simpl. constructor; [split; [reflexivity|exact Hu]|apply IH, Hr].
  - simpl. constructor; [split; [exact E|exact Hc]|apply IH, Hr].
Qed.

Lemma toLowerCase_lowered s :
  Forall (fun c => Str.lower_char c = c)
    (list_ascii_of_string (Str.toLowerCase s)).
Proof.
  induction s as [|c r IH]; simpl; constructor;
    [apply lower_char_twice|exact IH].
Qed.

Lemma toLowerCase_fixed s :
  Forall (fun c => Str.lower_char c = c) (list_ascii_of_string s) ->
  Str.toLowerCase s = s.
Proof.
  induction s as [|c r IH]; intros H; [reflexivity|].
  inversion H as [|? ? Hc Hr]; subst. simpl. rewrite Hc, (IH Hr). reflexivity.
Qed.

Lemma replace_spaces_fixed in_run s :
  Forall (fun c => Str.is_space c = false) (list_ascii_of_string s) ->
  Str.replace_spaces_from in_run s = s.
Proof.
  revert in_run. induction s as [|c r IH]; intros in_run H; [reflexivity|].
  inversion H as [|? ? Hc Hr]; subst. simpl. rewrite Hc, (IH false Hr).
  reflexivity.
Qed.

(** X18: the key that [updateBasicComponentsJSON] derives from a name holds
    no white space and no upper-case letter, and it is its own key: a
    component named by the key of another one collides with it. *)
Theorem basic_key_is_normal (name : string) :
  Forall (fun c => Str.is_space c = false /\ Str.lower_char c = c)
    (list_ascii_of_string (basic_key name)) /\
  basic_key (basic_key name) = basic_key name.
Proof.
  assert (H : Forall (fun c => Str.is_space c = false /\ Str.lower_char c = c)
                (list_ascii_of_string (basic_key name))).
  { unfold basic_key, Str.replace_spaces.
    apply (replace_spaces_clean (fun c => Str.lower_char c = c));
      [reflexivity|apply toLowerCase_lowered]. }
  split; [exact H|].
  unfold basic_key at 1.
  rewrite toLowerCase_fixed.
  - apply replace_spaces_fixed. revert H. apply Forall_impl. intros c [E _].
    exact E.
  - revert H. apply Forall_impl. intros c [_ E]. exact E.
Qed.
